(** * tap-zendesk: the incremental replication engine

    A shallow embedding of [tap_zendesk/streams.py] and of the selection
    checks of [tap_zendesk/__init__.py], with the properties of the bookmark
    algebra, of the order-untrusted streams, of the ticket fan-out and of
    the comment reconciliation.

    Python dictionaries are finite maps ([gmap]), generators are runs that
    produce a list of events and end normally or by an exception, and the
    replication state, which the code mutates in place, is threaded through
    every run. *)

From stdpp Require Import gmap strings list fin_maps pretty.
From Stdlib Require Import ZArith Lia Ascii.

Set Default Proof Using "Type".
Local Set Warnings "-register-all".

(* ===================================================================== *)
(** * Python values *)
(* ===================================================================== *)

(** Hashable scalars used as dictionary keys.  [5] and ["5"] are different
    keys of a Python dict, which matters for the per-ticket bookmark map. *)
Inductive pykey :=
| KNone
| KInt (z : Z)
| KStr (s : string).

Global Instance pykey_eq_dec : EqDecision pykey.
Proof. solve_decision. Defined.

Global Instance pykey_countable : Countable pykey.
Proof.
  refine (inj_countable'
            (λ k, match k with
                  | KNone => inl ()
                  | KInt z => inr (inl z)
                  | KStr s => inr (inr s)
                  end)
            (λ x, match x with
                  | inl _ => KNone
                  | inr (inl z) => KInt z
                  | inr (inr s) => KStr s
                  end) _).
  by intros [].
Defined.

(** The JSON-shaped values the tap handles: records, pages, bookmarks. *)
Inductive pyval :=
| PNone
| PInt (z : Z)
| PStr (s : string)
| PList (l : list pyval)
| PDict (d : gmap pykey pyval).

(** A record field name as a key. *)
Notation "# s" := (KStr s) (at level 1, format "# s").

(** The exceptions the modelled code can raise or let through. *)
Inductive exn :=
| TypeError
| ValueError
| KeyError
| AttributeError
| ZendeskNotFound
| DependencyException (msg : string)
| OtherError (msg : string).

(** The result of a call: a value, or a raised exception. *)
Inductive outcome (A : Type) :=
| Return (a : A)
| Raise (e : exn).
Arguments Return {A} a.
Arguments Raise {A} e.

Global Instance outcome_ret : MRet outcome := @Return.
Global Instance outcome_bind : MBind outcome := λ A B f m,
  match m with
  | Return a => f a
  | Raise e => Raise e
  end.

(** Python truthiness: [bool(v)]. *)
Definition truthy (v : pyval) : bool :=
  match v with
  | PNone => false
  | PInt z => negb (z =? 0)%Z
  | PStr s => negb (String.eqb s "")
  | PList l => negb (Nat.eqb (length l) 0)
  | PDict d => negb (Nat.eqb (size d) 0)
  end.

(** [len(v)]; [None] and integers have no length. *)
Definition py_len (v : pyval) : outcome nat :=
  match v with
  | PStr s => Return (String.length s)
  | PList l => Return (length l)
  | PDict d => Return (size d)
  | PNone | PInt _ => Raise TypeError
  end.

(** [v[k]]: a missing key raises [KeyError]. *)
Definition py_getitem (v : pyval) (k : pykey) : outcome pyval :=
  match v with
  | PDict d => match d !! k with
               | Some x => Return x
               | None => Raise KeyError
               end
  | _ => Raise TypeError
  end.

(** [v.get(k, dflt)]; only dicts have [get]. *)
Definition py_get_or (v : pyval) (k : pykey) (dflt : pyval) : outcome pyval :=
  match v with
  | PDict d => Return (default dflt (d !! k))
  | _ => Raise AttributeError
  end.

(** [v.get(k)]: a missing key gives [None]. *)
Definition py_get (v : pyval) (k : pykey) : outcome pyval :=
  py_get_or v k PNone.

(** [v[k] = x] on a dict. *)
Definition py_setitem (v : pyval) (k : pykey) (x : pyval) : outcome pyval :=
  match v with
  | PDict d => Return (PDict (<[k := x]> d))
  | _ => Raise TypeError
  end.

(** [v.pop(k)] without a default: the removed value and the remaining dict. *)
Definition py_pop (v : pyval) (k : pykey) : outcome (pyval * pyval) :=
  match v with
  | PDict d => match d !! k with
               | Some x => Return (x, PDict (delete k d))
               | None => Raise KeyError
               end
  | _ => Raise AttributeError
  end.

(** A value used as a dictionary key; lists and dicts are unhashable. *)
Definition as_key (v : pyval) : outcome pykey :=
  match v with
  | PNone => Return KNone
  | PInt z => Return (KInt z)
  | PStr s => Return (KStr s)
  | PList _ | PDict _ => Raise TypeError
  end.

Definition key_val (k : pykey) : pyval :=
  match k with
  | KNone => PNone
  | KInt z => PInt z
  | KStr s => PStr s
  end.

(** [str(k)] of a scalar. *)
Definition py_str (k : pykey) : string :=
  match k with
  | KNone => "None"
  | KInt z => pretty z
  | KStr s => s
  end.

(* ===================================================================== *)
(** * Generators and in-place state *)
(* ===================================================================== *)

(** A catalog entry: the stream id and whether its metadata selects it. *)
Record catalog_entry := CatalogEntry {
  tap_stream_id : string;
  selected : bool
}.

(** What a run shows to the outside: yielded [(stream, record)] pairs, log
    lines, and the record-count metric points. *)
Inductive event :=
| Yield (stream : option catalog_entry) (record : pyval)
| LogInfo (msg : string)
| LogWarning (msg : string)
| MetricPoint (endpoint : string) (value : nat).

(** How an iteration ends. *)
Inductive status :=
| Done
| Raised (e : exn).

(** What an iterator hands out before it ends: the pages of an HTTP
    listing, or the objects of [get_objects]. *)
Definition iterable (A : Type) : Type := (list A * status)%type.

(** A run over the mutable world [W]: the world it leaves, the events it
    produced (also those before an exception), and how it ended. *)
Definition gen (W A : Type) : Type := W → W * list event * outcome A.

Section Gen.
Context {W : Type}.

Definition gret {A} (a : A) : gen W A := λ w, (w, [], Return a).

Definition gbind {A B} (f : A → gen W B) (m : gen W A) : gen W B := λ w,
  match m w with
  | (w1, ev1, Return a) =>
      let '(w2, ev2, r) := f a w1 in (w2, ev1 ++ ev2, r)
  | (w1, ev1, Raise e) => (w1, ev1, Raise e)
  end.

Definition emit (e : event) : gen W unit := λ w, (w, [e], Return tt).
Definition raise {A} (e : exn) : gen W A := λ w, (w, [], Raise e).
Definition lift {A} (o : outcome A) : gen W A := λ w, (w, [], o).
Definition get_world : gen W W := λ w, (w, [], Return w).
Definition modify (f : W → W) : gen W unit := λ w, (f w, [], Return tt).

(** [except http.ZendeskNotFound: handler]; other exceptions pass. *)
Definition except_not_found (m handler : gen W unit) : gen W unit := λ w,
  match m w with
  | (w1, ev1, Raise ZendeskNotFound) =>
      let '(w2, ev2, r) := handler w1 in (w2, ev1 ++ ev2, r)
  | r => r
  end.
End Gen.

Global Instance gen_ret {W} : MRet (gen W) := @gret W.
Global Instance gen_bind {W} : MBind (gen W) := @gbind W.

(** [for x in it: body(x)] over an iterator that hands out [items] and
    then ends as [fin]. *)
Fixpoint for_each {W A} (body : A → gen W unit) (items : list A) (fin : status)
  : gen W unit :=
  match items with
  | [] => match fin with
          | Done => mret tt
          | Raised e => raise e
          end
  | x :: rest => body x ≫= λ _, for_each body rest fin
  end.

Definition for_in {W A} (it : iterable A) (body : A → gen W unit) : gen W unit :=
  for_each body it.1 it.2.

(** The yielded records of a run, in order. *)
Definition yields (evs : list event) : list (option catalog_entry * pyval) :=
  omap (λ e, match e with Yield s r => Some (s, r) | _ => None end) evs.

Definition warnings (evs : list event) : list string :=
  omap (λ e, match e with LogWarning m => Some m | _ => None end) evs.

(* ===================================================================== *)
(** * A timestamp reader for the examples *)
(* ===================================================================== *)

(** The code parses timestamps with [utils.strptime_with_tz], a library
    call that is a parameter of the development below.  The examples
    instantiate it with a reader of the format of [START_DATE_FORMAT],
    ["%Y-%m-%dT%H:%M:%SZ"], giving seconds since the epoch. *)
Module Iso.
Definition digit (c : Ascii.ascii) : option Z :=
  let n := Z.of_nat (Ascii.nat_of_ascii c) in
  if ((48 <=? n) && (n <=? 57))%Z then Some (n - 48)%Z else None.

Fixpoint number (acc : Z) (cs : list Ascii.ascii) : option Z :=
  match cs with
  | [] => Some acc
  | c :: rest => d ← digit c; number (10 * acc + d)%Z rest
  end.

Definition leap (y : Z) : bool :=
  ((y mod 4 =? 0) && (negb (y mod 100 =? 0) || (y mod 400 =? 0)))%Z.

Definition days_in_month (y m : Z) : Z :=
  if (m =? 2)%Z then (if leap y then 29 else 28)%Z
  else if ((m =? 4) || (m =? 6) || (m =? 9) || (m =? 11))%Z then 30%Z
  else 31%Z.

(** Days from 1970-01-01 to the civil date [y-m-d]. *)
Definition days_from_civil (y m d : Z) : Z :=
  let y' := (if m <=? 2 then y - 1 else y)%Z in
  let era := (y' / 400)%Z in
  let yoe := (y' - era * 400)%Z in
  let mp := (if m <=? 2 then m + 9 else m - 3)%Z in
  let doy := ((153 * mp + 2) / 5 + d - 1)%Z in
  let doe := (yoe * 365 + yoe / 4 - yoe / 100 + doy)%Z in
  (era * 146097 + doe - 719468)%Z.

Definition parse (s : string) : option Z :=
  match String.list_ascii_of_string s with
  | [y1; y2; y3; y4; "-"; m1; m2; "-"; d1; d2; "T";
     h1; h2; ":"; i1; i2; ":"; s1; s2; "Z"]%char =>
      y ← number 0 [y1; y2; y3; y4];
      m ← number 0 [m1; m2];
      d ← number 0 [d1; d2];
      h ← number 0 [h1; h2];
      i ← number 0 [i1; i2];
      sec ← number 0 [s1; s2];
      if ((1 <=? m) && (m <=? 12) && (1 <=? d) && (d <=? days_in_month y m)
          && (h <? 24) && (i <? 60) && (sec <? 60))%Z
      then Some (days_from_civil y m d * 86400 + h * 3600 + i * 60 + sec)%Z
      else None
  | _ => None
  end.
End Iso.

(* ===================================================================== *)
(** * The replication state and singer's bookmark helpers *)
(* ===================================================================== *)

(** The state is [{'bookmarks': {stream: {key: value}}}]; the model is the
    dictionary under ['bookmarks'] (a state without that key is the empty
    one).  A value is a timestamp string, or, for ticket comments, a dict
    from ticket id to timestamp string. *)
Abbreviation bookmarks := (gmap string (gmap string pyval)).

Module singer.
(** [state.get('bookmarks', {}).get(tap_stream_id, {}).get(key, None)] *)
Definition get_bookmark (state : bookmarks) (tap_stream_id key : string) : pyval :=
  default PNone (default ∅ (state !! tap_stream_id) !! key).

(** [ensure_bookmark_path(state, ['bookmarks', tap_stream_id])]: every
    component of the path that is missing (or [None]) becomes [{}]. *)
Definition ensure_stream_path (state : bookmarks) (tap_stream_id : string) : bookmarks :=
  match state !! tap_stream_id with
  | Some _ => state
  | None => <[tap_stream_id := ∅]> state
  end.

(** [ensure_bookmark_path(state, ['bookmarks', tap_stream_id, key])] *)
Definition ensure_bookmark_path (state : bookmarks) (tap_stream_id key : string)
  : bookmarks :=
  let state1 := ensure_stream_path state tap_stream_id in
  let submap := default ∅ (state1 !! tap_stream_id) in
  match submap !! key with
  | None | Some PNone => <[tap_stream_id := <[key := PDict ∅]> submap]> state1
  | Some _ => state1
  end.

(** [state['bookmarks'][tap_stream_id][key] = val], after
    [ensure_bookmark_path(state, ['bookmarks', tap_stream_id])]. *)
Definition write_bookmark (state : bookmarks) (tap_stream_id key : string)
    (val : pyval) : bookmarks :=
  let state1 := ensure_stream_path state tap_stream_id in
  <[tap_stream_id := <[key := val]> (default ∅ (state1 !! tap_stream_id))]> state1.
End singer.

(** [state['bookmarks'][tap_stream_id][key]], by subscripts. *)
Definition state_getitem (state : bookmarks) (tap_stream_id key : string)
  : outcome pyval :=
  match state !! tap_stream_id with
  | None => Raise KeyError
  | Some submap => match submap !! key with
                   | None => Raise KeyError
                   | Some v => Return v
                   end
  end.

(** The objects an iterable value hands out in a [for] loop. *)
Definition py_iter (v : pyval) : outcome (list pyval) :=
  match v with
  | PList l => Return l
  | PDict d => Return ((key_val ∘ fst) <$> map_to_list d)
  | PStr s => Return ((λ c, PStr (String c EmptyString)) <$> String.list_ascii_of_string s)
  | PNone | PInt _ => Raise TypeError
  end.

(** A generator that reads the objects of every page and yields them:
    the objects yielded before it ends, and how it ends. *)
Fixpoint objects_of_pages (read : pyval → outcome (list pyval))
    (pages : list pyval) (fin : status) : iterable pyval :=
  match pages with
  | [] => ([], fin)
  | page :: rest =>
      match read page with
      | Return items =>
          let '(more, fin') := objects_of_pages read rest fin in
          (items ++ more, fin')
      | Raise e => ([], Raised e)
      end
  end.

(** [str(v)]; the text of a list or dict is not rendered. *)
Definition str (v : pyval) : string :=
  match v with
  | PNone => "None"
  | PInt z => pretty z
  | PStr s => s
  | PList _ => "[...]"
  | PDict _ => "{...}"
  end.

(** A call that mutates the world in place or raises before it does. *)
Definition in_place {W} (f : W → outcome W) : gen W unit := λ w,
  match f w with
  | Return w' => (w', [], Return tt)
  | Raise e => (w, [], Raise e)
  end.

(** A call that reads the world. *)
Definition reading {W A} (f : W → outcome A) : gen W A := λ w, (w, [], f w).

(* ===================================================================== *)
(** * Listings that end by "not found" *)
(* ===================================================================== *)







(* ===================================================================== *)
(** * tap_zendesk/__init__.py *)
(* ===================================================================== *)

(** [mdata.get((), {}).get('selected', False)], kept in the entry. *)
Definition stream_is_selected (entry : catalog_entry) : bool := selected entry.

Definition get_selected_streams (catalog : list catalog_entry) : list string :=
  fold_left (λ selected_stream_names entry,
               if stream_is_selected entry
               then selected_stream_names ++ [tap_stream_id entry]
               else selected_stream_names)
            catalog [].

Definition SUB_STREAMS : list (string * list string) :=
  [("tickets", ["ticket_audits"; "ticket_metrics"; "ticket_comments"])].

Definition get_sub_stream_names : list string :=
  fold_left (λ sub_stream_names parent, sub_stream_names ++ parent.2) SUB_STREAMS [].

Definition msg_tmpl (sub_stream_name parent_stream_name : string) : string :=
  "Unable to extract " +:+ sub_stream_name +:+ " data. To receive "
  +:+ sub_stream_name +:+ " data, you also need to select "
  +:+ parent_stream_name +:+ ".".

(** The list [errs] that the two loops of [validate_dependencies] build. *)
Definition dependency_errs (selected_stream_ids : list string) : list string :=
  fold_left
    (λ errs parent,
       fold_left
         (λ errs sub_stream_name,
            if bool_decide (sub_stream_name ∈ selected_stream_ids)
               && negb (bool_decide (parent.1 ∈ selected_stream_ids))
            then errs ++ [msg_tmpl sub_stream_name parent.1]
            else errs)
         parent.2 errs)
    SUB_STREAMS [].

Definition validate_dependencies (selected_stream_ids : list string) : outcome unit :=
  match dependency_errs selected_stream_ids with
  | [] => Return tt
  | errs => Raise (DependencyException (String.concat " " errs))
  end.

(** [do_sync]: the selection is read and checked first; [drive] stands for
    the rest of the function (class schemas, schema messages, the streams'
    syncs through [sync_stream], the final state message). *)
Definition do_sync (drive : list string → gen bookmarks unit)
    (catalog : list catalog_entry) : gen bookmarks unit :=
  let selected_stream_names := get_selected_streams catalog in
  lift (validate_dependencies selected_stream_names);;
  drive selected_stream_names.

(** The violated pairs of a selection, child first: a declared child that
    is selected while its parent is not. *)
Definition violations (selected_stream_ids : list string) : list (string * string) :=
  filter (λ pair, pair.1 ∈ selected_stream_ids ∧ pair.2 ∉ selected_stream_ids)
         (parent ← SUB_STREAMS; (λ child, (child, parent.1)) <$> parent.2).

(* ===================================================================== *)
(** * Data for the examples *)
(* ===================================================================== *)

Module Ex.
(** Every stream is in the catalog and selected. *)
Definition class_stream (tap_stream_id : string) : option catalog_entry :=
  Some (CatalogEntry tap_stream_id true).

Definition cfg : gmap string pyval :=
  {[ "start_date" := PStr "2020-01-01T00:00:00Z" ]}.

(** A state with one bookmark. *)
Definition state_of (tap_stream_id key : string) (v : pyval) : bookmarks :=
  {[ tap_stream_id := {[ key := v ]} ]}.

(** A record with an id and a timestamp under [key]. *)
Definition record (id : Z) (key timestamp : string) : pyval :=
  PDict {[ #"id" := PInt id; #key := PStr timestamp ]}.

(** A listing of one page that ends normally. *)
Definition one_page (item_key : string) (items : list pyval) : iterable pyval :=
  ([PDict {[ #item_key := PList items ]}], Done).

Definition jan1 : string := "2020-01-01T00:00:00Z".
Definition jan2 : string := "2020-01-02T00:00:00Z".
Definition jan15 : string := "2020-01-15T00:00:00Z".
Definition feb1 : string := "2020-02-01T00:00:00Z".
Definition dec31 : string := "2019-12-31T00:00:00Z".

(** A ticket of the export: [generated_timestamp] is in epoch seconds. *)
Definition ticket (id ts : Z) : pyval :=
  PDict {[ #"id" := PInt id; #"generated_timestamp" := PInt ts;
           #"fields" := PList [] ]}.

(** A formatter of epoch seconds for the examples, which knows the two
    instants the example tickets carry. *)
Definition strftime_utc (ts : Z) : outcome string :=
  if (ts =? 1577923200)%Z then Return jan2
  else if (ts =? 1580515200)%Z then Return feb1
  else Raise ValueError.

Definition no_pages : pyval → iterable pyval := λ _, ([], Done).
End Ex.

(** ** The rest of [do_sync] *)

(** The keys of [STREAMS] in [streams.py]. *)
Definition STREAMS : list string :=
  ["tickets"; "groups"; "users"; "organizations"; "ticket_audits";
   "ticket_comments"; "ticket_fields"; "ticket_forms"; "group_memberships";
   "macros"; "satisfaction_ratings"; "tags"; "ticket_metrics"; "sla_policies"].

(** [populate_class_schemas]: the class attribute [STREAMS[id].stream] of
    every stream, as a map from the id to the catalog entry put there;
    [STREAMS[id]] raises [KeyError] on an id that is no key of [STREAMS]. *)
Definition populate_class_schemas (catalog : list catalog_entry)
    (selected_stream_names : list string) : outcome (gmap string catalog_entry) :=
  fold_left
    (λ (acc : outcome (gmap string catalog_entry)) stream,
       classes ← acc;
       if bool_decide (tap_stream_id stream ∈ selected_stream_names) then
         if bool_decide (tap_stream_id stream ∈ STREAMS)
         then Return (<[tap_stream_id stream := stream]> classes)
         else Raise KeyError
       else Return classes)
    catalog (Return ∅).

(** What [do_sync] does that is seen from outside, in order: the schema
    messages, its log lines, the calls of [sync_stream] (with all that a
    call writes), the state message, the calls of [log_aggregate_rates]. *)
Inductive step :=
| WriteSchema (stream_name : string)
| Log (msg : string)
| SyncStream (stream_name : string)
| WriteState (state : bookmarks)
| LogAggregateRates.

(** [SUB_STREAMS.get(stream_name)] *)
Definition SUB_STREAMS_get (stream_name : string) : option (list string) :=
  (list_to_map SUB_STREAMS : gmap string (list string)) !! stream_name.

(** The inner loop of [do_sync], over the children of a stream: the schema
    of every selected child is written from its class attribute. *)
Fixpoint write_sub_schemas (classes : gmap string catalog_entry)
    (selected_stream_names : list string) (sub_stream_names : list string)
  : list step * outcome unit :=
  match sub_stream_names with
  | [] => ([], Return tt)
  | sub_stream_name :: rest =>
      if bool_decide (sub_stream_name ∈ selected_stream_names) then
        match classes !! sub_stream_name with
        | Some sub_stream =>
            let '(steps, r) :=
              write_sub_schemas classes selected_stream_names rest in
            (WriteSchema (tap_stream_id sub_stream) :: steps, r)
        | None => ([], Raise AttributeError)
        end
      else write_sub_schemas classes selected_stream_names rest
  end.

Section DoSync.
(** [sync_stream(state, start_date, STREAMS[stream_name](client, config))],
    of [sync.py]: the state it leaves and the count it returns. *)
Variable sync_stream : string → bookmarks → bookmarks * outcome nat.

(** The loop of [do_sync] over [catalog.streams]. *)
Fixpoint do_sync_loop (classes : gmap string catalog_entry)
    (selected_stream_names : list string) (streams : list catalog_entry)
    (state : bookmarks) : bookmarks * list step * outcome unit :=
  match streams with
  | [] => (state, [], Return tt)
  | stream :: rest =>
      let stream_name := tap_stream_id stream in
      if negb (bool_decide (stream_name ∈ selected_stream_names)) then
        let '(state', steps, r) :=
          do_sync_loop classes selected_stream_names rest state in
        (state', Log (stream_name +:+ ": Skipping - not selected") :: steps, r)
      else
        let '(sub_steps, r) :=
          match SUB_STREAMS_get stream_name with
          | Some (sub :: subs) =>
              write_sub_schemas classes selected_stream_names (sub :: subs)
          | _ => ([], Return tt)
          end in
        match r with
        | Raise e => (state, WriteSchema stream_name :: sub_steps, Raise e)
        | Return _ =>
            if bool_decide (stream_name ∈ get_sub_stream_names) then
              let '(state', steps, r) :=
                do_sync_loop classes selected_stream_names rest state in
              (state', WriteSchema stream_name :: sub_steps ++ steps, r)
            else
              let started :=
                WriteSchema stream_name :: sub_steps
                ++ [Log (stream_name +:+ ": Starting sync"); SyncStream stream_name] in
              match sync_stream stream_name state with
              | (state1, Raise e) => (state1, started, Raise e)
              | (state1, Return counter_value) =>
                  let '(state', steps, r) :=
                    do_sync_loop classes selected_stream_names rest state1 in
                  (state',
                   started
                   ++ [Log (stream_name +:+ ": Completed sync (" +:+
                            pretty counter_value +:+ " rows)");
                       LogAggregateRates]
                   ++ steps, r)
              end
        end
  end.

(** [do_sync(client, catalog, state, config)] *)
Definition do_sync_steps (catalog : list catalog_entry) (state : bookmarks)
  : bookmarks * list step * outcome unit :=
  let selected_stream_names := get_selected_streams catalog in
  match validate_dependencies selected_stream_names with
  | Raise e => (state, [], Raise e)
  | Return _ =>
      match populate_class_schemas catalog selected_stream_names with
      | Raise e => (state, [], Raise e)
      | Return classes =>
          match do_sync_loop classes selected_stream_names catalog state with
          | (state', steps, Raise e) => (state', steps, Raise e)
          | (state', steps, Return _) =>
              (state',
               steps ++ [WriteState state'; Log "Finished sync"; LogAggregateRates],
               Return tt)
          end
      end
  end.
End DoSync.

(** The schema messages, the streams given to [sync_stream] and the state
    messages among the steps of a run, in order. *)
Definition schemas_written (steps : list step) : list string :=
  omap (λ s, match s with WriteSchema n => Some n | _ => None end) steps.

Definition streams_synced (steps : list step) : list string :=
  omap (λ s, match s with SyncStream n => Some n | _ => None end) steps.

Definition states_written (steps : list step) : list bookmarks :=
  omap (λ s, match s with WriteState st => Some st | _ => None end) steps.

(** The declared children of a stream. *)
Definition children (stream_name : string) : list string :=
  default [] (SUB_STREAMS_get stream_name).

(** ** Credentials *)

(** The log lines of the two authentication readers. *)
Inductive auth_log :=
| AuthDebug (msg : string)
| AuthInfo (msg : string).

(** [oauth_auth(args)], on [args.config]. *)
Definition oauth_auth (config : gmap string pyval)
  : list auth_log * outcome (option (gmap string pyval)) :=
  match config !! "access_token" with
  | None => ([AuthDebug "OAuth authentication unavailable."], Return None)
  | Some access_token =>
      ([AuthInfo "Using OAuth authentication."],
       match config !! "subdomain" with
       | None => Raise KeyError
       | Some subdomain =>
           Return (Some {[ "subdomain" := subdomain; "oauth_token" := access_token ]})
       end)
  end.

(** [api_token_auth(args)], on [args.config]. *)
Definition api_token_auth (config : gmap string pyval)
  : list auth_log * outcome (option (gmap string pyval)) :=
  match config !! "email", config !! "api_token" with
  | Some email, Some api_token =>
      ([AuthInfo "Using API Token authentication."],
       match config !! "subdomain" with
       | None => Raise KeyError
       | Some subdomain =>
           Return (Some {[ "subdomain" := subdomain; "email" := email;
                           "token" := api_token ]})
       end)
  | _, _ => ([AuthDebug "API Token authentication unavailable."], Return None)
  end.

(** The keyword arguments [**creds] of the client in [main]:
    [creds = oauth_auth(parsed_args) or api_token_auth(parsed_args)], a
    non-empty dict being true; [**None] raises [TypeError]. *)
Definition main_creds (config : gmap string pyval)
  : list auth_log * outcome (gmap string pyval) :=
  match oauth_auth config with
  | (logs, Raise e) => (logs, Raise e)
  | (logs, Return (Some creds)) => (logs, Return creds)
  | (logs, Return None) =>
      match api_token_auth config with
      | (logs', Raise e) => (logs ++ logs', Raise e)
      | (logs', Return (Some creds)) => (logs ++ logs', Return creds)
      | (logs', Return None) => (logs ++ logs', Raise TypeError)
      end
  end.

(* ===================================================================== *)
(** * tap_zendesk/streams.py *)
(* ===================================================================== *)

(** The objects a stream instance carries. *)
Record Stream := {
  name : string;
  replication_key : string;
  item_key : string;
  stream : option catalog_entry;
  config : gmap string pyval
}.

(** The objects alive during [Tickets.sync]: the state, and the three
    sub-stream instances with their counters and, for the comments, the
    snapshot taken at the first comment of the run. *)
Record heap := Heap {
  state : bookmarks;
  audits_count : nat;
  metrics_count : nat;
  comments_count : nat;
  starting_state : option bookmarks;
  starting_bookmark : pyval
}.

Definition set_state (f : bookmarks → bookmarks) (h : heap) : heap :=
  Heap (f (state h)) (audits_count h) (metrics_count h) (comments_count h)
       (starting_state h) (starting_bookmark h).
Definition set_audits_count (f : nat → nat) (h : heap) : heap :=
  Heap (state h) (f (audits_count h)) (metrics_count h) (comments_count h)
       (starting_state h) (starting_bookmark h).
Definition set_metrics_count (f : nat → nat) (h : heap) : heap :=
  Heap (state h) (audits_count h) (f (metrics_count h)) (comments_count h)
       (starting_state h) (starting_bookmark h).
Definition set_comments_count (f : nat → nat) (h : heap) : heap :=
  Heap (state h) (audits_count h) (metrics_count h) (f (comments_count h))
       (starting_state h) (starting_bookmark h).
Definition set_starting (snapshot : bookmarks) (bookmark : pyval) (h : heap) : heap :=
  Heap (state h) (audits_count h) (metrics_count h) (comments_count h)
       (Some snapshot) bookmark.

(** A run on the state, inside a run on the heap. *)
Definition on_state {A} (m : gen bookmarks A) : gen heap A := λ h,
  let '(st, evs, r) := m (state h) in (set_state (λ _, st) h, evs, r).

(** ** Custom fields *)

Definition CUSTOM_TYPES : list (string * string) :=
  [("text", "string"); ("textarea", "string"); ("date", "string");
   ("regexp", "string"); ("dropdown", "string"); ("integer", "integer");
   ("decimal", "number"); ("checkbox", "boolean"); ("lookup", "string")].

(** [CUSTOM_TYPES.get(zendesk_type)] *)
Definition CUSTOM_TYPES_get (zendesk_type : string) : option string :=
  snd <$> find (λ entry, String.eqb entry.1 zendesk_type) CUSTOM_TYPES.

(** What the code reads of a custom field description of the API: its
    [type], [title] and [key], and the [value]s of its
    [custom_field_options] ([None] when the attribute is [None]). *)
Record custom_field := CustomField {
  field_type : string;
  field_title : string;
  field_key : string;
  custom_field_options : option (list pyval)
}.

Definition process_custom_field (field : custom_field) : outcome pyval :=
  let zendesk_type := field_type field in
  match CUSTOM_TYPES_get zendesk_type with
  | None =>
      Raise (OtherError ("Discovered unsupported type for custom field "
                         +:+ field_title field +:+ " (key: " +:+ field_key field
                         +:+ "): " +:+ zendesk_type))
  | Some json_type =>
      let field_schema : gmap pykey pyval :=
        {[ #"type" := PList [PStr json_type; PStr "null"] ]} in
      let field_schema :=
        if String.eqb zendesk_type "date"
        then <[#"format" := PStr "datetime"]> field_schema
        else field_schema in
      if String.eqb zendesk_type "dropdown" then
        match custom_field_options field with
        | Some values => Return (PDict (<[#"enum" := PList values]> field_schema))
        | None => Raise TypeError
        end
      else Return (PDict field_schema)
  end.

(** An exception of a call of the API: a [zenpy] [APIException], of which
    the code reads [json.loads(e.args[0])], or another one. *)
Inductive zenpy_exception :=
| APIException (response : pyval)
| NotAPIException (e : exn).

(** What a call of the API for the field descriptions gives. *)
Inductive fields_call :=
| Fields (fields : list custom_field)
| CallRaises (e : zenpy_exception).

(** How [_add_custom_fields] ends: with a schema and the warnings logged,
    with the [APIException] it caught raised again, or with another
    exception. *)
Inductive discovered :=
| Discovered (schema : pyval) (warnings : list string)
| Reraised (response : pyval)
| Failed (e : exn).

Definition no_access_warning (stream : string) : string :=
  "The account credentials supplied do not have access to `" +:+ stream
  +:+ "` custom fields.".

(** [v == s] for a string [s]. *)
Definition is_str (v : pyval) (s : string) : bool :=
  match v with
  | PStr s' => String.eqb s' s
  | _ => false
  end.

(** [raise_or_log_zenpy_apiexception(schema, stream, e)]; [e.args[0]] is
    taken as the JSON value it holds. *)
Definition raise_or_log_zenpy_apiexception (schema : pyval) (stream : string)
    (e : zenpy_exception) : discovered :=
  match e with
  | NotAPIException _ => Failed ValueError
  | APIException response =>
      match py_get response #"description" with
      | Raise e => Failed e
      | Return description =>
          if is_str description "You are missing the following required scopes: read"
          then Discovered schema [no_access_warning stream]
          else
            match py_get response #"error" with
            | Raise e => Failed e
            | Return (PDict error) =>
                if is_str (default PNone (error !! #"message"))
                     "You do not have access to this page. Please contact the account owner of this help desk for further help."
                then Discovered schema [no_access_warning stream]
                else Reraised response
            | Return _ => Reraised response
            end
      end
  end.

(** [schema['properties'][holder]['properties'] = properties] *)
Definition set_custom_properties (schema : pyval) (holder : string)
    (properties : gmap pykey pyval) : outcome pyval :=
  all ← py_getitem schema #"properties";
  held ← py_getitem all #holder;
  held' ← py_setitem held #"properties" (PDict properties);
  all' ← py_setitem all #holder held';
  py_setitem schema #"properties" all'.

(** The loop over the fields: every field is put under its key. *)
Fixpoint custom_properties (fields : list custom_field)
    (properties : gmap pykey pyval) : outcome (gmap pykey pyval) :=
  match fields with
  | [] => Return properties
  | field :: rest =>
      field_schema ← process_custom_field field;
      custom_properties rest (<[#(field_key field) := field_schema]> properties)
  end.

(** [Users._add_custom_fields] (with [holder] ['user_fields']) and
    [Organizations._add_custom_fields] (with ['organization_fields']). *)
Definition add_custom_fields (stream holder : string) (call : fields_call)
    (schema : pyval) : discovered :=
  match call with
  | CallRaises (NotAPIException e) => Failed e
  | CallRaises (APIException response) =>
      raise_or_log_zenpy_apiexception schema stream (APIException response)
  | Fields field_gen =>
      match set_custom_properties schema holder ∅ with
      | Raise e => Failed e
      | Return _ =>
          match custom_properties field_gen ∅ with
          | Raise e => Failed e
          | Return properties =>
              match set_custom_properties schema holder properties with
              | Raise e => Failed e
              | Return schema' => Discovered schema' []
              end
          end
      end
  end.

Definition Users_add_custom_fields : fields_call → pyval → discovered :=
  add_custom_fields "users" "user_fields".

Definition Organizations_add_custom_fields : fields_call → pyval → discovered :=
  add_custom_fields "organizations" "organization_fields".

(** The custom properties of a schema: [schema['properties'][holder]['properties']]. *)
Definition get_custom_properties (schema : pyval) (holder : string) : outcome pyval :=
  all ← py_getitem schema #"properties";
  held ← py_getitem all #holder;
  py_getitem held #"properties".

Section Streams.
(** [dateutil]'s reading of a timestamp string as an instant, made
    timezone-aware; [None] where it raises [ValueError]. *)
Variable parse_instant : string → option Z.

(** [utils.strftime(datetime.utcfromtimestamp(ts).replace(tzinfo=UTC))] *)
Variable strftime_utc : Z → outcome string.

(** The class attribute [STREAMS[name].stream], which
    [populate_class_schemas] sets for the selected streams. *)
Variable class_stream : string → option catalog_entry.

(** The pages the HTTP collaborator hands out: for the per-ticket
    listings by ticket id, for the ticket export by start instant. *)
Variable audits_pages metrics_pages comments_pages : pyval → iterable pyval.
Variable tickets_pages : Z → iterable pyval.

(** [utils.strptime_with_tz]: a non-string raises [TypeError]. *)
Definition strptime_with_tz (dtime : pyval) : outcome Z :=
  match dtime with
  | PStr s => match parse_instant s with
              | Some t => Return t
              | None => Raise ValueError
              end
  | _ => Raise TypeError
  end.

(** ** class Stream *)

Definition get_bookmark (self : Stream) (state : bookmarks) : outcome Z :=
  strptime_with_tz (singer.get_bookmark state (name self) (replication_key self)).

Definition update_bookmark (self : Stream) (state : bookmarks) (value : pyval)
  : outcome bookmarks :=
  current_bookmark ← get_bookmark self state;
  if truthy value then
    t ← strptime_with_tz value;
    if (current_bookmark <? t)%Z
    then Return (singer.write_bookmark state (name self) (replication_key self) value)
    else Return state
  else Return state.

Definition is_selected (self : Stream) : bool :=
  match stream self with
  | Some _ => true
  | None => false
  end.

(** ** class CursorBasedStream, class CursorBasedExportStream *)

Definition CursorBasedStream_get_objects (self : Stream) (pages : iterable pyval)
  : iterable pyval :=
  objects_of_pages (λ page, py_getitem page #(item_key self) ≫= py_iter)
                   pages.1 pages.2.

Definition CursorBasedExportStream_get_objects (self : Stream)
    (pages : iterable pyval) : iterable pyval :=
  objects_of_pages
    (λ page,
       match page with
       | PDict d =>
           match d !! #"error", d !! #(item_key self) with
           | Some error, None =>
               message ← py_get_or error #"message"
                                   (PStr "Error found in the account.");
               match message with
               | PStr m => Raise (OtherError ("Error: " +:+ m))
               | _ => Raise TypeError
               end
           | _, _ => py_getitem page #(item_key self) ≫= py_iter
           end
       | _ => Raise TypeError
       end)
    pages.1 pages.2.
(** ** class Users *)

Definition Users (cfg : gmap string pyval) : Stream :=
  {| name := "users"; replication_key := "updated_at"; item_key := "users";
     stream := class_stream "users"; config := cfg |}.

(** [pages] gives the export pages for the start time computed from the
    bookmark instant ([int(bookmark.timestamp())]). *)
Definition Users_body (self : Stream) (user : pyval) : gen bookmarks unit :=
  updated_at ← lift (py_getitem user #"updated_at");
  in_place (λ state, update_bookmark self state updated_at);;
  emit (Yield (stream self) user).

Definition Users_sync (self : Stream) (pages : Z → iterable pyval)
  : gen bookmarks unit :=
  bookmark ← reading (get_bookmark self);
  for_in (CursorBasedExportStream_get_objects self (pages bookmark))
         (Users_body self).

(** ** class Groups *)

Definition Groups (cfg : gmap string pyval) : Stream :=
  {| name := "groups"; replication_key := "updated_at"; item_key := "groups";
     stream := class_stream "groups"; config := cfg |}.

Definition Groups_body (self : Stream) (bookmark : Z) (group : pyval)
  : gen bookmarks unit :=
  updated_at ← lift (py_getitem group #"updated_at");
  t ← lift (strptime_with_tz updated_at);
  if (bookmark <=? t)%Z then
    in_place (λ state, update_bookmark self state updated_at);;
    emit (Yield (stream self) group)
  else mret tt.

Definition Groups_sync (self : Stream) (pages : iterable pyval)
  : gen bookmarks unit :=
  bookmark ← reading (get_bookmark self);
  for_in (CursorBasedStream_get_objects self pages) (Groups_body self bookmark).

(** ** class GroupMemberships *)

Definition GroupMemberships (cfg : gmap string pyval) : Stream :=
  {| name := "group_memberships"; replication_key := "updated_at";
     item_key := "group_memberships";
     stream := class_stream "group_memberships"; config := cfg |}.

Definition GroupMemberships_body (self : Stream) (bookmark : Z)
    (membership : pyval) : gen bookmarks unit :=
  updated_at ← lift (py_getitem membership #"updated_at");
  if truthy updated_at then
    t ← lift (strptime_with_tz updated_at);
    if (bookmark <=? t)%Z then
      in_place (λ state, update_bookmark self state updated_at);;
      emit (Yield (stream self) membership)
    else mret tt
  else
    id ← lift (py_getitem membership #"id");
    if truthy id then
      emit (LogInfo ("group_membership record with id: " +:+ str id +:+
                     " does not have an updated_at field so it will be syncd..."));;
      emit (Yield (stream self) membership)
    else
      emit (LogInfo
        "Received group_membership record with no id or updated_at, skipping...").

Definition GroupMemberships_sync (self : Stream) (pages : iterable pyval)
  : gen bookmarks unit :=
  bookmark ← reading (get_bookmark self);
  for_in (CursorBasedStream_get_objects self pages)
         (GroupMemberships_body self bookmark).

(** ** class TicketAudits *)

(** The class has no replication key ([None]); the field is unused. *)
Definition TicketAudits (cfg : gmap string pyval) : Stream :=
  {| name := "ticket_audits"; replication_key := ""; item_key := "audits";
     stream := class_stream "ticket_audits"; config := cfg |}.

Definition TicketAudits_get_objects (self : Stream) (ticket_id : pyval)
  : iterable pyval :=
  let pages := audits_pages ticket_id in
  objects_of_pages
    (λ page, py_get_or page #(item_key self) (PList []) ≫= py_iter)
    pages.1 pages.2.

Definition TicketAudits_sync (self : Stream) (ticket_id : pyval) : gen heap unit :=
  for_in (TicketAudits_get_objects self ticket_id) (λ ticket_audit,
    modify (set_audits_count S);;
    emit (Yield (stream self) ticket_audit)).

(** ** class TicketMetrics *)

Definition TicketMetrics (cfg : gmap string pyval) : Stream :=
  {| name := "ticket_metrics"; replication_key := ""; item_key := "ticket_metric";
     stream := class_stream "ticket_metrics"; config := cfg |}.

Definition TicketMetrics_sync (self : Stream) (ticket_id : pyval) : gen heap unit :=
  for_in (metrics_pages ticket_id) (λ page,
    modify (set_metrics_count S);;
    metric ← lift (py_getitem page #(item_key self));
    emit (Yield (stream self) metric)).
(** ** class TicketComments *)

Definition TicketComments (cfg : gmap string pyval) : Stream :=
  {| name := "ticket_comments"; replication_key := "created_at";
     item_key := "comments";
     stream := class_stream "ticket_comments"; config := cfg |}.

Definition TicketComments_get_objects (self : Stream) (ticket_id : pyval)
  : iterable pyval :=
  let pages := comments_pages ticket_id in
  objects_of_pages
    (λ page,
       items ← py_get page #(item_key self);
       if truthy items then py_iter items else Return [])
    pages.1 pages.2.

(** [not tc_bookmark and len(tc_bookmark) == 0] *)
Definition seed_guard (tc_bookmark : pyval) : outcome bool :=
  if negb (truthy tc_bookmark)
  then n ← py_len tc_bookmark; Return (Nat.eqb n 0)
  else Return false.

(** [state['bookmarks'][stream][key] = val] on an existing stream entry. *)
Definition state_setitem (tap_stream_id key : string) (val : pyval)
    (state : bookmarks) : bookmarks :=
  <[tap_stream_id := <[key := val]> (default ∅ (state !! tap_stream_id))]> state.

(** The block under [if not self.starting_state]: make the path of the
    per-ticket map, seed the map from the ticket bookmark when the guard
    says so, then keep a deep copy of the state. *)
Definition capture_starting_state (self : Stream) (ticket_id : pyval)
  : gen heap unit :=
  h ← get_world;
  match starting_state h with
  | Some _ => mret tt
  | None =>
      modify (set_state (λ st,
        singer.ensure_bookmark_path st (name self) (replication_key self)));;
      tc_bookmark ← reading (λ h,
        match state h !! "ticket_comments" with
        | Some submap => Return (default PNone (submap !! replication_key self))
        | None => Raise KeyError
        end);
      seed ← lift (seed_guard tc_bookmark);
      (if seed : bool then
         generated ← reading (λ h,
           state_getitem (state h) "tickets" "generated_timestamp");
         modify (set_state (state_setitem "ticket_comments" (replication_key self)
                   (PDict {[ KStr (str ticket_id) := generated ]})))
       else mret tt);;
      modify (λ h, set_starting (state h)
                (singer.get_bookmark (state h) (name self) (replication_key self)) h)
  end.

(** Lines 448 to 455: the live per-ticket bookmark. *)
Definition advance_comment_bookmark (self : Stream) (ticket_id created_at : pyval)
  : gen heap unit :=
  current_bookmark ← reading (λ h,
    Return (singer.get_bookmark (state h) (name self) (replication_key self)));
  match current_bookmark with
  | PDict per_ticket =>
      k ← lift (as_key ticket_id);
      let write := modify (set_state (state_setitem (name self) (replication_key self)
                             (PDict (<[k := created_at]> per_ticket)))) in
      let entry := default PNone (per_ticket !! k) in
      if negb (truthy entry) then write
      else
        current ← lift (strptime_with_tz entry);
        if truthy created_at then
          t ← lift (strptime_with_tz created_at);
          if (current <? t)%Z then write else mret tt
        else mret tt
  | _ => raise AttributeError
  end.

(** Lines 457 to 462: the threshold, read from the snapshot. *)
Definition ticket_bookmark (self : Stream) (ticket_id : pyval) (h : heap)
  : outcome Z :=
  per_ticket ← py_get (starting_bookmark h) (KStr (str ticket_id));
  if truthy per_ticket then strptime_with_tz per_ticket
  else
    match starting_state h with
    | None => Raise TypeError
    | Some snapshot =>
        match snapshot !! "tickets" with
        | None => Raise AttributeError
        | Some tickets =>
            let generated := default PNone (tickets !! "generated_timestamp") in
            if truthy generated then strptime_with_tz generated
            else strptime_with_tz (default PNone (config self !! "start_date"))
        end
    end.

Definition TicketComments_body (self : Stream) (ticket_id ticket_comment : pyval)
  : gen heap unit :=
  ticket_comment ← lift (py_setitem ticket_comment #"ticket_id" ticket_id);
  capture_starting_state self ticket_id;;
  created_at ← lift (py_get ticket_comment #"created_at");
  advance_comment_bookmark self ticket_id created_at;;
  threshold ← reading (ticket_bookmark self ticket_id);
  t ← lift (strptime_with_tz created_at);
  if (threshold <? t)%Z then
    emit (Yield (stream self) ticket_comment);;
    modify (set_comments_count S)
  else mret tt.

Definition TicketComments_sync (self : Stream) (ticket_id : pyval) : gen heap unit :=
  for_in (TicketComments_get_objects self ticket_id)
         (TicketComments_body self ticket_id).

(** ** class Tickets *)

Definition Tickets (cfg : gmap string pyval) : Stream :=
  {| name := "tickets"; replication_key := "generated_timestamp";
     item_key := "tickets";
     stream := class_stream "tickets"; config := cfg |}.

Definition emit_sub_stream_metrics (sub_stream : Stream) (count : heap → nat)
    (reset : heap → heap) : gen heap unit :=
  match stream sub_stream with
  | Some entry =>
      h ← get_world;
      emit (MetricPoint (tap_stream_id entry) (count h));;
      modify reset
  | None => mret tt
  end.

(** One child of the fan-out: [if sub.is_selected(): try: ... except
    http.ZendeskNotFound: LOGGER.warning(...)]. *)
Definition sync_sub_stream (sub_stream : Stream) (what : string) (ticket : pyval)
    (sync : pyval → gen heap unit) : gen heap unit :=
  if is_selected sub_stream then
    except_not_found
      (ticket_id ← lift (py_getitem ticket #"id"); sync ticket_id)
      (ticket_id ← lift (py_getitem ticket #"id");
       emit (LogWarning ("Unable to retrieve " +:+ what +:+ " for ticket (ID: "
                         +:+ str ticket_id +:+ "), record not found")))
  else mret tt.

Definition Tickets_body (self audits_stream metrics_stream comments_stream : Stream)
    (ticket : pyval) : gen heap unit :=
  generated_timestamp ← lift (py_get ticket #"generated_timestamp");
  generated ← lift (match generated_timestamp with
                    | PInt ts => strftime_utc ts
                    | _ => Raise TypeError
                    end);
  on_state (in_place (λ state, update_bookmark self state (PStr generated)));;
  popped ← lift (py_pop ticket #"fields");
  let ticket := popped.2 in
  emit (Yield (stream self) ticket);;
  sync_sub_stream audits_stream "audits" ticket (TicketAudits_sync audits_stream);;
  sync_sub_stream metrics_stream "metrics" ticket (TicketMetrics_sync metrics_stream);;
  sync_sub_stream comments_stream "comments" ticket
                  (TicketComments_sync comments_stream).

Definition Tickets_run (self : Stream) : gen heap unit :=
  bookmark ← on_state (reading (get_bookmark self));
  let audits_stream := TicketAudits (config self) in
  let metrics_stream := TicketMetrics (config self) in
  let comments_stream := TicketComments (config self) in
  (if is_selected audits_stream
   then emit (LogInfo "Syncing ticket_audits per ticket...")
   else mret tt);;
  for_in (CursorBasedExportStream_get_objects self (tickets_pages bookmark))
         (Tickets_body self audits_stream metrics_stream comments_stream);;
  emit_sub_stream_metrics audits_stream audits_count (set_audits_count (λ _, 0));;
  emit_sub_stream_metrics metrics_stream metrics_count (set_metrics_count (λ _, 0));;
  emit_sub_stream_metrics comments_stream comments_count (set_comments_count (λ _, 0)).

(** [Tickets.sync(state)]: the sub-stream instances are made afresh. *)
Definition Tickets_sync (self : Stream) : gen bookmarks unit := λ st,
  let '(h, evs, r) := Tickets_run self (Heap st 0 0 0 None PNone) in
  (state h, evs, r).

(** ** What the statements below speak of *)

(** [update_bookmark] has something to write: the stored bookmark and the
    non-empty candidate both parse, and the candidate is strictly later. *)
Definition advances (self : Stream) (state : bookmarks) (value : pyval) : Prop :=
  ∃ current t,
    get_bookmark self state = Return current ∧
    truthy value = true ∧
    strptime_with_tz value = Return t ∧
    (current < t)%Z.

(** The instant of a candidate that [update_bookmark] reads: it is
    non-empty and parses. *)
Definition valid_instant (value : pyval) : option Z :=
  if truthy value then
    match strptime_with_tz value with
    | Return t => Some t
    | Raise _ => None
    end
  else None.

(** The instant of a record's replication key. *)
Definition record_instant (key : string) (record : pyval) : option Z :=
  match py_getitem record #key ≫= strptime_with_tz with
  | Return t => Some t
  | Raise _ => None
  end.

(** The latest of a start instant and a list of instants. *)
Definition latest (start : Z) (instants : list Z) : Z :=
  foldr Z.max start instants.

(** A record whose replication key [update_bookmark] accepts: the field
    is there, and its value is absent, empty, or a timestamp that parses. *)
Definition feedable (key : string) (record : pyval) : Prop :=
  ∃ v, py_getitem record #key = Return v ∧
       (truthy v = false ∨ ∃ t, strptime_with_tz v = Return t).

(** The valid timestamps among the replication keys of the records. *)
Definition fed_instants (key : string) (records : list pyval) : list Z :=
  omap (λ record, match py_getitem record #key with
                  | Return v => valid_instant v
                  | Raise _ => None
                  end) records.

(** Whether a record passes the test [>= bookmark] of the order-untrusted
    streams. *)
Definition at_or_after (key : string) (bookmark : Z) (record : pyval) : bool :=
  match record_instant key record with
  | Some t => (bookmark <=? t)%Z
  | None => false
  end.

(** Whether the instant of a record is exactly [bookmark]. *)
Definition at_instant (key : string) (bookmark : Z) (record : pyval) : bool :=
  match record_instant key record with
  | Some t => (t =? bookmark)%Z
  | None => false
  end.

(** [dateutil] does not read the empty string as a timestamp. *)
Hypothesis parse_empty : parse_instant "" = None.

(** The comment as the stream yields it: [ticket_comment['ticket_id'] =
    ticket_id]. *)
Definition with_ticket_id (ticket_id : pyval) (ticket_comment : pyval) : pyval :=
  match ticket_comment with
  | PDict d => PDict (<[#"ticket_id" := ticket_id]> d)
  | v => v
  end.

(** Whether the instant of a record is strictly after [threshold]. *)
Definition strictly_after (key : string) (threshold : Z) (record : pyval) : bool :=
  match record_instant key record with
  | Some t => (threshold <? t)%Z
  | None => false
  end.

(** The threshold of a ticket's comments in the words of the design:
    the per-ticket comment bookmark of the snapshot if there is one, else
    the ticket bookmark of the snapshot, else the configured start date.
    The per-ticket bookmark is the entry under the text of the ticket
    id, the form the keys have in a state read from JSON. *)
Definition resolved_threshold (snapshot : bookmarks) (cfg : gmap string pyval)
    (ticket_id : pyval) : pyval :=
  let per_ticket :=
    match singer.get_bookmark snapshot "ticket_comments" "created_at" with
    | PDict m => default PNone (m !! KStr (str ticket_id))
    | _ => PNone
    end in
  if truthy per_ticket then per_ticket
  else
    let tickets := singer.get_bookmark snapshot "tickets" "generated_timestamp" in
    if truthy tickets then tickets
    else default PNone (cfg !! "start_date").

(** The instance keeps, next to the snapshot, the per-ticket map of the
    snapshot ([self.starting_bookmark]). *)
Definition snapshot_ok (h : heap) : Prop :=
  match starting_state h with
  | Some snapshot =>
      starting_bookmark h
      = singer.get_bookmark snapshot "ticket_comments" "created_at"
  | None => True
  end.

(** The live per-ticket comment bookmarks. *)
Definition per_ticket_map (state : bookmarks) : gmap pykey pyval :=
  match singer.get_bookmark state "ticket_comments" "created_at" with
  | PDict m => m
  | _ => ∅
  end.


(** Whether [GroupMemberships.sync] yields a membership: one with an
    [updated_at] if it is at or after the bookmark, one whose [updated_at]
    is [None] or empty if it has an [id]. *)
Definition membership_kept (bookmark : Z) (membership : pyval) : bool :=
  match py_getitem membership #"updated_at" with
  | Return updated_at =>
      if truthy updated_at then at_or_after "updated_at" bookmark membership
      else match py_getitem membership #"id" with
           | Return id => truthy id
           | Raise _ => false
           end
  | Raise _ => false
  end.

(** Whether an event is a record yielded for the stream [id]. *)
Definition yielded_for (id : string) (e : event) : bool :=
  match e with
  | Yield (Some entry) _ => bool_decide (tap_stream_id entry = id)
  | _ => false
  end.

(** The number of records a run has yielded for the stream [id]. *)
Definition count_yields (id : string) (evs : list event) : nat :=
  length (filter (yielded_for id) evs).

(** The record-count metric points of a run, in order. *)
Definition metric_points (evs : list event) : list (string * nat) :=
  omap (λ e, match e with MetricPoint endpoint v => Some (endpoint, v) | _ => None end)
       evs.

(** How a listing ends, as the end of the loop over it. *)
Definition status_outcome (fin : status) : outcome unit :=
  match fin with
  | Done => Return tt
  | Raised e => Raise e
  end.

(** The counters of the sub-streams have grown by the records yielded for
    them, and no metric point was logged. *)
Definition accounted (h h' : heap) (evs : list event) : Prop :=
  audits_count h' = audits_count h + count_yields "ticket_audits" evs
  ∧ metrics_count h' = metrics_count h + count_yields "ticket_metrics" evs
  ∧ comments_count h' = comments_count h + count_yields "ticket_comments" evs
  ∧ metric_points evs = [].

(** The bookmarks after a part of [Tickets.sync], with respect to those
    before: the
    bookmark of the tickets is not earlier, and no bookmark but that one
    and those of the comments has changed. *)
Definition bookmarks_kept (cfg : gmap string pyval) (st st' : bookmarks) : Prop :=
  (∀ current, get_bookmark (Tickets cfg) st = Return current →
     ∃ current', get_bookmark (Tickets cfg) st' = Return current'
                 ∧ (current ≤ current')%Z)
  ∧ ∀ n k, n ≠ "ticket_comments" → (n, k) ≠ ("tickets", "generated_timestamp") →
      singer.get_bookmark st' n k = singer.get_bookmark st n k.

(** ** The bookmark primitive *)

Lemma get_bookmark_write (self : Stream) (state : bookmarks) (value : pyval) :
  singer.get_bookmark
    (singer.write_bookmark state (name self) (replication_key self) value)
    (name self) (replication_key self) = value.
Proof.
  unfold singer.get_bookmark, singer.write_bookmark.
  rewrite lookup_insert_eq. simpl. by rewrite lookup_insert_eq.
Qed.

Lemma advances_dec (self : Stream) (state : bookmarks) (value : pyval) :
  advances self state value ∨ ¬ advances self state value.
Proof.
  unfold advances.
  destruct (get_bookmark self state) as [c|e] eqn:Hc;
    last by right; intros (? & ? & ? & _).
  destruct (truthy value) eqn:Hv;
    last by right; intros (? & ? & _ & ? & _).
  destruct (strptime_with_tz value) as [t|e] eqn:Ht;
    last by right; intros (? & ? & _ & _ & ? & _).
  destruct (decide (c < t)%Z) as [Hlt|Hge].
  - left. by exists c, t.
  - right. intros (c' & t' & [= <-] & _ & [= <-] & ?). lia.
Qed.

(** C1, as the code has it: [update_bookmark] writes the candidate when
    the candidate is non-empty, parses and is strictly later than the
    stored bookmark; a candidate that is absent, empty, or not later
    leaves the state as it is; and the call raises, without writing,
    exactly when the stored bookmark or a non-empty candidate does not
    parse: a stored bookmark that does not parse makes every call raise
    its error, and so does, the stored bookmark parsing, a non-empty
    candidate that does not parse. *)
Theorem update_bookmark_writes_iff_later
    (self : Stream) (state : bookmarks) (value : pyval) :
  match update_bookmark self state value with
  | Return state' =>
      (advances self state value ∧
       state' = singer.write_bookmark state (name self) (replication_key self) value)
      ∨ (¬ advances self state value ∧ state' = state)
  | Raise e =>
      ¬ advances self state value ∧
      (get_bookmark self state = Raise e
       ∨ (truthy value = true ∧ strptime_with_tz value = Raise e))
  end
  ∧ (∀ e, get_bookmark self state = Raise e →
          update_bookmark self state value = Raise e)
  ∧ (∀ current e,
       get_bookmark self state = Return current →
       truthy value = true →
       strptime_with_tz value = Raise e →
       update_bookmark self state value = Raise e)
  ∧ (∀ current,
       get_bookmark self state = Return current →
       truthy value = false ∨ (∃ t, strptime_with_tz value = Return t) →
       ∃ state', update_bookmark self state value = Return state').
Proof.
  unfold update_bookmark, advances. split_and!.
  - destruct (get_bookmark self state) as [c|e] eqn:Hc; simpl.
    2: { split; [by intros (? & ? & ? & _) | by left]. }
    destruct (truthy value) eqn:Hv.
    2: { right. split; [by intros (? & ? & _ & ? & _) | done]. }
    destruct (strptime_with_tz value) as [t|e] eqn:Ht; simpl.
    2: { split; [by intros (? & ? & _ & _ & ? & _) | by right]. }
    destruct (Z.ltb_spec c t) as [Hlt|Hge].
    + left. split; [by exists c, t | done].
    + right. split; [|done].
      intros (c' & t' & [= <-] & _ & [= <-] & ?). lia.
  - by intros e ->.
  - by intros current e -> -> ->.
  - intros current -> [->|[t ->]]; simpl; [by eexists|].
    destruct (truthy value); [|by eexists].
    destruct (current <? t)%Z; by eexists.
Qed.

(** ** Loops *)

Lemma latest_max_r (start t : Z) (instants : list Z) :
  latest (Z.max start t) instants = Z.max t (latest start instants).
Proof.
  unfold latest. induction instants as [|x xs IH]; simpl; [lia|].
  rewrite IH. lia.
Qed.

Lemma latest_ge_start (start : Z) (instants : list Z) :
  (start ≤ latest start instants)%Z.
Proof. unfold latest. induction instants; simpl; lia. Qed.

Lemma latest_upper_bound (start : Z) (instants : list Z) (t : Z) :
  t ∈ instants → (t ≤ latest start instants)%Z.
Proof.
  unfold latest. induction instants as [|x xs IH]; simpl.
  - by intros ?%elem_of_nil.
  - intros [->|Hin]%elem_of_cons; [lia|]. specialize (IH Hin). lia.
Qed.

Lemma latest_attained (start : Z) (instants : list Z) :
  latest start instants = start ∨ latest start instants ∈ instants.
Proof.
  unfold latest. induction instants as [|x xs IH]; simpl; [by left|].
  destruct (Z.max_spec x (foldr Z.max start xs)) as [[_ ->]|[_ ->]].
  - destruct IH as [->|Hin]; [by left | right; by apply elem_of_cons; right].
  - right. apply elem_of_cons. by left.
Qed.

Lemma latest_Permutation (start : Z) (xs ys : list Z) :
  xs ≡ₚ ys → latest start xs = latest start ys.
Proof.
  unfold latest. induction 1; simpl; [done | congruence | lia | congruence].
Qed.

Lemma update_bookmark_instant (self : Stream) (state : bookmarks)
    (value : pyval) (current : Z) :
  get_bookmark self state = Return current →
  (truthy value = false ∨ ∃ t, strptime_with_tz value = Return t) →
  ∃ state',
    update_bookmark self state value = Return state' ∧
    get_bookmark self state' =
      Return (match valid_instant value with
              | Some t => Z.max current t
              | None => current
              end).
Proof.
  intros Hc Hv. unfold update_bookmark, valid_instant. rewrite Hc. simpl.
  destruct (truthy value) eqn:Htr.
  - destruct Hv as [?|[t Ht]]; [done|]. rewrite Ht. simpl.
    destruct (Z.ltb_spec current t).
    + eexists; split; [done|]. unfold get_bookmark.
      rewrite get_bookmark_write, Ht. f_equal. lia.
    + eexists; split; [done|]. rewrite Hc. f_equal. lia.
  - eexists; split; [done|]. by rewrite Hc.
Qed.
Lemma run_bind {W A B} (m : gen W A) (f : A → gen W B) (w : W) :
  (m ≫= f) w =
    match m w with
    | (w1, ev1, Return a) => let '(w2, ev2, r) := f a w1 in (w2, ev1 ++ ev2, r)
    | (w1, ev1, Raise e) => (w1, ev1, Raise e)
    end.
Proof. reflexivity. Qed.

Lemma for_each_cons {W A} (body : A → gen W unit) (x : A) (xs : list A)
    (fin : status) (w : W) :
  for_each body (x :: xs) fin w =
    match body x w with
    | (w1, ev1, Return _) =>
        let '(w2, ev2, r) := for_each body xs fin w1 in (w2, ev1 ++ ev2, r)
    | (w1, ev1, Raise e) => (w1, ev1, Raise e)
    end.
Proof. reflexivity. Qed.

Lemma Users_loop (self : Stream) (records : list pyval) :
  ∀ (state : bookmarks) (current : Z),
    get_bookmark self state = Return current →
    Forall (feedable "updated_at") records →
    ∃ state',
      for_each (Users_body self) records Done state
      = (state', Yield (stream self) <$> records, Return tt)
      ∧ get_bookmark self state'
        = Return (latest current (fed_instants "updated_at" records)).
Proof.
  induction records as [|r rs IH]; intros state current Hc Hall.
  - exists state. by split.
  - apply Forall_cons in Hall as [(v & Hv & Hok) Hall].
    destruct (update_bookmark_instant self state v current Hc Hok)
      as (state1 & Hup & Hc1).
    destruct (IH state1 _ Hc1 Hall) as (state2 & Hrun & Hc2).
    exists state2. split.
    + rewrite for_each_cons.
      assert (Users_body self r state
              = (state1, [Yield (stream self) r], Return tt)) as ->.
      { unfold Users_body, mbind, gen_bind, gbind, lift, in_place, emit.
        by rewrite Hv, Hup. }
      by rewrite Hrun.
    + rewrite Hc2. f_equal. unfold fed_instants. simpl. rewrite Hv.
      destruct (valid_instant v) as [t|]; simpl; [|done].
      by rewrite latest_max_r.
Qed.

Lemma fed_instants_Permutation (key : string) (xs ys : list pyval) :
  xs ≡ₚ ys → fed_instants key xs ≡ₚ fed_instants key ys.
Proof. intros H. unfold fed_instants. by rewrite H. Qed.

Lemma feedable_Permutation (key : string) (xs ys : list pyval) :
  xs ≡ₚ ys → Forall (feedable key) xs → Forall (feedable key) ys.
Proof. intros H. by rewrite H. Qed.

Lemma Users_loop_stops (self : Stream) (before after : list pyval)
    (bad : pyval) (fin : status) (e : exn) :
  ∀ (state : bookmarks) (current : Z),
    get_bookmark self state = Return current →
    Forall (feedable "updated_at") before →
    (py_getitem bad #"updated_at" = Raise e
     ∨ ∃ v, py_getitem bad #"updated_at" = Return v
            ∧ truthy v = true ∧ strptime_with_tz v = Raise e) →
    ∃ state',
      for_each (Users_body self) (before ++ bad :: after) fin state
      = (state', Yield (stream self) <$> before, Raise e)
      ∧ get_bookmark self state'
        = Return (latest current (fed_instants "updated_at" before)).
Proof.
  induction before as [|r rs IH]; intros state current Hc Hall Hbad.
  - exists state. split; [|done]. simpl.
    unfold Users_body, mbind, gen_bind, gbind, lift, in_place, emit.
    destruct Hbad as [->|(v & -> & Hv & Ht)]; [done|].
    unfold update_bookmark. by rewrite Hc; simpl; rewrite Hv, Ht.
  - apply Forall_cons in Hall as [(v & Hv & Hok) Hall].
    destruct (update_bookmark_instant self state v current Hc Hok)
      as (state1 & Hup & Hc1).
    destruct (IH state1 _ Hc1 Hall Hbad) as (state2 & Hrun & Hc2).
    exists state2. split.
    + change ((r :: rs) ++ bad :: after) with (r :: (rs ++ bad :: after)).
      rewrite for_each_cons.
      assert (Users_body self r state
              = (state1, [Yield (stream self) r], Return tt)) as ->.
      { unfold Users_body, mbind, gen_bind, gbind, lift, in_place, emit.
        by rewrite Hv, Hup. }
      by rewrite Hrun.
    + rewrite Hc2. f_equal. unfold fed_instants. simpl. rewrite Hv.
      destruct (valid_instant v) as [t|]; simpl; [|done].
      by rewrite latest_max_r.
Qed.

(** C2, as the code has it, on [Users.sync], which feeds every record to
    [update_bookmark].  When every record carries an [updated_at] that is
    absent, empty or a timestamp that parses, the run completes, and
    leaves as bookmark the maximum, as an instant, of the bookmark it
    started from and the valid timestamps of the records: it is not
    earlier than the start, not earlier than any valid timestamp, and is
    one of them; the same records in another order give the same instant.
    A record without [updated_at], or with a non-empty one that does not
    parse, raises and stops the run at that record: the records before it
    have been yielded, no other, and the bookmark is the maximum over the
    records before it. *)
Theorem Users_sync_bookmark_is_latest
    (cfg : gmap string pyval) (pages : Z → iterable pyval)
    (state : bookmarks) (start : Z) (records : list pyval) (fin : status) :
  let self := Users cfg in
  get_bookmark self state = Return start →
  CursorBasedExportStream_get_objects self (pages start) = (records, fin) →
  (fin = Done →
   Forall (feedable "updated_at") records →
   ∀ (pages' : Z → iterable pyval) (records' : list pyval),
     CursorBasedExportStream_get_objects self (pages' start) = (records', Done) →
     records ≡ₚ records' →
     ∃ state1 evs1 state2 evs2 m,
       Users_sync self pages state = (state1, evs1, Return tt) ∧
       Users_sync self pages' state = (state2, evs2, Return tt) ∧
       get_bookmark self state1 = Return m ∧
       get_bookmark self state2 = Return m ∧
       (start ≤ m)%Z ∧
       (∀ t, t ∈ fed_instants "updated_at" records → (t ≤ m)%Z) ∧
       (m = start ∨ m ∈ fed_instants "updated_at" records))
  ∧ (∀ (before after : list pyval) (bad : pyval) (e : exn),
       records = before ++ bad :: after →
       Forall (feedable "updated_at") before →
       (py_getitem bad #"updated_at" = Raise e
        ∨ ∃ v, py_getitem bad #"updated_at" = Return v
               ∧ truthy v = true ∧ strptime_with_tz v = Raise e) →
       ∃ state1,
         Users_sync self pages state
         = (state1, Yield (stream self) <$> before, Raise e) ∧
         get_bookmark self state1
         = Return (latest start (fed_instants "updated_at" before))).
Proof.
  intros self Hc Hp. split.
  - intros -> Hall pages' records' Hp' Hperm.
    destruct (Users_loop self records state start Hc Hall) as (s1 & Hrun1 & Hb1).
    destruct (Users_loop self records' state start Hc
                (feedable_Permutation _ _ _ Hperm Hall)) as (s2 & Hrun2 & Hb2).
    exists s1, (Yield (stream self) <$> records),
           s2, (Yield (stream self) <$> records'),
           (latest start (fed_instants "updated_at" records)).
    split_and!.
    + unfold Users_sync, for_in, mbind, gen_bind, gbind, reading.
      rewrite Hc, Hp. simpl. by rewrite Hrun1.
    + unfold Users_sync, for_in, mbind, gen_bind, gbind, reading.
      rewrite Hc, Hp'. simpl. by rewrite Hrun2.
    + done.
    + rewrite Hb2. f_equal. symmetry.
      by apply latest_Permutation, fed_instants_Permutation.
    + apply latest_ge_start.
    + intros t. apply latest_upper_bound.
    + apply latest_attained.
  - intros before after bad e -> Hall Hbad.
    destruct (Users_loop_stops self before after bad fin e state start Hc Hall Hbad)
      as (s1 & Hrun & Hb).
    exists s1. split; [|done].
    unfold Users_sync, for_in, mbind, gen_bind, gbind, reading.
    rewrite Hc, Hp. simpl. by rewrite Hrun.
Qed.
(** ** The order-untrusted streams *)

Lemma parsed_truthy (v : pyval) (t : Z) :
  strptime_with_tz v = Return t → truthy v = true.
Proof using parse_empty.
  destruct v as [| |s| |]; simpl; try done.
  destruct s; [by rewrite parse_empty | done].
Qed.

Lemma Groups_body_run (self : Stream) (bookmark : Z) (group : pyval)
    (state : bookmarks) :
  Groups_body self bookmark group state =
    match py_getitem group #"updated_at" with
    | Raise e => (state, [], Raise e)
    | Return v =>
        match strptime_with_tz v with
        | Raise e => (state, [], Raise e)
        | Return t =>
            if (bookmark <=? t)%Z then
              match update_bookmark self state v with
              | Return state' => (state', [Yield (stream self) group], Return tt)
              | Raise e => (state, [], Raise e)
              end
            else (state, [], Return tt)
        end
    end.
Proof.
  unfold Groups_body, mbind, gen_bind, gbind, lift, in_place, emit.
  destruct (py_getitem group #"updated_at") as [v|]; [|done].
  destruct (strptime_with_tz v) as [t|]; [|done]. simpl.
  destruct (bookmark <=? t)%Z; [|done].
  by destruct (update_bookmark self state v).
Qed.

(** A completed loop of [Groups.sync]: every record had a timestamp, the
    yielded ones are those at or after the bookmark read at the start, in
    order, and the stored bookmark is the latest of the yielded ones. *)
Lemma Groups_loop (self : Stream) (bookmark : Z) (records : list pyval) :
  ∀ (state state' : bookmarks) (evs : list event) (current : Z),
    for_each (Groups_body self bookmark) records Done state
      = (state', evs, Return tt) →
    get_bookmark self state = Return current →
    evs = Yield (stream self) <$> filter (at_or_after "updated_at" bookmark) records
    ∧ Forall (λ r, is_Some (record_instant "updated_at" r)) records
    ∧ get_bookmark self state'
      = Return (latest current
                  (fed_instants "updated_at"
                     (filter (at_or_after "updated_at" bookmark) records))).
Proof.
  induction records as [|r rs IH]; intros state state' evs current Hrun Hc.
  - injection Hrun as <- <-. by split_and!.
  - rewrite for_each_cons, Groups_body_run in Hrun.
    unfold at_or_after, record_instant in *.
    destruct (py_getitem r #"updated_at") as [v|] eqn:Hv; [|done]. simpl in *.
    destruct (strptime_with_tz v) as [t|] eqn:Ht; [|done].
    destruct (Z.leb_spec bookmark t) as [Hle|Hgt].
    + destruct (update_bookmark_instant self state v current Hc
                  (or_intror (ex_intro _ t Ht))) as (state1 & Hup & Hc1).
      rewrite Hup in Hrun.
      destruct (for_each (Groups_body self bookmark) rs Done state1)
        as [[state2 evs2] r2] eqn:Hrest.
      injection Hrun as <- <- ->.
      destruct (IH _ _ _ _ Hrest Hc1) as (-> & Hall & Hb).
      rewrite filter_cons_True by (simpl; rewrite Hv; simpl; rewrite Ht; by apply Is_true_true, Z.leb_le).
      split_and!; [done| constructor; [by rewrite Hv; simpl; rewrite Ht | done] |].
      rewrite Hb. f_equal. unfold fed_instants. simpl. rewrite Hv.
      destruct (valid_instant v); [|done].
      by rewrite latest_max_r.
    + destruct (for_each (Groups_body self bookmark) rs Done state)
        as [[state2 evs2] r2] eqn:Hrest.
      injection Hrun as <- <- ->.
      destruct (IH _ _ _ _ Hrest Hc) as (-> & Hall & Hb).
      rewrite filter_cons_False by (simpl; rewrite Hv; simpl; rewrite Ht; intros ?%Is_true_true%Z.leb_le; lia).
      split_and!; [done| constructor; [by rewrite Hv; simpl; rewrite Ht | done] | done].
Qed.
Lemma for_each_Return_Done {W A} (body : A → gen W unit) (items : list A)
    (fin : status) :
  ∀ (w w' : W) (evs : list event),
    for_each body items fin w = (w', evs, Return tt) → fin = Done.
Proof.
  induction items as [|x xs IH]; intros w w' evs Hrun.
  - by destruct fin.
  - rewrite for_each_cons in Hrun.
    destruct (body x w) as [[w1 ev1] [[]|]]; [|done].
    destruct (for_each body xs fin w1) as [[w2 ev2] r2] eqn:Hrest.
    injection Hrun as <- <- ->. by eapply IH.
Qed.

(** What a completed [Groups.sync] did, in terms of the records that
    [get_objects] handed out. *)
Lemma Groups_sync_completed (self : Stream) (pages : iterable pyval)
    (state state' : bookmarks) (evs : list event) :
  Groups_sync self pages state = (state', evs, Return tt) →
  ∃ bookmark records,
    get_bookmark self state = Return bookmark ∧
    CursorBasedStream_get_objects self pages = (records, Done) ∧
    for_each (Groups_body self bookmark) records Done state
      = (state', evs, Return tt).
Proof.
  unfold Groups_sync, for_in. rewrite run_bind. unfold reading.
  destruct (get_bookmark self state) as [b|] eqn:Hb; [|done].
  destruct (CursorBasedStream_get_objects self pages) as [records fin] eqn:Hobj.
  simpl.
  destruct (for_each (Groups_body self b) records fin state)
    as [[s1 e1] r1] eqn:Hrun.
  intros [= -> -> ->].
  pose proof (for_each_Return_Done _ _ _ _ _ _ Hrun) as ->.
  by exists b, records.
Qed.

(** A loop of [Groups.sync] over records none of which is later than the
    stored bookmark: it yields the records at the bookmark and leaves the
    state as it is. *)
Lemma Groups_loop_boundary (self : Stream) (bookmark : Z) (records : list pyval) :
  ∀ state : bookmarks,
    get_bookmark self state = Return bookmark →
    Forall (λ r, ∃ t, record_instant "updated_at" r = Some t ∧ (t ≤ bookmark)%Z)
           records →
    for_each (Groups_body self bookmark) records Done state
    = (state,
       Yield (stream self) <$> filter (at_instant "updated_at" bookmark) records,
       Return tt).
Proof using parse_empty.
  induction records as [|r rs IH]; intros state Hc Hall; [done|].
  apply Forall_cons in Hall as [(t & Hr & Hle) Hall].
  rewrite for_each_cons, Groups_body_run.
  assert (at_instant "updated_at" bookmark r = (t =? bookmark)%Z) as Hat
    by (unfold at_instant; by rewrite Hr).
  unfold record_instant in Hr.
  destruct (py_getitem r #"updated_at") as [v|]; [|done]. simpl in Hr.
  destruct (strptime_with_tz v) as [t'|] eqn:Ht; [|done].
  injection Hr as ->.
  destruct (Z.leb_spec bookmark t) as [Hge|Hlt].
  - assert (t = bookmark) as -> by lia.
    assert (update_bookmark self state v = Return state) as ->.
    { unfold update_bookmark. rewrite Hc. simpl.
      rewrite (parsed_truthy v bookmark Ht), Ht. simpl.
      by rewrite Z.ltb_irrefl. }
    rewrite (IH state Hc Hall).
    rewrite filter_cons_True; [done|].
    rewrite Hat. by apply Is_true_true, Z.eqb_eq.
  - rewrite (IH state Hc Hall).
    rewrite filter_cons_False; [done|].
    rewrite Hat. intros ?%Is_true_true%Z.eqb_eq. lia.
Qed.

(** C5, as the code has it: after a complete run of [Groups.sync], a
    second run over the same pages, from the state the first run left,
    completes, leaves the state as it is, and yields exactly the records
    whose [updated_at] is, as an instant, the bookmark the first run
    left: the records at the boundary are delivered again. *)
Theorem Groups_sync_second_run_yields_boundary
    (cfg : gmap string pyval) (pages : iterable pyval)
    (state state1 : bookmarks) (evs1 : list event) :
  let self := Groups cfg in
  Groups_sync self pages state = (state1, evs1, Return tt) →
  ∃ bookmark1 records,
    get_bookmark self state1 = Return bookmark1 ∧
    CursorBasedStream_get_objects self pages = (records, Done) ∧
    Groups_sync self pages state1
    = (state1,
       Yield (stream self) <$> filter (at_instant "updated_at" bookmark1) records,
       Return tt).
Proof using parse_empty.
  intros self Hrun.
  destruct (Groups_sync_completed _ _ _ _ _ Hrun) as (b0 & records & Hb0 & Hobj & Hloop).
  destruct (Groups_loop _ _ _ _ _ _ _ Hloop Hb0) as (_ & Hall & Hb1).
  eexists _, records. split_and!; [exact Hb1 | done |].
  unfold Groups_sync, for_in. rewrite run_bind. unfold reading.
  rewrite Hb1, Hobj. simpl.
  rewrite Groups_loop_boundary; [done | done |].
  apply Forall_forall. intros r Hr.
  apply (proj1 (Forall_forall _ _) Hall) in Hr as Hsome.
  destruct Hsome as [t Ht]. exists t. split; [done|].
  destruct (Z.leb_spec b0 t) as [Hge|Hlt].
  - apply latest_upper_bound. apply list_elem_of_omap.
    exists r. split.
    + apply list_elem_of_filter. split; [|done].
      unfold at_or_after. rewrite Ht. by apply Is_true_true, Z.leb_le.
    + unfold record_instant in Ht.
      destruct (py_getitem r #"updated_at") as [v|]; [|done]. simpl in Ht.
      destruct (strptime_with_tz v) as [t'|] eqn:Hv; [|done].
      injection Ht as ->. unfold valid_instant.
      by rewrite (parsed_truthy v t Hv), Hv.
  - pose proof (latest_ge_start b0
      (fed_instants "updated_at"
         (filter (at_or_after "updated_at" b0) records))). lia.
Qed.
(** ** The state under writes *)

Lemma write_bookmark_setitem (state : bookmarks) (n k : string) (v : pyval) :
  singer.write_bookmark state n k v = state_setitem n k v state.
Proof.
  unfold singer.write_bookmark, state_setitem, singer.ensure_stream_path.
  destruct (state !! n) as [d|] eqn:Hn; [by rewrite Hn|].
  rewrite lookup_insert_eq, insert_insert_eq. simpl. done.
Qed.

Lemma get_bookmark_setitem_eq (state : bookmarks) (n k : string) (v : pyval) :
  singer.get_bookmark (state_setitem n k v state) n k = v.
Proof.
  unfold singer.get_bookmark, state_setitem.
  rewrite lookup_insert_eq. simpl. by rewrite lookup_insert_eq.
Qed.

Lemma get_bookmark_setitem_ne (state : bookmarks) (n k n' k' : string) (v : pyval) :
  n ≠ n' →
  singer.get_bookmark (state_setitem n k v state) n' k'
  = singer.get_bookmark state n' k'.
Proof.
  intros Hne. unfold singer.get_bookmark, state_setitem.
  by rewrite lookup_insert_ne.
Qed.


Lemma advance_comment_bookmark_run (cfg : gmap string pyval)
    (ticket_id created_at : pyval) (h : heap) :
  advance_comment_bookmark (TicketComments cfg) ticket_id created_at h =
    match singer.get_bookmark (state h) "ticket_comments" "created_at" with
    | PDict per_ticket =>
        match as_key ticket_id with
        | Raise e => (h, [], Raise e)
        | Return k =>
            let written :=
              (set_state (state_setitem "ticket_comments" "created_at"
                            (PDict (<[k := created_at]> per_ticket))) h,
               [], Return tt) in
            let entry := default PNone (per_ticket !! k) in
            if negb (truthy entry) then written
            else
              match strptime_with_tz entry with
              | Raise e => (h, [], Raise e)
              | Return current =>
                  if truthy created_at then
                    match strptime_with_tz created_at with
                    | Raise e => (h, [], Raise e)
                    | Return t =>
                        if (current <? t)%Z then written else (h, [], Return tt)
                    end
                  else (h, [], Return tt)
              end
        end
    | _ => (h, [], Raise AttributeError)
    end.
Proof.
  unfold advance_comment_bookmark. rewrite run_bind. unfold reading. simpl.
  destruct (singer.get_bookmark (state h) "ticket_comments" "created_at")
    as [| | | |m]; try done.
  rewrite run_bind. unfold lift.
  destruct (as_key ticket_id) as [k|]; [|done]. simpl.
  destruct (truthy (default PNone (m !! k))); simpl.
  - rewrite run_bind.
    destruct (strptime_with_tz (default PNone (m !! k))) as [c|]; [|done].
    destruct (truthy created_at); [|done].
    rewrite run_bind.
    destruct (strptime_with_tz created_at) as [t|]; [|done].
    by destruct (c <? t)%Z.
  - done.
Qed.

(** ** The snapshot of the comments stream *)

Lemma ensure_bookmark_path_stream (state : bookmarks) (n k : string) :
  is_Some (singer.ensure_bookmark_path state n k !! n).
Proof.
  unfold singer.ensure_bookmark_path, singer.ensure_stream_path.
  destruct (state !! n) as [d|] eqn:Hn.
  - rewrite Hn. simpl.
    destruct (d !! k) as [[]|]; rewrite ?lookup_insert_eq, ?Hn; eauto.
  - rewrite lookup_insert_eq. simpl. rewrite lookup_empty.
    rewrite lookup_insert_eq. eauto.
Qed.

Lemma ticket_bookmark_set_state (self : Stream) (ticket_id : pyval)
    (f : bookmarks → bookmarks) (h : heap) :
  ticket_bookmark self ticket_id (set_state f h) = ticket_bookmark self ticket_id h.
Proof. reflexivity. Qed.

Lemma ticket_bookmark_set_comments_count (self : Stream) (ticket_id : pyval)
    (f : nat → nat) (h : heap) :
  ticket_bookmark self ticket_id (set_comments_count f h)
  = ticket_bookmark self ticket_id h.
Proof. reflexivity. Qed.

Lemma capture_captured (self : Stream) (ticket_id : pyval) (h : heap)
    (snapshot : bookmarks) :
  starting_state h = Some snapshot →
  capture_starting_state self ticket_id h = (h, [], Return tt).
Proof.
  intros Hs. unfold capture_starting_state. rewrite run_bind.
  unfold get_world. by rewrite Hs.
Qed.

Lemma capture_first (cfg : gmap string pyval) (ticket_id : pyval) (h : heap) :
  starting_state h = None →
  capture_starting_state (TicketComments cfg) ticket_id h =
    let state1 :=
      singer.ensure_bookmark_path (state h) "ticket_comments" "created_at" in
    match seed_guard (singer.get_bookmark state1 "ticket_comments" "created_at") with
    | Raise e => (set_state (λ _, state1) h, [], Raise e)
    | Return true =>
        match state_getitem state1 "tickets" "generated_timestamp" with
        | Raise e => (set_state (λ _, state1) h, [], Raise e)
        | Return generated =>
            let state2 :=
              state_setitem "ticket_comments" "created_at"
                (PDict {[ KStr (str ticket_id) := generated ]}) state1 in
            (set_starting state2
               (singer.get_bookmark state2 "ticket_comments" "created_at")
               (set_state (λ _, state2) h),
             [], Return tt)
        end
    | Return false =>
        (set_starting state1
           (singer.get_bookmark state1 "ticket_comments" "created_at")
           (set_state (λ _, state1) h),
         [], Return tt)
    end.
Proof.
  destruct h as [st na nm nc ss sb]. simpl. intros ->.
  destruct (ensure_bookmark_path_stream st "ticket_comments" "created_at")
    as [d Hd].
  unfold capture_starting_state, mbind, gen_bind, gbind, get_world, modify,
    reading, lift, mret, gen_ret, gret, set_state, set_starting.
  simpl.
  generalize dependent
    (singer.ensure_bookmark_path st "ticket_comments" "created_at").
  intros state1 Hd. rewrite Hd.
  assert (singer.get_bookmark state1 "ticket_comments" "created_at"
          = default PNone (d !! "created_at")) as Hgb
    by (unfold singer.get_bookmark; by rewrite Hd).
  rewrite Hgb.
  destruct (seed_guard (default PNone (d !! "created_at"))) as [[]|]; simpl;
    rewrite ?Hgb; [|done|done].
  by destruct (state_getitem state1 "tickets" "generated_timestamp").
Qed.

Lemma ensure_bookmark_path_get (state : bookmarks) (n k : string) :
  singer.get_bookmark (singer.ensure_bookmark_path state n k) n k
  = match singer.get_bookmark state n k with
    | PNone => PDict ∅
    | v => v
    end.
Proof.
  unfold singer.get_bookmark, singer.ensure_bookmark_path,
    singer.ensure_stream_path.
  destruct (state !! n) as [d|] eqn:Hn.
  - rewrite Hn. simpl.
    destruct (d !! k) as [[]|] eqn:Hk; simpl;
      rewrite ?lookup_insert_eq, ?Hn; simpl;
      rewrite ?lookup_insert_eq, ?Hk; done.
  - rewrite lookup_insert_eq. simpl. rewrite lookup_empty.
    rewrite lookup_insert_eq. simpl. by rewrite lookup_insert_eq.
Qed.

Lemma seed_guard_dict (m : gmap pykey pyval) :
  seed_guard (PDict m) = Return (bool_decide (m = ∅)).
Proof.
  unfold seed_guard. simpl.
  destruct (size m) as [|n] eqn:Hsize; simpl.
  - apply map_size_empty_iff in Hsize as ->. by rewrite bool_decide_eq_true_2.
  - rewrite bool_decide_eq_false_2; [done|].
    intros ->. by rewrite map_size_empty in Hsize.
Qed.

(** C9: whatever the state holds as the ticket-comments bookmark, nothing,
    [None] or a mapping, the guard [not tc_bookmark and len(tc_bookmark)
    == 0], evaluated as the code does on the value read back after
    [ensure_bookmark_path], does not raise, and it says to seed exactly
    when there is no per-ticket entry. *)
Theorem seed_guard_total_after_ensure (state : bookmarks) :
  let entry := (state !! "ticket_comments") ≫= (.!! "created_at") in
  entry = None ∨ entry = Some PNone ∨ (∃ m, entry = Some (PDict m)) →
  let state1 := singer.ensure_bookmark_path state "ticket_comments" "created_at" in
  let tc_bookmark := singer.get_bookmark state1 "ticket_comments" "created_at" in
  ∃ seed : bool,
    seed_guard tc_bookmark = Return seed ∧
    (seed = true ↔
     ¬ ∃ m ticket_id bookmark,
         entry = Some (PDict m) ∧ m !! ticket_id = Some bookmark).
Proof.
  intros entry Hentry state1 tc_bookmark.
  subst tc_bookmark state1. rewrite ensure_bookmark_path_get.
  assert (singer.get_bookmark state "ticket_comments" "created_at"
          = default PNone entry) as ->.
  { unfold singer.get_bookmark, entry.
    by destruct (state !! "ticket_comments"). }
  destruct Hentry as [->|[->|[m ->]]]; simpl.
  - exists true. rewrite seed_guard_dict. split; [done|].
    split; [|done]. by intros _ (? & ? & ? & ? & _).
  - exists true. rewrite seed_guard_dict. split; [done|].
    split; [|done]. by intros _ (? & ? & ? & ? & _).
  - exists (bool_decide (m = ∅)). rewrite seed_guard_dict. split; [done|].
    rewrite bool_decide_eq_true. split.
    + intros -> (m' & k & v & [= <-] & Hk). by rewrite lookup_empty in Hk.
    + intros Hno. apply map_empty. intros k.
      destruct (m !! k) as [v|] eqn:Hk; [|done].
      exfalso. apply Hno. by exists m, k, v.
Qed.

(** ** One comment *)

Lemma capture_no_events (cfg : gmap string pyval) (ticket_id : pyval)
    (h h' : heap) (evs : list event) (r : outcome unit) :
  capture_starting_state (TicketComments cfg) ticket_id h = (h', evs, r) →
  evs = [].
Proof.
  destruct (starting_state h) as [snapshot|] eqn:Hs.
  - rewrite (capture_captured _ _ _ _ Hs). (intros ?; by simplify_eq).
  - rewrite (capture_first _ _ _ Hs). simpl.
    destruct (seed_guard _) as [[]|]; [|(intros ?; by simplify_eq)..].
    destruct (state_getitem _ _ _); (intros ?; by simplify_eq).
Qed.

Lemma advance_no_events (cfg : gmap string pyval) (ticket_id created_at : pyval)
    (h h' : heap) (evs : list event) (r : outcome unit) :
  advance_comment_bookmark (TicketComments cfg) ticket_id created_at h
    = (h', evs, r) →
  evs = [].
Proof.
  rewrite advance_comment_bookmark_run. cbv zeta.
  repeat case_match; intros ?; by simplify_eq.
Qed.

Lemma TicketComments_body_run (cfg : gmap string pyval)
    (ticket_id ticket_comment : pyval) (h : heap) :
  let self := TicketComments cfg in
  TicketComments_body self ticket_id ticket_comment h =
    match py_setitem ticket_comment #"ticket_id" ticket_id with
    | Raise e => (h, [], Raise e)
    | Return comment =>
        match capture_starting_state self ticket_id h with
        | (h1, _, Raise e) => (h1, [], Raise e)
        | (h1, _, Return _) =>
            match py_get comment #"created_at" with
            | Raise e => (h1, [], Raise e)
            | Return created_at =>
                match advance_comment_bookmark self ticket_id created_at h1 with
                | (h2, _, Raise e) => (h2, [], Raise e)
                | (h2, _, Return _) =>
                    match ticket_bookmark self ticket_id h2 with
                    | Raise e => (h2, [], Raise e)
                    | Return threshold =>
                        match strptime_with_tz created_at with
                        | Raise e => (h2, [], Raise e)
                        | Return t =>
                            if (threshold <? t)%Z
                            then (set_comments_count S h2,
                                  [Yield (stream self) comment], Return tt)
                            else (h2, [], Return tt)
                        end
                    end
                end
            end
        end
    end.
Proof.
  intros self. unfold TicketComments_body.
  rewrite run_bind. unfold lift at 1.
  destruct (py_setitem ticket_comment #"ticket_id" ticket_id) as [c1|]; [|done].
  rewrite run_bind.
  destruct (capture_starting_state self ticket_id h) as [[h1 ev1] [[]|]] eqn:Hcap;
    pose proof (capture_no_events _ _ _ _ _ _ Hcap) as ->; [|done].
  rewrite run_bind. unfold lift at 1.
  destruct (py_get c1 #"created_at") as [created_at|]; [|done].
  rewrite run_bind.
  destruct (advance_comment_bookmark self ticket_id created_at h1)
    as [[h2 ev2] [[]|]] eqn:Hadv;
    pose proof (advance_no_events _ _ _ _ _ _ _ Hadv) as ->; [|done].
  rewrite run_bind. unfold reading at 1.
  destruct (ticket_bookmark self ticket_id h2) as [th|]; [|done].
  rewrite run_bind. unfold lift at 1.
  destruct (strptime_with_tz created_at) as [t|]; [|done].
  by destruct (th <? t)%Z.
Qed.

Lemma ticket_bookmark_resolved (cfg : gmap string pyval) (ticket_id : pyval)
    (h : heap) (snapshot : bookmarks) (threshold : Z) :
  starting_state h = Some snapshot →
  snapshot_ok h →
  ticket_bookmark (TicketComments cfg) ticket_id h = Return threshold →
  strptime_with_tz (resolved_threshold snapshot cfg ticket_id) = Return threshold.
Proof.
  intros Hs Hok. unfold snapshot_ok in Hok. rewrite Hs in Hok.
  unfold ticket_bookmark, resolved_threshold. rewrite Hs, Hok.
  destruct (singer.get_bookmark snapshot "ticket_comments" "created_at")
    as [| | | |m]; simpl; try done.
  destruct (truthy (default PNone (m !! #(str ticket_id)))); [done|].
  unfold singer.get_bookmark.
  destruct (snapshot !! "tickets") as [tickets|]; simpl; [|done].
  by destruct (truthy (default PNone (tickets !! "generated_timestamp"))).
Qed.

(** What the block under [if not self.starting_state] leaves. *)
Lemma capture_spec (cfg : gmap string pyval) (ticket_id : pyval)
    (h h1 : heap) (evs : list event) (r : outcome unit) :
  capture_starting_state (TicketComments cfg) ticket_id h = (h1, evs, r) →
  (snapshot_ok h → snapshot_ok h1)
  ∧ (∀ s0, starting_state h = Some s0 → h1 = h)
  ∧ (r = Return tt → is_Some (starting_state h1))
  ∧ (starting_state h = None → r = Return tt →
     starting_state h1 = Some (state h1)
     ∧ ∀ n k, n ≠ "ticket_comments" →
         singer.get_bookmark (state h1) n k = singer.get_bookmark (state h) n k)
  ∧ per_ticket_map (state h) ⊆ per_ticket_map (state h1)
  ∧ comments_count h1 = comments_count h.
Proof.
  destruct (starting_state h) as [s0|] eqn:Hs.
  { rewrite (capture_captured _ _ _ _ Hs). intros [= <- <- <-].
    by split_and!. }
  rewrite (capture_first _ _ _ Hs). cbv zeta.
  assert (∀ n k, n ≠ "ticket_comments" →
            singer.get_bookmark
              (singer.ensure_bookmark_path (state h) "ticket_comments" "created_at")
              n k = singer.get_bookmark (state h) n k) as Hother.
  { intros n k Hn. unfold singer.get_bookmark, singer.ensure_bookmark_path,
      singer.ensure_stream_path.
    destruct (state h !! "ticket_comments") as [d|] eqn:Hd.
    - rewrite Hd. simpl. destruct (d !! "created_at") as [[]|];
        by rewrite ?lookup_insert_ne.
    - rewrite lookup_insert_eq. simpl. rewrite lookup_empty.
      by rewrite !lookup_insert_ne. }
  assert (per_ticket_map (state h)
          ⊆ per_ticket_map
              (singer.ensure_bookmark_path (state h) "ticket_comments" "created_at"))
    as Hsub.
  { unfold per_ticket_map. rewrite ensure_bookmark_path_get.
    destruct (singer.get_bookmark (state h) _ _); done. }
  pose proof (ensure_bookmark_path_get (state h) "ticket_comments" "created_at")
    as Hget.
  destruct (seed_guard _) as [[]|] eqn:Hguard.
  - destruct (state_getitem _ _ _) as [g|].
    + intros [= <- <- <-]. split_and!; try done.
      * intros _ _. split; [done|]. intros n k Hn. simpl.
        rewrite get_bookmark_setitem_ne by done. by apply Hother.
      * simpl. etrans; [exact Hsub|].
        unfold per_ticket_map. rewrite get_bookmark_setitem_eq.
        rewrite Hget in Hguard |- *.
        destruct (singer.get_bookmark (state h) _ _) as [| |s| |m] eqn:Hm;
          try apply map_empty_subseteq; try done.
        rewrite seed_guard_dict in Hguard. injection Hguard as Hguard.
        apply bool_decide_eq_true in Hguard as ->. apply map_empty_subseteq.
    + intros [= <- <- <-]. split_and!; try done.
  - intros [= <- <- <-]. split_and!; try done.
  - intros [= <- <- <-]. split_and!; try done.
Qed.

Lemma per_ticket_map_setitem (state : bookmarks) (m : gmap pykey pyval) :
  per_ticket_map (state_setitem "ticket_comments" "created_at" (PDict m) state) = m.
Proof. unfold per_ticket_map. by rewrite get_bookmark_setitem_eq. Qed.

(** Lines 448 to 455 touch nothing but the per-ticket map of the state. *)
Lemma advance_frame (cfg : gmap string pyval) (ticket_id created_at : pyval)
    (h1 h2 : heap) (evs : list event) (r : outcome unit) :
  advance_comment_bookmark (TicketComments cfg) ticket_id created_at h1
    = (h2, evs, r) →
  starting_state h2 = starting_state h1
  ∧ starting_bookmark h2 = starting_bookmark h1
  ∧ comments_count h2 = comments_count h1
  ∧ (∀ n k, n ≠ "ticket_comments" →
       singer.get_bookmark (state h2) n k = singer.get_bookmark (state h1) n k).
Proof.
  rewrite advance_comment_bookmark_run. cbv zeta.
  repeat case_match; intros [= <- <- <-]; split_and!; try done;
    intros n k Hn; simpl; by rewrite get_bookmark_setitem_ne.
Qed.

(** What lines 448 to 455 do to the heap and to the per-ticket map. *)
Lemma advance_spec (cfg : gmap string pyval) (ticket_id created_at : pyval)
    (h1 h2 : heap) (evs : list event) (r : outcome unit) :
  advance_comment_bookmark (TicketComments cfg) ticket_id created_at h1
    = (h2, evs, r) →
  starting_state h2 = starting_state h1
  ∧ starting_bookmark h2 = starting_bookmark h1
  ∧ comments_count h2 = comments_count h1
  ∧ (∀ n k, n ≠ "ticket_comments" →
       singer.get_bookmark (state h2) n k = singer.get_bookmark (state h1) n k)
  ∧ (∀ k v tv,
       per_ticket_map (state h1) !! k = Some v →
       strptime_with_tz v = Return tv →
       ∃ v' tv',
         per_ticket_map (state h2) !! k = Some v' ∧
         strptime_with_tz v' = Return tv' ∧
         (tv ≤ tv')%Z ∧ (v' ≠ v → (tv < tv')%Z))
  ∧ (∀ k t,
       r = Return tt →
       as_key ticket_id = Return k →
       strptime_with_tz created_at = Return t →
       ∃ v' t',
         per_ticket_map (state h2) !! k = Some v' ∧
         strptime_with_tz v' = Return t' ∧
         (t ≤ t')%Z ∧
         (v' = created_at ∨ per_ticket_map (state h1) !! k = Some v')).
Proof using parse_empty.
  rewrite advance_comment_bookmark_run. cbv zeta.
  assert (∀ k v tv,
       per_ticket_map (state h1) !! k = Some v →
       strptime_with_tz v = Return tv →
       ∃ v' tv',
         per_ticket_map (state h1) !! k = Some v' ∧
         strptime_with_tz v' = Return tv' ∧
         (tv ≤ tv')%Z ∧ (v' ≠ v → (tv < tv')%Z)) as Hsame.
  { intros k v tv Hk Hv. exists v, tv. split_and!; [done|done|lia|done]. }
  assert (∀ m, singer.get_bookmark (state h1) "ticket_comments" "created_at"
               = PDict m → per_ticket_map (state h1) = m) as Hpm.
  { intros m Hm. unfold per_ticket_map. by rewrite Hm. }
  destruct (singer.get_bookmark (state h1) "ticket_comments" "created_at")
    as [| | | |m] eqn:Hm;
    try (intros [= <- <- <-]; split_and!; try done; intros ????; done).
  destruct (as_key ticket_id) as [key|] eqn:Hkey;
    [|intros [= <- <- <-]; split_and!; try done; intros ????; done].
  (* the write, once for both places where the code has it *)
  assert (∀ current,
            (truthy (default PNone (m !! key)) = false
             ∨ (strptime_with_tz (default PNone (m !! key)) = Return current
                ∧ ∃ t, strptime_with_tz created_at = Return t ∧ (current < t)%Z)) →
            ∀ k v tv,
              m !! k = Some v →
              strptime_with_tz v = Return tv →
              ∃ v' tv',
                (<[key := created_at]> m) !! k = Some v' ∧
                strptime_with_tz v' = Return tv' ∧
                (tv ≤ tv')%Z ∧ (v' ≠ v → (tv < tv')%Z)) as Hwrite.
  { intros current Hcase k v tv Hk Hv.
    destruct (decide (key = k)) as [->|Hne].
    - rewrite lookup_insert_eq. rewrite Hk in Hcase. simpl in Hcase.
      destruct Hcase as [Hfalsy|(Hcur & t & Ht & Hlt)].
      + by rewrite (parsed_truthy v tv Hv) in Hfalsy.
      + rewrite Hv in Hcur. injection Hcur as ->.
        exists created_at, t. split_and!; [done|done|lia|intros _; lia].
    - rewrite lookup_insert_ne by done.
      exists v, tv. split_and!; [done|done|lia|done]. }
  destruct (truthy (default PNone (m !! key))) eqn:Hentry; simpl.
  - destruct (strptime_with_tz (default PNone (m !! key))) as [current|] eqn:Hcur;
      [|intros [= <- <- <-]; split_and!; try done; intros ????; done].
    assert (m !! key = Some (default PNone (m !! key))) as Hsome.
    { destruct (m !! key); [done|]. by simpl in Hentry. }
    destruct (truthy created_at) eqn:Hcreated.
    + destruct (strptime_with_tz created_at) as [t|] eqn:Ht;
        [|intros [= <- <- <-]; split_and!; try done; intros ????; done].
      destruct (Z.ltb_spec current t) as [Hlt|Hge].
      * intros [= <- <- <-]. simpl. rewrite per_ticket_map_setitem, (Hpm m eq_refl).
        split_and!; try done.
        -- intros n k Hn. by rewrite get_bookmark_setitem_ne.
        -- apply (Hwrite current). right. split; [done|]. by exists t.
        -- intros k t' _ ? ?; simplify_eq. rewrite lookup_insert_eq.
           eexists _, _. split_and!; [reflexivity|eassumption|lia|by left].
      * intros [= <- <- <-]. rewrite (Hpm m eq_refl) in *.
        split_and!; try done.
        intros k t' _ ? ?; simplify_eq.
        exists (default PNone (m !! k)), current.
        split_and!; [done|done|lia|by right].
    + intros [= <- <- <-]. rewrite (Hpm m eq_refl) in *.
      split_and!; try done.
      intros k t' _ ? Ht; simplify_eq. by rewrite (parsed_truthy _ _ Ht) in Hcreated.
  - intros [= <- <- <-]. simpl. rewrite per_ticket_map_setitem, (Hpm m eq_refl).
    split_and!; try done.
    + intros n k Hn. by rewrite get_bookmark_setitem_ne.
    + apply (Hwrite 0%Z). by left.
    + intros k t' _ ? Ht; simplify_eq. rewrite lookup_insert_eq.
      exists created_at, t'. split_and!; [done|done|lia|by left].
Qed.

Lemma state_getitem_get (state : bookmarks) (n k : string) (v : pyval) :
  state_getitem state n k = Return v → singer.get_bookmark state n k = v.
Proof.
  unfold state_getitem, singer.get_bookmark.
  destruct (state !! n) as [d|]; [|done]. simpl.
  destruct (d !! k); [|done]. by intros [= ->].
Qed.

Lemma ensure_bookmark_path_other (state : bookmarks) (n k n' k' : string) :
  n' ≠ n →
  singer.get_bookmark (singer.ensure_bookmark_path state n k) n' k'
  = singer.get_bookmark state n' k'.
Proof.
  intros Hn. unfold singer.get_bookmark, singer.ensure_bookmark_path,
    singer.ensure_stream_path.
  destruct (state !! n) as [d|] eqn:Hd.
  - rewrite Hd. simpl. destruct (d !! k) as [[]|];
      by rewrite ?lookup_insert_ne.
  - rewrite lookup_insert_eq. simpl. rewrite lookup_empty.
    by rewrite !lookup_insert_ne.
Qed.

(** The per-ticket map after the block under [if not self.starting_state]:
    as it was, or, when it had no entry at the first comment of the run,
    the seed alone. *)
Lemma capture_map (cfg : gmap string pyval) (ticket_id : pyval)
    (h h1 : heap) (evs : list event) (r : outcome unit) :
  capture_starting_state (TicketComments cfg) ticket_id h = (h1, evs, r) →
  per_ticket_map (state h1) = per_ticket_map (state h)
  ∨ (starting_state h = None
     ∧ per_ticket_map (state h) = ∅
     ∧ per_ticket_map (state h1)
       = {[ KStr (str ticket_id) :=
              singer.get_bookmark (state h) "tickets" "generated_timestamp" ]}).
Proof.
  destruct (starting_state h) as [s0|] eqn:Hs.
  { rewrite (capture_captured _ _ _ _ Hs). intros [= <- <- <-]. by left. }
  rewrite (capture_first _ _ _ Hs). cbv zeta.
  pose proof (ensure_bookmark_path_get (state h) "ticket_comments" "created_at")
    as Hget.
  assert (per_ticket_map
            (singer.ensure_bookmark_path (state h) "ticket_comments" "created_at")
          = per_ticket_map (state h)) as Hsame.
  { unfold per_ticket_map. rewrite Hget.
    by destruct (singer.get_bookmark (state h) _ _). }
  destruct (seed_guard _) as [[]|] eqn:Hguard;
    [|intros [= <- <- <-]; by left..].
  destruct (state_getitem _ _ _) as [g|] eqn:Hg;
    [|intros [= <- <- <-]; by left].
  intros [= <- <- <-]. right. simpl. rewrite per_ticket_map_setitem.
  apply state_getitem_get in Hg.
  rewrite ensure_bookmark_path_other in Hg by done. subst g.
  split_and!; [done| |done].
  rewrite Hget in Hguard. unfold per_ticket_map.
  destruct (singer.get_bookmark (state h) "ticket_comments" "created_at")
    as [| | | |m]; try done.
  rewrite seed_guard_dict in Hguard. injection Hguard as Hguard.
  by apply bool_decide_eq_true in Hguard.
Qed.

Lemma advance_map (cfg : gmap string pyval) (ticket_id created_at : pyval)
    (h1 h2 : heap) (evs : list event) (r : outcome unit) :
  advance_comment_bookmark (TicketComments cfg) ticket_id created_at h1
    = (h2, evs, r) →
  per_ticket_map (state h2) = per_ticket_map (state h1)
  ∨ ∃ k, as_key ticket_id = Return k
         ∧ per_ticket_map (state h2)
           = <[k := created_at]> (per_ticket_map (state h1)).
Proof.
  rewrite advance_comment_bookmark_run. cbv zeta.
  destruct (singer.get_bookmark (state h1) "ticket_comments" "created_at")
    as [| | | |m] eqn:Hm; try (intros [= <- <- <-]; by left).
  assert (per_ticket_map (state h1) = m) as Hpm
    by (unfold per_ticket_map; by rewrite Hm).
  destruct (as_key ticket_id) as [k|]; [|intros [= <- <- <-]; by left].
  repeat case_match; intros [= <- <- <-]; try (by left);
    right; exists k; simpl; by rewrite per_ticket_map_setitem, Hpm.
Qed.

Lemma with_ticket_id_setitem (ticket_id c c1 : pyval) :
  py_setitem c #"ticket_id" ticket_id = Return c1 → c1 = with_ticket_id ticket_id c.
Proof. destruct c; simpl; try done. by intros [= <-]. Qed.

Lemma created_at_instant (c created_at : pyval) (t : Z) :
  py_get c #"created_at" = Return created_at →
  strptime_with_tz created_at = Return t →
  record_instant "created_at" c = Some t.
Proof.
  unfold py_get, py_get_or, record_instant, py_getitem.
  destruct c as [| | | |d]; try done.
  destruct (d !! #"created_at") as [v|]; simpl.
  - intros [= ->] Ht. by rewrite Ht.
  - by intros [= <-].
Qed.

(** One comment, processed to the end: the snapshot is there and is the
    one that was there; the comment is yielded exactly when its
    [created_at] is strictly after the threshold of the snapshot. *)
Lemma TicketComments_body_spec (cfg : gmap string pyval)
    (ticket_id c : pyval) (h h' : heap) (evs : list event) :
  let self := TicketComments cfg in
  snapshot_ok h →
  TicketComments_body self ticket_id c h = (h', evs, Return tt) →
  snapshot_ok h'
  ∧ ∃ snapshot t threshold,
      starting_state h' = Some snapshot
      ∧ (∀ s0, starting_state h = Some s0 → snapshot = s0)
      ∧ (starting_state h = None →
         ∀ n k, n ≠ "ticket_comments" →
           singer.get_bookmark snapshot n k = singer.get_bookmark (state h) n k)
      ∧ record_instant "created_at" (with_ticket_id ticket_id c) = Some t
      ∧ strptime_with_tz (resolved_threshold snapshot cfg ticket_id)
        = Return threshold
      ∧ evs = (if (threshold <? t)%Z
               then [Yield (stream self) (with_ticket_id ticket_id c)]
               else []).
Proof.
  intros self Hok. subst self. rewrite TicketComments_body_run. cbv zeta.
  destruct (py_setitem c #"ticket_id" ticket_id) as [c1|] eqn:Hc1; [|done].
  apply with_ticket_id_setitem in Hc1 as ->.
  destruct (capture_starting_state _ ticket_id h) as [[h1 ev1] [[]|]] eqn:Hcap;
    [|done].
  destruct (capture_spec _ _ _ _ _ _ Hcap)
    as (Hok1 & Hkept & Hsome & Hfirst & _ & _).
  destruct (py_get _ #"created_at") as [created_at|] eqn:Hcreated; [|done].
  destruct (advance_comment_bookmark _ ticket_id created_at h1)
    as [[h2 ev2] [[]|]] eqn:Hadv; [|done].
  destruct (advance_frame _ _ _ _ _ _ _ Hadv) as (Hs2 & Hb2 & _ & _).
  destruct (ticket_bookmark _ ticket_id h2) as [threshold|] eqn:Hth; [|done].
  destruct (strptime_with_tz created_at) as [t|] eqn:Ht; [|done].
  destruct (Hsome eq_refl) as [snapshot Hsnap].
  assert (snapshot_ok h2) as Hok2.
  { unfold snapshot_ok in *. rewrite Hs2, Hb2. by apply Hok1. }
  assert (starting_state h2 = Some snapshot) as Hsnap2 by congruence.
  intros Hrun.
  assert (snapshot_ok h' ∧ starting_state h' = Some snapshot
          ∧ evs = (if (threshold <? t)%Z
                   then [Yield (stream (TicketComments cfg))
                               (with_ticket_id ticket_id c)]
                   else [])) as (Hok' & Hsnap' & Hevs).
  { destruct (threshold <? t)%Z; injection Hrun as <- <-; by split_and!. }
  split; [done|].
  exists snapshot, t, threshold. split_and!; try done.
  - intros s0 Hs0. specialize (Hkept s0 Hs0). subst h1. congruence.
  - intros Hnone n k Hn.
    destruct (Hfirst Hnone eq_refl) as [Hst Hget].
    rewrite Hsnap in Hst. injection Hst as ->. by apply Hget.
  - by eapply created_at_instant.
  - by apply (ticket_bookmark_resolved cfg ticket_id h2).
Qed.

(** ** The comments of one ticket *)

Lemma TicketComments_loop (cfg : gmap string pyval) (ticket_id : pyval)
    (snapshot : bookmarks) (comments : list pyval) :
  ∀ (h h' : heap) (evs : list event),
    snapshot_ok h →
    starting_state h = Some snapshot →
    for_each (TicketComments_body (TicketComments cfg) ticket_id) comments Done h
      = (h', evs, Return tt) →
    snapshot_ok h'
    ∧ starting_state h' = Some snapshot
    ∧ (comments ≠ [] →
       ∃ threshold,
         strptime_with_tz (resolved_threshold snapshot cfg ticket_id)
         = Return threshold)
    ∧ ∀ threshold,
        strptime_with_tz (resolved_threshold snapshot cfg ticket_id)
        = Return threshold →
        evs = Yield (stream (TicketComments cfg))
              <$> filter (strictly_after "created_at" threshold)
                         (with_ticket_id ticket_id <$> comments).
Proof.
  induction comments as [|c cs IH]; intros h h' evs Hok Hsnap Hrun.
  - injection Hrun as <- <-. by split_and!.
  - rewrite for_each_cons in Hrun.
    destruct (TicketComments_body _ ticket_id c h) as [[h1 ev1] [[]|]] eqn:Hbody;
      [|done].
    destruct (for_each _ cs Done h1) as [[h2 ev2] r2] eqn:Hrest.
    injection Hrun as <- <- ->.
    destruct (TicketComments_body_spec _ _ _ _ _ _ Hok Hbody)
      as (Hok1 & s1 & t & th & Hs1 & Hkept & _ & Ht & Hth & ->).
    specialize (Hkept _ Hsnap). subst s1.
    destruct (IH _ _ _ Hok1 Hs1 Hrest) as (Hok2 & Hs2 & _ & Hevs).
    split_and!; [done|done|by eauto|].
    intros th' Hth'. rewrite Hth in Hth'. injection Hth' as <-.
    rewrite (Hevs th Hth), fmap_cons.
    destruct (th <? t)%Z eqn:Hlt.
    + rewrite filter_cons_True
        by (unfold strictly_after; by rewrite Ht, Hlt).
      by rewrite fmap_cons.
    + rewrite filter_cons_False
        by (unfold strictly_after; rewrite Ht, Hlt; by apply Is_true_false_2).
      done.
Qed.




(** A completed [TicketComments.sync] for a ticket that has comments. *)
Lemma TicketComments_sync_spec (cfg : gmap string pyval) (ticket_id : pyval)
    (h h' : heap) (evs : list event) (comments : list pyval) (fin : status) :
  let self := TicketComments cfg in
  snapshot_ok h →
  TicketComments_get_objects self ticket_id = (comments, fin) →
  comments ≠ [] →
  TicketComments_sync self ticket_id h = (h', evs, Return tt) →
  snapshot_ok h'
  ∧ ∃ snapshot threshold,
      starting_state h' = Some snapshot
      ∧ (∀ s0, starting_state h = Some s0 → snapshot = s0)
      ∧ (starting_state h = None →
         ∀ n k, n ≠ "ticket_comments" →
           singer.get_bookmark snapshot n k = singer.get_bookmark (state h) n k)
      ∧ strptime_with_tz (resolved_threshold snapshot cfg ticket_id)
        = Return threshold
      ∧ evs = Yield (stream self)
              <$> filter (strictly_after "created_at" threshold)
                         (with_ticket_id ticket_id <$> comments).
Proof.
  intros self Hok Hobj Hne. subst self.
  unfold TicketComments_sync, for_in. rewrite Hobj. simpl. intros Hrun.
  pose proof (for_each_Return_Done _ _ _ _ _ _ Hrun) as ->.
  destruct comments as [|c cs]; [done|].
  rewrite for_each_cons in Hrun.
  destruct (TicketComments_body _ ticket_id c h) as [[h1 ev1] [[]|]] eqn:Hbody;
    [|done].
  destruct (for_each _ cs Done h1) as [[h2 ev2] r2] eqn:Hrest.
  injection Hrun as <- <- ->.
  destruct (TicketComments_body_spec _ _ _ _ _ _ Hok Hbody)
    as (Hok1 & snapshot & t & th & Hs1 & Hkept & Hfirst & Ht & Hth & ->).
  destruct (TicketComments_loop _ _ _ _ _ _ _ Hok1 Hs1 Hrest)
    as (Hok2 & Hs2 & _ & Hevs).
  split; [done|]. exists snapshot, th. split_and!; try done.
  rewrite (Hevs th Hth), fmap_cons.
  destruct (th <? t)%Z eqn:Hlt.
  - rewrite filter_cons_True
      by (unfold strictly_after; by rewrite Ht, Hlt).
    by rewrite fmap_cons.
  - rewrite filter_cons_False
      by (unfold strictly_after; rewrite Ht, Hlt; by apply Is_true_false_2).
    done.
Qed.


(** C3: a group whose [updated_at] is, as an instant, the bookmark that
    [Groups.sync] read at its start is yielded by a completed run (the
    test is [>=]); a comment whose [created_at] is, as an instant, the
    resolved threshold is not yielded by [TicketComments.sync] (the test
    is [>]). *)
Theorem boundary_included_by_groups_excluded_by_comments
    (cfg : gmap string pyval) :
  (∀ (pages : iterable pyval) (state state' : bookmarks) (evs : list event)
     (bookmark : Z) (group : pyval),
     Groups_sync (Groups cfg) pages state = (state', evs, Return tt) →
     get_bookmark (Groups cfg) state = Return bookmark →
     group ∈ (CursorBasedStream_get_objects (Groups cfg) pages).1 →
     record_instant "updated_at" group = Some bookmark →
     Yield (stream (Groups cfg)) group ∈ evs)
  ∧ (∀ (ticket_id : pyval) (h h' : heap) (evs : list event)
       (comments : list pyval) (fin : status) (snapshot : bookmarks)
       (threshold : Z) (comment : pyval),
       snapshot_ok h →
       TicketComments_get_objects (TicketComments cfg) ticket_id = (comments, fin) →
       TicketComments_sync (TicketComments cfg) ticket_id h = (h', evs, Return tt) →
       starting_state h' = Some snapshot →
       strptime_with_tz (resolved_threshold snapshot cfg ticket_id)
       = Return threshold →
       comment ∈ comments →
       record_instant "created_at" (with_ticket_id ticket_id comment)
       = Some threshold →
       Yield (stream (TicketComments cfg)) (with_ticket_id ticket_id comment)
       ∉ evs).
Proof.
  split.
  - intros pages state state' evs bookmark group Hrun Hb Hin Hat.
    destruct (Groups_sync_completed _ _ _ _ _ Hrun)
      as (b & records & Hb' & Hobj & Hloop).
    rewrite Hb in Hb'. injection Hb' as <-. rewrite Hobj in Hin. simpl in Hin.
    destruct (Groups_loop _ _ _ _ _ _ _ Hloop Hb) as (-> & _ & _).
    apply list_elem_of_fmap_2, list_elem_of_filter. split; [|done].
    unfold at_or_after. rewrite Hat. apply Is_true_true, Z.leb_le. lia.
  - intros ticket_id h h' evs comments fin snapshot threshold comment
           Hok Hobj Hrun Hsnap Hth Hin Hat.
    assert (comments ≠ []) as Hne by (intros ->; by apply elem_of_nil in Hin).
    destruct (TicketComments_sync_spec _ _ _ _ _ _ _ Hok Hobj Hne Hrun)
      as (_ & s & th & Hs & _ & _ & Hth' & ->).
    rewrite Hsnap in Hs. injection Hs as <-.
    rewrite Hth in Hth'. injection Hth' as <-.
    intros (x & [= <-] & Hx)%list_elem_of_fmap.
    apply list_elem_of_filter in Hx as [Hafter _].
    unfold strictly_after in Hafter. rewrite Hat in Hafter.
    apply Is_true_true, Z.ltb_lt in Hafter. lia.
Qed.

(** ** The live per-ticket bookmarks *)

Lemma created_at_getitem (c created_at : pyval) (t : Z) :
  py_get c #"created_at" = Return created_at →
  strptime_with_tz created_at = Return t →
  py_getitem c #"created_at" = Return created_at.
Proof.
  unfold py_get, py_get_or, py_getitem.
  destruct c as [| | | |d]; try done.
  destruct (d !! #"created_at") as [v|]; simpl; [done|].
  by intros [= <-].
Qed.

(** One comment, processed to the end: what it does to the live
    per-ticket map. *)
Lemma TicketComments_body_bookmarks (cfg : gmap string pyval)
    (ticket_id c : pyval) (h h' : heap) (evs : list event) :
  TicketComments_body (TicketComments cfg) ticket_id c h = (h', evs, Return tt) →
  let m := per_ticket_map (state h) in
  let m' := per_ticket_map (state h') in
  (∀ k v tv,
     m !! k = Some v → strptime_with_tz v = Return tv →
     ∃ v' tv',
       m' !! k = Some v' ∧ strptime_with_tz v' = Return tv' ∧
       (tv ≤ tv')%Z ∧ (v' ≠ v → (tv < tv')%Z))
  ∧ (∀ k, is_Some (m !! k) → is_Some (m' !! k))
  ∧ is_Some (starting_state h')
  ∧ ∃ k created_at t v' t',
      as_key ticket_id = Return k
      ∧ py_getitem (with_ticket_id ticket_id c) #"created_at" = Return created_at
      ∧ strptime_with_tz created_at = Return t
      ∧ m' !! k = Some v'
      ∧ strptime_with_tz v' = Return t'
      ∧ (t ≤ t')%Z
      ∧ (v' = created_at
         ∨ m !! k = Some v'
         ∨ (starting_state h = None ∧ m = ∅ ∧
            v' = singer.get_bookmark (state h) "tickets" "generated_timestamp")).
Proof using parse_empty.
  rewrite TicketComments_body_run. cbv zeta.
  destruct (py_setitem c #"ticket_id" ticket_id) as [c1|] eqn:Hc1; [|done].
  apply with_ticket_id_setitem in Hc1 as ->.
  destruct (capture_starting_state _ ticket_id h) as [[h1 ev1] [[]|]] eqn:Hcap;
    [|done].
  destruct (capture_spec _ _ _ _ _ _ Hcap) as (_ & _ & Hsome & _ & Hsub & _).
  pose proof (capture_map _ _ _ _ _ _ Hcap) as Hmap1.
  destruct (py_get _ #"created_at") as [created_at|] eqn:Hcreated; [|done].
  destruct (advance_comment_bookmark _ ticket_id created_at h1)
    as [[h2 ev2] [[]|]] eqn:Hadv; [|done].
  destruct (advance_spec _ _ _ _ _ _ _ Hadv) as (Hs2 & _ & _ & _ & Hmono & Hmax).
  pose proof (advance_map _ _ _ _ _ _ _ Hadv) as Hmap2.
  destruct (ticket_bookmark _ ticket_id h2) as [threshold|]; [|done].
  destruct (strptime_with_tz created_at) as [t|] eqn:Ht; [|done].
  intros Hrun.
  assert (state h' = state h2 ∧ starting_state h' = starting_state h2)
    as [Hst Hss].
  { destruct (threshold <? t)%Z; by injection Hrun as <- <-. }
  rewrite Hst, Hss. clear Hrun Hst Hss.
  assert (∃ k, as_key ticket_id = Return k) as [k Hk].
  { rewrite advance_comment_bookmark_run in Hadv.
    destruct (singer.get_bookmark (state h1) _ _); try done.
    destruct (as_key ticket_id); [by eauto | done]. }
  split_and!.
  - intros k0 v tv Hv Hparse.
    apply (Hmono k0 v tv); [|done]. by eapply lookup_weaken.
  - intros k0 [v Hv].
    assert (per_ticket_map (state h1) !! k0 = Some v) as Hv1
      by by eapply lookup_weaken.
    destruct Hmap2 as [->|(k' & _ & ->)]; [by eauto|].
    destruct (decide (k' = k0)) as [->|Hne].
    + rewrite lookup_insert_eq. by eauto.
    + rewrite lookup_insert_ne by done. by eauto.
  - rewrite Hs2. by apply Hsome.
  - destruct (Hmax k t eq_refl Hk eq_refl) as (v' & t' & Hv' & Hparse & Hle & Hfrom).
    exists k, created_at, t, v', t'. split_and!; try done.
    + by eapply created_at_getitem.
    + destruct Hfrom as [->|Hold]; [by left|]. right.
      destruct Hmap1 as [Heq|(Hnone & Hempty & Hseed)].
      * left. by rewrite <- Heq.
      * right. split_and!; [done|done|].
        rewrite Hseed in Hold.
        apply lookup_singleton_Some in Hold as [_ <-]. done.
Qed.

Lemma TicketComments_loop_bookmarks (cfg : gmap string pyval) (ticket_id : pyval)
    (comments : list pyval) :
  ∀ (h h' : heap) (evs : list event),
    for_each (TicketComments_body (TicketComments cfg) ticket_id) comments Done h
      = (h', evs, Return tt) →
    (∀ k v tv,
       per_ticket_map (state h) !! k = Some v → strptime_with_tz v = Return tv →
       ∃ v' tv',
         per_ticket_map (state h') !! k = Some v' ∧
         strptime_with_tz v' = Return tv' ∧
         (tv ≤ tv')%Z ∧ (v' ≠ v → (tv < tv')%Z))
    ∧ (∀ k, is_Some (per_ticket_map (state h) !! k) →
            is_Some (per_ticket_map (state h') !! k)).
Proof using parse_empty.
  induction comments as [|c cs IH]; intros h h' evs Hrun.
  - injection Hrun as <- <-. split; [|done].
    intros k v tv Hv Hp. exists v, tv. split_and!; [done|done|lia|done].
  - rewrite for_each_cons in Hrun.
    destruct (TicketComments_body _ ticket_id c h) as [[h1 ev1] [[]|]] eqn:Hbody;
      [|done].
    destruct (for_each _ cs Done h1) as [[h2 ev2] r2] eqn:Hrest.
    injection Hrun as <- <- ->.
    destruct (TicketComments_body_bookmarks _ _ _ _ _ _ Hbody)
      as (Hmono1 & Hdom1 & _ & _).
    destruct (IH _ _ _ Hrest) as (Hmono2 & Hdom2).
    split; [|by eauto].
    intros k v tv Hv Hp.
    destruct (Hmono1 k v tv Hv Hp) as (v1 & tv1 & Hv1 & Hp1 & Hle1 & Hlt1).
    destruct (Hmono2 k v1 tv1 Hv1 Hp1) as (v2 & tv2 & Hv2 & Hp2 & Hle2 & Hlt2).
    exists v2, tv2. split_and!; [done|done|lia|].
    intros Hne. destruct (decide (tv < tv2)%Z) as [|Hge]; [done|].
    assert (¬ v1 ≠ v) as H1 by (intros ?%Hlt1; lia).
    assert (¬ v2 ≠ v1) as H2 by (intros ?%Hlt2; lia).
    exfalso. apply H2. intros ->. apply H1. intros ->. by apply Hne.
Qed.

Lemma TicketComments_loop_latest (cfg : gmap string pyval) (ticket_id : pyval)
    (k : pykey) (comments : list pyval) :
  as_key ticket_id = Return k →
  ∀ (h h' : heap) (evs : list event) (v1 : pyval) (t1 : Z),
    for_each (TicketComments_body (TicketComments cfg) ticket_id) comments Done h
      = (h', evs, Return tt) →
    is_Some (starting_state h) →
    per_ticket_map (state h) !! k = Some v1 →
    strptime_with_tz v1 = Return t1 →
    ∃ v' t',
      per_ticket_map (state h') !! k = Some v'
      ∧ strptime_with_tz v' = Return t'
      ∧ (t1 ≤ t')%Z
      ∧ (∀ c, c ∈ comments →
           ∃ created_at t,
             py_getitem (with_ticket_id ticket_id c) #"created_at" = Return created_at
             ∧ strptime_with_tz created_at = Return t ∧ (t ≤ t')%Z)
      ∧ (v' = v1
         ∨ ∃ c, c ∈ comments ∧
                py_getitem (with_ticket_id ticket_id c) #"created_at" = Return v').
Proof using parse_empty.
  intros Hk.
  induction comments as [|c cs IH]; intros h h' evs v1 t1 Hrun Hsome Hv1 Hp1.
  - injection Hrun as <- <-. exists v1, t1.
    split_and!; [done|done|lia| |by left].
    by intros c ?%elem_of_nil.
  - rewrite for_each_cons in Hrun.
    destruct (TicketComments_body _ ticket_id c h) as [[h1 ev1] [[]|]] eqn:Hbody;
      [|done].
    destruct (for_each _ cs Done h1) as [[h2 ev2] r2] eqn:Hrest.
    injection Hrun as <- <- ->.
    destruct (TicketComments_body_bookmarks _ _ _ _ _ _ Hbody)
      as (Hmono & _ & Hsome1 & k' & created_at & t & v & tv & Hk' & Hca & Hpca
          & Hv & Hpv & Hle & Hfrom).
    rewrite Hk in Hk'. injection Hk' as <-.
    destruct (Hmono k v1 t1 Hv1 Hp1) as (v0 & t0 & Hv0 & Hp0 & Hle0 & _).
    rewrite Hv in Hv0. injection Hv0 as <-.
    rewrite Hpv in Hp0. injection Hp0 as <-.
    destruct (IH _ _ _ v tv Hrest Hsome1 Hv Hpv)
      as (v' & t' & Hv' & Hp' & Hle' & Hall & Hfrom').
    exists v', t'. split_and!; [done|done|lia| |].
    + intros c' [->|Hin]%elem_of_cons.
      * exists created_at, t. split_and!; [done|done|lia].
      * by apply Hall.
    + destruct Hfrom' as [->|(c' & Hin & Hc')].
      * destruct Hfrom as [->|[Hold|(Hnone & _)]].
        -- right. exists c. split; [by apply elem_of_cons; left | done].
        -- left. congruence.
        -- destruct Hsome as [? Hsome]. congruence.
      * right. exists c'. split; [by apply elem_of_cons; right | done].
Qed.

(** C8, as the code has it: over a completed [TicketComments.sync], an
    entry of the live per-ticket map that holds a timestamp keeps it or
    moves to a strictly later one, and no key leaves the map; and when the
    ticket has comments, the entry under the ticket id holds the latest
    timestamp among the [created_at] of these comments and the value the
    entry had before.  (The value before can be the seed, the ticket
    bookmark, written at the first comment of a run into a map without
    entries; the seed is not the [created_at] of a comment.) *)
Theorem per_ticket_bookmarks_monotone_additive_latest
    (cfg : gmap string pyval) (ticket_id : pyval)
    (h h' : heap) (evs : list event) (comments : list pyval) (fin : status) :
  let self := TicketComments cfg in
  TicketComments_get_objects self ticket_id = (comments, fin) →
  TicketComments_sync self ticket_id h = (h', evs, Return tt) →
  let m := per_ticket_map (state h) in
  let m' := per_ticket_map (state h') in
  (∀ k v tv,
     m !! k = Some v → strptime_with_tz v = Return tv →
     ∃ v' tv',
       m' !! k = Some v' ∧ strptime_with_tz v' = Return tv' ∧
       (tv ≤ tv')%Z ∧ (v' ≠ v → (tv < tv')%Z))
  ∧ (∀ k, is_Some (m !! k) → is_Some (m' !! k))
  ∧ (comments ≠ [] →
     ∃ k v' t',
       as_key ticket_id = Return k
       ∧ m' !! k = Some v'
       ∧ strptime_with_tz v' = Return t'
       ∧ (∀ c, c ∈ comments →
            ∃ created_at t,
              py_getitem (with_ticket_id ticket_id c) #"created_at"
              = Return created_at
              ∧ strptime_with_tz created_at = Return t ∧ (t ≤ t')%Z)
       ∧ ((∃ c, c ∈ comments ∧
                py_getitem (with_ticket_id ticket_id c) #"created_at" = Return v')
          ∨ m !! k = Some v'
          ∨ (starting_state h = None ∧ m = ∅ ∧
             v' = singer.get_bookmark (state h) "tickets" "generated_timestamp"))).
Proof using parse_empty.
  intros self Hobj. subst self.
  unfold TicketComments_sync, for_in. rewrite Hobj. simpl. intros Hrun.
  pose proof (for_each_Return_Done _ _ _ _ _ _ Hrun) as ->.
  destruct (TicketComments_loop_bookmarks _ _ _ _ _ _ Hrun) as (Hmono & Hdom).
  split_and!; [done|done|].
  destruct comments as [|c cs]; [done|]. intros _.
  rewrite for_each_cons in Hrun.
  destruct (TicketComments_body _ ticket_id c h) as [[h1 ev1] [[]|]] eqn:Hbody;
    [|done].
  destruct (for_each _ cs Done h1) as [[h2 ev2] r2] eqn:Hrest.
  injection Hrun as <- <- ->.
  destruct (TicketComments_body_bookmarks _ _ _ _ _ _ Hbody)
    as (_ & _ & Hsome1 & k & created_at & t & v & tv & Hk & Hca & Hpca
        & Hv & Hpv & Hle & Hfrom).
  destruct (TicketComments_loop_latest _ _ _ _ Hk _ _ _ v tv Hrest Hsome1 Hv Hpv)
    as (v' & t' & Hv' & Hp' & Hle' & Hall & Hfrom').
  exists k, v', t'. split_and!; [done|done|done| |].
  - intros c' [->|Hin]%elem_of_cons.
    + exists created_at, t. split_and!; [done|done|lia].
    + by apply Hall.
  - destruct Hfrom' as [->|(c' & Hin & Hc')].
    + destruct Hfrom as [->|[Hold|Hseed]].
      * left. exists c. split; [by apply elem_of_cons; left | done].
      * by right; left.
      * by right; right.
    + left. exists c'. split; [by apply elem_of_cons; right | done].
Qed.

(** ** Group memberships without [updated_at] *)

(** A membership whose [updated_at] is there but empty or [None]: with an
    [id] it is yielded without the bookmark test and without touching the
    state; without an [id] it is only logged. *)
Lemma GroupMemberships_body_falsy_updated_at (self : Stream) (bookmark : Z)
    (membership updated_at id : pyval) (state : bookmarks) :
  py_getitem membership #"updated_at" = Return updated_at →
  truthy updated_at = false →
  py_getitem membership #"id" = Return id →
  GroupMemberships_body self bookmark membership state =
    if truthy id then
      (state,
       [LogInfo ("group_membership record with id: " +:+ str id +:+
                 " does not have an updated_at field so it will be syncd...");
        Yield (stream self) membership],
       Return tt)
    else
      (state,
       [LogInfo
          "Received group_membership record with no id or updated_at, skipping..."],
       Return tt).
Proof.
  intros Hu Hfalsy Hid.
  unfold GroupMemberships_body, mbind, gen_bind, gbind, lift, emit.
  rewrite Hu, Hfalsy, Hid. by destruct (truthy id).
Qed.

(** A membership without the key [updated_at] ends the run. *)
Lemma GroupMemberships_body_missing_updated_at (self : Stream) (bookmark : Z)
    (d : gmap pykey pyval) (state : bookmarks) :
  d !! #"updated_at" = None →
  GroupMemberships_body self bookmark (PDict d) state = (state, [], Raise KeyError).
Proof.
  intros Hd.
  unfold GroupMemberships_body, mbind, gen_bind, gbind, lift. simpl.
  by rewrite Hd.
Qed.

(** ** The fan-out of one ticket *)

Lemma sync_sub_stream_run (sub_stream : Stream) (what : string) (ticket : pyval)
    (sync : pyval → gen heap unit) (h : heap) :
  sync_sub_stream sub_stream what ticket sync h =
    if is_selected sub_stream then
      match py_getitem ticket #"id" with
      | Raise e => (h, [], Raise e)
      | Return ticket_id =>
          match sync ticket_id h with
          | (h1, evs, Raise ZendeskNotFound) =>
              (h1,
               evs ++ [LogWarning ("Unable to retrieve " +:+ what
                                   +:+ " for ticket (ID: " +:+ str ticket_id
                                   +:+ "), record not found")],
               Return tt)
          | (h1, evs, r) => (h1, evs, r)
          end
      end
    else (h, [], Return tt).
Proof.
  unfold sync_sub_stream. destruct (is_selected sub_stream); [|done].
  unfold except_not_found. rewrite !run_bind. unfold lift.
  destruct (py_getitem ticket #"id") as [ticket_id|e] eqn:Hid.
  - destruct (sync ticket_id h) as [[h1 evs] [[]|e]]; simpl; [done|].
    by destruct e.
  - assert (e ≠ ZendeskNotFound) as He.
    { unfold py_getitem in Hid. repeat case_match; by simplify_eq. }
    by destruct e.
Qed.

Lemma Tickets_body_run (self audits_stream metrics_stream comments_stream : Stream)
    (ticket : pyval) (h : heap) :
  Tickets_body self audits_stream metrics_stream comments_stream ticket h =
    match py_get ticket #"generated_timestamp" with
    | Raise e => (h, [], Raise e)
    | Return generated_timestamp =>
        match (match generated_timestamp with
               | PInt ts => strftime_utc ts
               | _ => Raise TypeError
               end) with
        | Raise e => (h, [], Raise e)
        | Return generated =>
            match update_bookmark self (state h) (PStr generated) with
            | Raise e => (h, [], Raise e)
            | Return state1 =>
                let h1 := set_state (λ _, state1) h in
                match py_pop ticket #"fields" with
                | Raise e => (h1, [], Raise e)
                | Return popped =>
                    let '(h2, evs, r) :=
                      (sync_sub_stream audits_stream "audits" popped.2
                         (TicketAudits_sync audits_stream);;
                       sync_sub_stream metrics_stream "metrics" popped.2
                         (TicketMetrics_sync metrics_stream);;
                       sync_sub_stream comments_stream "comments" popped.2
                         (TicketComments_sync comments_stream)) h1 in
                    (h2, Yield (stream self) popped.2 :: evs, r)
                end
            end
        end
    end.
Proof.
  unfold Tickets_body. rewrite run_bind. unfold lift at 1.
  destruct (py_get ticket #"generated_timestamp") as [gts|]; [|done].
  rewrite run_bind. unfold lift at 1.
  destruct (match gts with PInt ts => strftime_utc ts | _ => Raise TypeError end)
    as [generated|]; [|done].
  rewrite run_bind. unfold on_state, in_place.
  destruct (update_bookmark self (state h) (PStr generated)) as [state1|].
  2: { by destruct h. }
  rewrite run_bind. unfold lift at 1.
  destruct (py_pop ticket #"fields") as [popped|]; [|done].
  rewrite run_bind. unfold emit at 1. cbv beta iota zeta.
  by destruct ((sync_sub_stream audits_stream "audits" popped.2
                  (TicketAudits_sync audits_stream);;
                sync_sub_stream metrics_stream "metrics" popped.2
                  (TicketMetrics_sync metrics_stream);;
                sync_sub_stream comments_stream "comments" popped.2
                  (TicketComments_sync comments_stream))
                 (set_state (λ _, state1) h)) as [[h2 evs] r].
Qed.

(** ** More on the bookmark primitive *)

Lemma get_bookmark_setitem_key_ne (state : bookmarks) (n k k' : string) (v : pyval) :
  k ≠ k' →
  singer.get_bookmark (state_setitem n k v state) n k'
  = singer.get_bookmark state n k'.
Proof.
  intros Hk. unfold singer.get_bookmark, state_setitem.
  rewrite lookup_insert_eq. simpl. by rewrite lookup_insert_ne.
Qed.

Lemma write_bookmark_frame (state : bookmarks) (n k n' k' : string) (v : pyval) :
  (n', k') ≠ (n, k) →
  singer.get_bookmark (singer.write_bookmark state n k v) n' k'
  = singer.get_bookmark state n' k'.
Proof.
  intros Hne. rewrite write_bookmark_setitem.
  destruct (decide (n = n')) as [<-|Hn].
  - apply get_bookmark_setitem_key_ne. congruence.
  - by apply get_bookmark_setitem_ne.
Qed.

Lemma update_bookmark_frame (self : Stream) (state state' : bookmarks)
    (value : pyval) (n k : string) :
  update_bookmark self state value = Return state' →
  (n, k) ≠ (name self, replication_key self) →
  singer.get_bookmark state' n k = singer.get_bookmark state n k.
Proof.
  unfold update_bookmark.
  destruct (get_bookmark self state) as [c|]; simpl; [|done].
  destruct (truthy value); [|by intros [= <-]].
  destruct (strptime_with_tz value) as [t|]; simpl; [|done].
  destruct (c <? t)%Z; intros [= <-] Hne; [|done].
  by apply write_bookmark_frame.
Qed.

(** A call of [update_bookmark] that returns: the bookmark of the stream
    is not earlier than before, no other bookmark of the state has changed,
    and calling it again with the same value changes nothing. *)
Theorem update_bookmark_monotone_frame_idempotent
    (self : Stream) (state state' : bookmarks) (value : pyval) :
  update_bookmark self state value = Return state' →
  (∃ current current',
     get_bookmark self state = Return current ∧
     get_bookmark self state' = Return current' ∧
     (current ≤ current')%Z)
  ∧ (∀ n k, (n, k) ≠ (name self, replication_key self) →
       singer.get_bookmark state' n k = singer.get_bookmark state n k)
  ∧ update_bookmark self state' value = Return state'.
Proof.
  intros Hup. split_and!.
  2: { intros n k. by apply (update_bookmark_frame self state state' value). }
  all: revert Hup; unfold update_bookmark.
  all: destruct (get_bookmark self state) as [c|] eqn:Hc; simpl; [|done].
  all: destruct (truthy value) eqn:Hv.
  all: try (intros [= <-]; rewrite ?Hc; simpl; first
              [ done | exists c, c; split_and!; [done|done|lia] ]).
  all: destruct (strptime_with_tz value) as [t|] eqn:Ht; simpl; [|done].
  all: destruct (Z.ltb_spec c t) as [Hlt|Hge]; intros [= <-].
  all: try assert (get_bookmark self
                (singer.write_bookmark state (name self) (replication_key self) value)
              = Return t) as Hnew
        by (unfold get_bookmark; by rewrite get_bookmark_write).
  - exists c, t. split_and!; [done|done|lia].
  - exists c, c. split_and!; [done|done|lia].
  - rewrite Hnew. simpl. by rewrite Z.ltb_irrefl.
  - rewrite Hc. simpl. destruct (Z.ltb_spec c t); [lia|done].
Qed.

(** ** More on the order-untrusted streams *)

Lemma Groups_loop_total (self : Stream) (bookmark : Z) (records : list pyval) :
  ∀ (state : bookmarks) (current : Z),
    get_bookmark self state = Return current →
    Forall (λ r, is_Some (record_instant "updated_at" r)) records →
    ∃ state' evs,
      for_each (Groups_body self bookmark) records Done state
      = (state', evs, Return tt).
Proof.
  induction records as [|r rs IH]; intros state current Hc Hall.
  - by exists state, [].
  - apply Forall_cons in Hall as [[t Hr] Hall].
    rewrite for_each_cons, Groups_body_run.
    unfold record_instant in Hr.
    destruct (py_getitem r #"updated_at") as [v|]; [|done]. simpl in Hr.
    destruct (strptime_with_tz v) as [t'|] eqn:Ht; [|done].
    destruct (bookmark <=? t')%Z.
    + destruct (update_bookmark_instant self state v current Hc
                  (or_intror (ex_intro _ t' Ht))) as (state1 & -> & Hc1).
      destruct (IH state1 _ Hc1 Hall) as (state2 & evs & ->). by eauto.
    + destruct (IH state _ Hc Hall) as (state2 & evs & ->). by eauto.
Qed.

(** [Groups.sync] (and the streams written like it) completes exactly
    when the stored bookmark parses, the listing ends normally, and every
    record carries an [updated_at] that parses.  A completed run yields, in
    the order of the listing, exactly the records at or after the bookmark
    read at the start, and leaves as bookmark the latest of that bookmark
    and the timestamps of the yielded records. *)
Theorem Groups_sync_completed_run (self : Stream) (pages : iterable pyval)
    (state : bookmarks) :
  ((∃ state' evs, Groups_sync self pages state = (state', evs, Return tt))
   ↔ ∃ bookmark records,
       get_bookmark self state = Return bookmark ∧
       CursorBasedStream_get_objects self pages = (records, Done) ∧
       Forall (λ r, is_Some (record_instant "updated_at" r)) records)
  ∧ ∀ state' evs,
      Groups_sync self pages state = (state', evs, Return tt) →
      ∃ bookmark records,
        get_bookmark self state = Return bookmark ∧
        CursorBasedStream_get_objects self pages = (records, Done) ∧
        evs = Yield (stream self)
              <$> filter (at_or_after "updated_at" bookmark) records ∧
        get_bookmark self state'
        = Return (latest bookmark
                    (fed_instants "updated_at"
                       (filter (at_or_after "updated_at" bookmark) records))).
Proof.
  split; [split|].
  - intros (state' & evs & Hrun).
    destruct (Groups_sync_completed _ _ _ _ _ Hrun) as (b & records & Hb & Hobj & Hloop).
    destruct (Groups_loop _ _ _ _ _ _ _ Hloop Hb) as (_ & Hall & _).
    by exists b, records.
  - intros (b & records & Hb & Hobj & Hall).
    destruct (Groups_loop_total self b records state b Hb Hall)
      as (state' & evs & Hloop).
    exists state', evs.
    unfold Groups_sync, for_in. rewrite run_bind. unfold reading.
    rewrite Hb, Hobj. simpl. by rewrite Hloop.
  - intros state' evs Hrun.
    destruct (Groups_sync_completed _ _ _ _ _ Hrun) as (b & records & Hb & Hobj & Hloop).
    destruct (Groups_loop _ _ _ _ _ _ _ Hloop Hb) as (Hevs & _ & Hb').
    by exists b, records.
Qed.

Lemma Groups_loop_any (self : Stream) (bookmark : Z) (records : list pyval)
    (fin : status) :
  ∀ (state state' : bookmarks) (evs : list event) (r : outcome unit) (current : Z),
    for_each (Groups_body self bookmark) records fin state = (state', evs, r) →
    get_bookmark self state = Return current →
    (∃ current', get_bookmark self state' = Return current' ∧ (current ≤ current')%Z)
    ∧ (∀ n k, (n, k) ≠ (name self, replication_key self) →
         singer.get_bookmark state' n k = singer.get_bookmark state n k)
    ∧ ∃ n, evs = Yield (stream self)
                 <$> filter (at_or_after "updated_at" bookmark) (take n records)
           ∧ (r = Return tt → n = length records ∧ fin = Done).
Proof.
  induction records as [|x xs IH]; intros state state' evs r current Hrun Hc.
  - simpl in Hrun.
    assert (state' = state ∧ evs = [] ∧ (r = Return tt → fin = Done))
      as (-> & -> & Hfin)
      by (destruct fin; by injection Hrun as <- <- <-).
    split_and!; [exists current; split; [done|lia] | done |].
    exists 0. split; [done|]. intros Hr. by split; [|apply Hfin].
  - rewrite for_each_cons, Groups_body_run in Hrun.
    assert (∀ e, (state, [], Raise e) = (state', evs, r) →
              (∃ current', get_bookmark self state' = Return current'
                           ∧ (current ≤ current')%Z)
              ∧ (∀ n k, (n, k) ≠ (name self, replication_key self) →
                   singer.get_bookmark state' n k = singer.get_bookmark state n k)
              ∧ ∃ n, evs = Yield (stream self)
                           <$> filter (at_or_after "updated_at" bookmark)
                                 (take n (x :: xs))
                     ∧ (r = Return tt → n = length (x :: xs) ∧ fin = Done))
      as Hraise.
    { intros e [= <- <- <-].
      split_and!; [exists current; split; [done|lia] | done |].
      exists 0. by split. }
    destruct (py_getitem x #"updated_at") as [v|] eqn:Hv; [|by eapply Hraise].
    destruct (strptime_with_tz v) as [t|] eqn:Ht; [|by eapply Hraise].
    destruct (Z.leb_spec bookmark t) as [Hle|Hgt].
    + destruct (update_bookmark_instant self state v current Hc
                  (or_intror (ex_intro _ t Ht))) as (state1 & Hup & Hc1).
      rewrite Hup in Hrun.
      destruct (for_each _ xs fin state1) as [[state2 evs2] r2] eqn:Hrest.
      injection Hrun as <- <- <-.
      destruct (IH _ _ _ _ _ Hrest Hc1)
        as ((c2 & Hc2 & Hle2) & Hframe2 & n & -> & Hn).
      split_and!.
      * exists c2. split; [done|]. destruct (valid_instant v); lia.
      * intros n' k Hne. rewrite Hframe2 by done.
        by apply (update_bookmark_frame self state state1 v).
      * exists (S n). split.
        -- simpl. rewrite filter_cons_True; [done|].
           unfold at_or_after, record_instant. rewrite Hv. simpl. rewrite Ht.
           by apply Is_true_true, Z.leb_le.
        -- intros Hr. destruct (Hn Hr) as [-> ->]. by split.
    + destruct (for_each _ xs fin state) as [[state2 evs2] r2] eqn:Hrest.
      injection Hrun as <- <- <-.
      destruct (IH _ _ _ _ _ Hrest Hc) as (Hmono & Hframe & n & -> & Hn).
      split_and!; [done|done|]. exists (S n). split.
      * simpl. rewrite filter_cons_False; [done|].
        unfold at_or_after, record_instant. rewrite Hv. simpl. rewrite Ht.
        apply Is_true_false_2, Z.leb_gt. lia.
      * intros Hr. destruct (Hn Hr) as [-> ->]. by split.
Qed.

(** Whatever the end of [Groups.sync], also by an exception in the middle
    of the listing: the bookmark of the stream is not earlier than before,
    no other bookmark of the state has changed, and the records yielded
    are, in the order of the listing, those at or after the bookmark read at
    the start among the records gone through; all of the listing has been
    gone through, and it has ended normally, when the run returns. *)
Theorem Groups_sync_never_regresses (self : Stream) (pages : iterable pyval)
    (state state' : bookmarks) (evs : list event) (r : outcome unit)
    (bookmark : Z) :
  get_bookmark self state = Return bookmark →
  Groups_sync self pages state = (state', evs, r) →
  let listing := CursorBasedStream_get_objects self pages in
  (∃ bookmark', get_bookmark self state' = Return bookmark'
                ∧ (bookmark ≤ bookmark')%Z)
  ∧ (∀ n k, (n, k) ≠ (name self, replication_key self) →
       singer.get_bookmark state' n k = singer.get_bookmark state n k)
  ∧ ∃ n, evs = Yield (stream self)
               <$> filter (at_or_after "updated_at" bookmark) (take n listing.1)
         ∧ (r = Return tt → n = length listing.1 ∧ listing.2 = Done).
Proof.
  intros Hb. unfold Groups_sync, for_in. rewrite run_bind. unfold reading.
  rewrite Hb. simpl.
  destruct (for_each _ _ _ state) as [[s1 e1] r1] eqn:Hrun.
  intros [= <- <- <-]. by eapply Groups_loop_any.
Qed.

(** ** The export streams and the memberships *)

Lemma Users_body_run (self : Stream) (user : pyval) (state : bookmarks) :
  Users_body self user state =
    match py_getitem user #"updated_at" with
    | Raise e => (state, [], Raise e)
    | Return v =>
        match update_bookmark self state v with
        | Return state' => (state', [Yield (stream self) user], Return tt)
        | Raise e => (state, [], Raise e)
        end
    end.
Proof.
  unfold Users_body, mbind, gen_bind, gbind, lift, in_place, emit.
  destruct (py_getitem user #"updated_at") as [v|]; [|done].
  by destruct (update_bookmark self state v).
Qed.

Lemma Users_loop_any (self : Stream) (records : list pyval) (fin : status) :
  ∀ (state state' : bookmarks) (evs : list event) (r : outcome unit),
    for_each (Users_body self) records fin state = (state', evs, r) →
    ∃ n, evs = Yield (stream self) <$> take n records
         ∧ (r = Return tt → n = length records ∧ fin = Done).
Proof.
  induction records as [|x xs IH]; intros state state' evs r Hrun.
  - exists 0. simpl in Hrun.
    destruct fin; injection Hrun as <- <- <-; by split.
  - rewrite for_each_cons, Users_body_run in Hrun.
    destruct (py_getitem x #"updated_at") as [v|];
      [|injection Hrun as <- <- <-; by exists 0].
    destruct (update_bookmark self state v) as [state1|];
      [|injection Hrun as <- <- <-; by exists 0].
    destruct (for_each (Users_body self) xs fin state1) as [[s2 e2] r2] eqn:Hrest.
    injection Hrun as <- <- <-.
    destruct (IH _ _ _ _ Hrest) as (n & -> & Hn).
    exists (S n). split; [done|].
    intros Hr. destruct (Hn Hr) as [-> ->]. by split.
Qed.

(** [Users.sync] does not filter by the bookmark: whatever its end, it has
    yielded the records of the export in their order up to the point it
    stopped, and all of them, the listing having ended normally, when it
    returns. *)
Theorem Users_sync_yields_every_record (self : Stream) (pages : Z → iterable pyval)
    (state state' : bookmarks) (evs : list event) (r : outcome unit)
    (bookmark : Z) :
  get_bookmark self state = Return bookmark →
  Users_sync self pages state = (state', evs, r) →
  let listing := CursorBasedExportStream_get_objects self (pages bookmark) in
  ∃ n, evs = Yield (stream self) <$> take n listing.1
       ∧ (r = Return tt → n = length listing.1 ∧ listing.2 = Done).
Proof.
  intros Hb. unfold Users_sync, for_in. rewrite run_bind. unfold reading.
  rewrite Hb. simpl.
  destruct (for_each _ _ _ state) as [[s1 e1] r1] eqn:Hrun.
  intros [= <- <- <-]. by eapply Users_loop_any.
Qed.

Lemma GroupMemberships_body_run (self : Stream) (bookmark : Z)
    (membership : pyval) (state : bookmarks) :
  GroupMemberships_body self bookmark membership state =
    match py_getitem membership #"updated_at" with
    | Raise e => (state, [], Raise e)
    | Return v =>
        if truthy v then
          match strptime_with_tz v with
          | Raise e => (state, [], Raise e)
          | Return t =>
              if (bookmark <=? t)%Z then
                match update_bookmark self state v with
                | Return state' =>
                    (state', [Yield (stream self) membership], Return tt)
                | Raise e => (state, [], Raise e)
                end
              else (state, [], Return tt)
          end
        else
          match py_getitem membership #"id" with
          | Raise e => (state, [], Raise e)
          | Return id =>
              if truthy id then
                (state,
                 [LogInfo ("group_membership record with id: " +:+ str id +:+
                           " does not have an updated_at field so it will be syncd...");
                  Yield (stream self) membership], Return tt)
              else
                (state,
                 [LogInfo
                    "Received group_membership record with no id or updated_at, skipping..."],
                 Return tt)
          end
    end.
Proof.
  unfold GroupMemberships_body, mbind, gen_bind, gbind, lift, in_place, emit.
  destruct (py_getitem membership #"updated_at") as [v|]; [|done].
  destruct (truthy v).
  - destruct (strptime_with_tz v) as [t|]; [|done].
    destruct (bookmark <=? t)%Z; [|done].
    by destruct (update_bookmark self state v).
  - destruct (py_getitem membership #"id") as [id|]; [|done].
    by destruct (truthy id).
Qed.

Lemma GroupMemberships_loop (self : Stream) (bookmark : Z) (records : list pyval) :
  ∀ (state state' : bookmarks) (evs : list event) (current : Z),
    for_each (GroupMemberships_body self bookmark) records Done state
      = (state', evs, Return tt) →
    get_bookmark self state = Return current →
    yields evs = pair (stream self) <$> filter (membership_kept bookmark) records
    ∧ get_bookmark self state'
      = Return (latest current
                  (fed_instants "updated_at"
                     (filter (membership_kept bookmark) records))).
Proof.
  induction records as [|x xs IH]; intros state state' evs current Hrun Hc.
  - injection Hrun as <- <-. by split.
  - rewrite for_each_cons, GroupMemberships_body_run in Hrun.
    destruct (py_getitem x #"updated_at") as [v|] eqn:Hv; [|done].
    destruct (truthy v) eqn:Htruthy.
    + destruct (strptime_with_tz v) as [t|] eqn:Ht; [|done].
      destruct (Z.leb_spec bookmark t) as [Hle|Hgt].
      * destruct (update_bookmark_instant self state v current Hc
                    (or_intror (ex_intro _ t Ht))) as (state1 & Hup & Hc1).
        rewrite Hup in Hrun.
        destruct (for_each _ xs Done state1) as [[s2 e2] r2] eqn:Hrest.
        injection Hrun as <- <- ->.
        destruct (IH _ _ _ _ Hrest Hc1) as (Hy & Hb).
        assert (membership_kept bookmark x = true) as Hk.
        { unfold membership_kept, at_or_after, record_instant.
          rewrite Hv, Htruthy. simpl. rewrite Ht. by apply Z.leb_le. }
        rewrite filter_cons_True by (by rewrite Hk). split.
        -- change (yields (Yield (stream self) x :: e2))
             with ((stream self, x) :: yields e2).
           by rewrite Hy.
        -- rewrite Hb. f_equal. unfold fed_instants at 2. simpl. rewrite Hv.
           unfold valid_instant in *. rewrite Htruthy, Ht in *. simpl.
           by rewrite latest_max_r.
      * destruct (for_each _ xs Done state) as [[s2 e2] r2] eqn:Hrest.
        injection Hrun as <- <- ->.
        destruct (IH _ _ _ _ Hrest Hc) as (Hy & Hb).
        assert (membership_kept bookmark x = false) as Hk.
        { unfold membership_kept, at_or_after, record_instant.
          rewrite Hv, Htruthy. simpl. rewrite Ht. apply Z.leb_gt. lia. }
        rewrite filter_cons_False by (rewrite Hk; by intros []). by split.
    + destruct (py_getitem x #"id") as [id|] eqn:Hid; [|done].
      destruct (truthy id) eqn:Hidt.
      * destruct (for_each _ xs Done state) as [[s2 e2] r2] eqn:Hrest.
        injection Hrun as <- <- ->.
        destruct (IH _ _ _ _ Hrest Hc) as (Hy & Hb).
        assert (membership_kept bookmark x = true) as Hk.
        { unfold membership_kept. by rewrite Hv, Htruthy, Hid. }
        rewrite filter_cons_True by (by rewrite Hk). split.
        -- unfold yields in *. by rewrite fmap_cons, <- Hy.
        -- rewrite Hb. f_equal. unfold fed_instants at 2. simpl. rewrite Hv.
           unfold valid_instant. by rewrite Htruthy.
      * destruct (for_each _ xs Done state) as [[s2 e2] r2] eqn:Hrest.
        injection Hrun as <- <- ->.
        destruct (IH _ _ _ _ Hrest Hc) as (Hy & Hb).
        assert (membership_kept bookmark x = false) as Hk.
        { unfold membership_kept. by rewrite Hv, Htruthy, Hid. }
        rewrite filter_cons_False by (rewrite Hk; by intros []). by split.
Qed.

(** A run of [GroupMemberships.sync] that completes has yielded, in the
    order of the listing, the memberships with an [updated_at] at or after
    the bookmark read at the start and, whatever the bookmark, every
    membership whose [updated_at] is [None] or empty and that has an [id];
    only the former move the bookmark, which ends at the latest of the
    start and their timestamps. *)
Theorem GroupMemberships_sync_completed_run (self : Stream)
    (pages : iterable pyval) (state state' : bookmarks) (evs : list event) :
  GroupMemberships_sync self pages state = (state', evs, Return tt) →
  ∃ bookmark records,
    get_bookmark self state = Return bookmark ∧
    CursorBasedStream_get_objects self pages = (records, Done) ∧
    yields evs = pair (stream self) <$> filter (membership_kept bookmark) records ∧
    get_bookmark self state'
    = Return (latest bookmark
                (fed_instants "updated_at"
                   (filter (membership_kept bookmark) records))).
Proof.
  unfold GroupMemberships_sync, for_in. rewrite run_bind. unfold reading.
  destruct (get_bookmark self state) as [b|] eqn:Hb; [|done]. simpl.
  destruct (CursorBasedStream_get_objects self pages) as [records fin] eqn:Hobj.
  simpl.
  destruct (for_each _ records fin state) as [[s1 e1] r1] eqn:Hrun.
  intros [= <- <- ->].
  assert (fin = Done) as ->.
  { clear Hobj Hb. revert state s1 e1 Hrun.
    induction records as [|x xs IH]; intros state s1 e1 Hrun.
    - simpl in Hrun. by destruct fin.
    - rewrite for_each_cons in Hrun.
      destruct (GroupMemberships_body self b x state) as [[s e] [[]|]]; [|done].
      destruct (for_each _ xs fin s) as [[s2 e2] r2] eqn:Hrest.
      injection Hrun as <- <- ->. by eapply IH. }
  exists b, records. split_and!; [done|done|..]; by eapply GroupMemberships_loop.
Qed.

(** ** The counters of the sub-streams *)

Lemma TicketAudits_loop (self : Stream) (items : list pyval) (fin : status) :
  ∀ h : heap,
    for_each (λ ticket_audit,
                modify (set_audits_count S);;
                emit (Yield (stream self) ticket_audit)) items fin h
    = (set_audits_count (λ c, c + length items) h,
       Yield (stream self) <$> items, status_outcome fin).
Proof.
  induction items as [|x xs IH]; intros [st na nm nc ss sb].
  - unfold set_audits_count. simpl. rewrite Nat.add_0_r. by destruct fin.
  - rewrite for_each_cons.
    change ((modify (set_audits_count S);; emit (Yield (stream self) x))
              (Heap st na nm nc ss sb))
      with (Heap st (S na) nm nc ss sb, [Yield (stream self) x], Return tt).
    cbv beta iota zeta. rewrite IH. unfold set_audits_count. simpl.
    by rewrite Nat.add_succ_r.
Qed.

(** [TicketAudits.sync] yields every audit of the listing, in order, counts
    each of them, changes nothing else, and ends as the listing ends. *)
Theorem TicketAudits_sync_yields_and_counts_all (self : Stream)
    (ticket_id : pyval) (h : heap) :
  let listing := TicketAudits_get_objects self ticket_id in
  TicketAudits_sync self ticket_id h
  = (set_audits_count (λ c, c + length listing.1) h,
     Yield (stream self) <$> listing.1, status_outcome listing.2).
Proof. intros listing. unfold TicketAudits_sync, for_in. apply TicketAudits_loop. Qed.

Lemma TicketMetrics_loop (self : Stream) (pages : list pyval) (fin : status) :
  ∀ (h h' : heap) (evs : list event) (r : outcome unit),
    for_each (λ page,
                modify (set_metrics_count S);;
                metric ← lift (py_getitem page #(item_key self));
                emit (Yield (stream self) metric)) pages fin h = (h', evs, r) →
    ∃ records,
      evs = Yield (stream self) <$> records
      ∧ ((h' = set_metrics_count (λ c, c + length records) h
          ∧ r = status_outcome fin)
         ∨ (h' = set_metrics_count (λ c, c + S (length records)) h
            ∧ (r = Raise KeyError ∨ r = Raise TypeError))).
Proof.
  induction pages as [|x xs IH]; intros [st na nm nc ss sb] h' evs r Hrun.
  - exists []. simpl in Hrun.
    assert (h' = Heap st na nm nc ss sb ∧ evs = [] ∧ r = status_outcome fin)
      as (-> & -> & ->) by (destruct fin; by injection Hrun as <- <- <-).
    split; [done|]. left.
    unfold set_metrics_count. simpl. by rewrite Nat.add_0_r.
  - rewrite for_each_cons in Hrun.
    assert ((modify (set_metrics_count S);;
             metric ← lift (py_getitem x #(item_key self));
             emit (Yield (stream self) metric)) (Heap st na nm nc ss sb)
            = match py_getitem x #(item_key self) with
              | Return metric =>
                  (Heap st na (S nm) nc ss sb, [Yield (stream self) metric], Return tt)
              | Raise e => (Heap st na (S nm) nc ss sb, [], Raise e)
              end) as Hbody.
    { unfold mbind, gen_bind, gbind, modify, lift, emit, set_metrics_count. simpl.
      by destruct (py_getitem x #(item_key self)). }
    rewrite Hbody in Hrun. clear Hbody.
    destruct (py_getitem x #(item_key self)) as [metric|e] eqn:Hx.
    + destruct (for_each _ xs fin _) as [[h2 e2] r2] eqn:Hrest.
      injection Hrun as <- <- <-.
      destruct (IH _ _ _ _ Hrest) as (records & -> & Hcount).
      exists (metric :: records). split; [done|].
      unfold set_metrics_count in *. simpl in *.
      destruct Hcount as [[-> ->]|[-> Hr]]; [left|right]; (split; [|done]);
        f_equal; lia.
    + injection Hrun as <- <- <-. exists []. split; [done|]. right.
      unfold set_metrics_count. simpl. rewrite Nat.add_1_r. split; [done|].
      unfold py_getitem in Hx. repeat case_match; simplify_eq; auto.
Qed.

Lemma TicketMetrics_body_run (self : Stream) (page : pyval) (h : heap) :
  (modify (set_metrics_count S);;
   metric ← lift (py_getitem page #(item_key self));
   emit (Yield (stream self) metric)) h
  = match py_getitem page #(item_key self) with
    | Return metric =>
        (set_metrics_count S h, [Yield (stream self) metric], Return tt)
    | Raise e => (set_metrics_count S h, [], Raise e)
    end.
Proof.
  unfold mbind, gen_bind, gbind, modify, lift, emit. simpl.
  by destruct (py_getitem page #(item_key self)).
Qed.

Lemma TicketMetrics_loop_from (self : Stream) (pages : list pyval)
    (metrics : list pyval) (rest : list pyval) (fin : status) :
  Forall2 (λ page metric, py_getitem page #(item_key self) = Return metric)
          pages metrics →
  ∀ h : heap,
    for_each (λ page,
                modify (set_metrics_count S);;
                metric ← lift (py_getitem page #(item_key self));
                emit (Yield (stream self) metric)) (pages ++ rest) fin h
    = let '(h', evs, r) :=
        for_each (λ page,
                    modify (set_metrics_count S);;
                    metric ← lift (py_getitem page #(item_key self));
                    emit (Yield (stream self) metric)) rest fin
                 (set_metrics_count (λ c, c + length metrics) h) in
      (h', (Yield (stream self) <$> metrics) ++ evs, r).
Proof.
  induction 1 as [|page metric pages metrics Hpage _ IH]; intros h.
  - simpl app. simpl length.
    assert (set_metrics_count (λ c, c + 0) h = h) as ->
      by (destruct h; unfold set_metrics_count; simpl; by rewrite Nat.add_0_r).
    by destruct (for_each _ rest fin h) as [[h' evs] r].
  - change ((page :: pages) ++ rest) with (page :: (pages ++ rest)).
    rewrite for_each_cons, TicketMetrics_body_run, Hpage, IH.
    assert (set_metrics_count (λ c, c + length metrics) (set_metrics_count S h)
            = set_metrics_count (λ c, c + length (metric :: metrics)) h) as ->.
    { destruct h. unfold set_metrics_count. simpl. f_equal. lia. }
    by destruct (for_each _ rest fin _) as [[h' evs] r].
Qed.

(** [TicketMetrics.sync] counts a page before it reads the metric in it.
    When every page of the listing has its metric, the metrics are yielded
    in order, as many are counted, and the run ends as the listing ends.
    When a page has none, the run ends at the first such page by the
    [KeyError] (or [TypeError]) of reading it: the metrics of the pages
    before it have been yielded, and the count is one more than that, the
    page without the metric having been counted.  Nothing else on the heap
    changes, and the pages after it are not gone through. *)
Theorem TicketMetrics_sync_counts_pages (self : Stream) (ticket_id : pyval)
    (h : heap) :
  let pages := metrics_pages ticket_id in
  let has_metric page metric :=
    py_getitem page #(item_key self) = Return metric in
  (∀ metrics,
     Forall2 has_metric pages.1 metrics →
     TicketMetrics_sync self ticket_id h
     = (set_metrics_count (λ c, c + length metrics) h,
        Yield (stream self) <$> metrics, status_outcome pages.2))
  ∧ (∀ before bad after metrics e,
       pages.1 = before ++ bad :: after →
       Forall2 has_metric before metrics →
       py_getitem bad #(item_key self) = Raise e →
       TicketMetrics_sync self ticket_id h
       = (set_metrics_count (λ c, c + S (length metrics)) h,
          Yield (stream self) <$> metrics, Raise e)
       ∧ (e = KeyError ∨ e = TypeError)).
Proof.
  intros pages has_metric. unfold TicketMetrics_sync, for_in. fold pages. split.
  - intros metrics Hall.
    rewrite <- (app_nil_r pages.1), (TicketMetrics_loop_from _ _ _ _ _ Hall).
    destruct pages.2; simpl; by rewrite ?app_nil_r.
  - intros before bad after metrics e -> Hall Hbad. split.
    + rewrite (TicketMetrics_loop_from _ _ _ _ _ Hall).
      rewrite for_each_cons, TicketMetrics_body_run, Hbad, app_nil_r.
      f_equal. f_equal. destruct h. unfold set_metrics_count. simpl.
      f_equal. lia.
    + unfold py_getitem in Hbad. repeat case_match; simplify_eq; auto.
Qed.

Lemma capture_counts (cfg : gmap string pyval) (ticket_id : pyval)
    (h h' : heap) (evs : list event) (r : outcome unit) :
  capture_starting_state (TicketComments cfg) ticket_id h = (h', evs, r) →
  audits_count h' = audits_count h ∧ metrics_count h' = metrics_count h
  ∧ comments_count h' = comments_count h.
Proof.
  destruct (starting_state h) as [snapshot|] eqn:Hs.
  - rewrite (capture_captured _ _ _ _ Hs). (intros ?; by simplify_eq).
  - rewrite (capture_first _ _ _ Hs). simpl.
    destruct (seed_guard _) as [[]|]; [|(intros ?; by simplify_eq)..].
    destruct (state_getitem _ _ _); (intros ?; by simplify_eq).
Qed.

Lemma advance_counts (cfg : gmap string pyval) (ticket_id created_at : pyval)
    (h h' : heap) (evs : list event) (r : outcome unit) :
  advance_comment_bookmark (TicketComments cfg) ticket_id created_at h
    = (h', evs, r) →
  audits_count h' = audits_count h ∧ metrics_count h' = metrics_count h
  ∧ comments_count h' = comments_count h.
Proof.
  rewrite advance_comment_bookmark_run. cbv zeta.
  repeat case_match; intros ?; by simplify_eq.
Qed.

Lemma TicketComments_body_counts (cfg : gmap string pyval)
    (ticket_id ticket_comment : pyval) (h h' : heap) (evs : list event)
    (r : outcome unit) :
  TicketComments_body (TicketComments cfg) ticket_id ticket_comment h
    = (h', evs, r) →
  audits_count h' = audits_count h ∧ metrics_count h' = metrics_count h
  ∧ comments_count h' = comments_count h + length evs
  ∧ ∃ records, evs = Yield (class_stream "ticket_comments") <$> records.
Proof.
  rewrite TicketComments_body_run.
  assert (∀ (h1 : heap) (e : exn),
            audits_count h1 = audits_count h ∧ metrics_count h1 = metrics_count h
            ∧ comments_count h1 = comments_count h →
            (h1, [], Raise e) = (h', evs, r) →
            audits_count h' = audits_count h ∧ metrics_count h' = metrics_count h
            ∧ comments_count h' = comments_count h + length evs
            ∧ ∃ records, evs = Yield (class_stream "ticket_comments") <$> records)
    as Hstop.
  { intros h1 e (Ha & Hm & Hc) [= <- <- <-]. simpl. rewrite Nat.add_0_r.
    split_and!; [done..|]. by exists []. }
  destruct (py_setitem ticket_comment #"ticket_id" ticket_id) as [comment|];
    [|by apply Hstop].
  destruct (capture_starting_state (TicketComments cfg) ticket_id h)
    as [[h1 ev1] r1] eqn:Hcap.
  pose proof (capture_counts _ _ _ _ _ _ Hcap) as H1.
  destruct r1 as [[]|]; [|by apply Hstop].
  destruct (py_get comment #"created_at") as [created_at|]; [|by apply Hstop].
  destruct (advance_comment_bookmark (TicketComments cfg) ticket_id created_at h1)
    as [[h2 ev2] r2] eqn:Hadv.
  pose proof (advance_counts _ _ _ _ _ _ _ Hadv) as H2.
  assert (audits_count h2 = audits_count h ∧ metrics_count h2 = metrics_count h
          ∧ comments_count h2 = comments_count h) as H12
    by (destruct H1 as (? & ? & ?), H2 as (? & ? & ?); split_and!; congruence).
  destruct r2 as [[]|]; [|by apply Hstop].
  destruct (ticket_bookmark (TicketComments cfg) ticket_id h2) as [threshold|];
    [|by apply Hstop].
  destruct (strptime_with_tz created_at) as [t|]; [|by apply Hstop].
  destruct H12 as (Ha & Hm & Hc).
  destruct (threshold <? t)%Z; intros [= <- <- <-]; simpl.
  - split_and!; [done|done|lia|]. by exists [comment].
  - split_and!; [done|done|lia|]. by exists [].
Qed.

Lemma TicketComments_loop_counts (cfg : gmap string pyval) (ticket_id : pyval)
    (comments : list pyval) (fin : status) :
  ∀ (h h' : heap) (evs : list event) (r : outcome unit),
    for_each (TicketComments_body (TicketComments cfg) ticket_id) comments fin h
      = (h', evs, r) →
    audits_count h' = audits_count h ∧ metrics_count h' = metrics_count h
    ∧ comments_count h' = comments_count h + length evs
    ∧ ∃ records, evs = Yield (class_stream "ticket_comments") <$> records.
Proof.
  induction comments as [|x xs IH]; intros h h' evs r Hrun.
  - simpl in Hrun.
    assert (h' = h ∧ evs = []) as [-> ->]
      by (destruct fin; by injection Hrun as <- <- <-).
    simpl. rewrite Nat.add_0_r. split_and!; [done..|]. by exists [].
  - rewrite for_each_cons in Hrun.
    destruct (TicketComments_body (TicketComments cfg) ticket_id x h)
      as [[h1 e1] r1] eqn:Hbody.
    destruct (TicketComments_body_counts _ _ _ _ _ _ _ Hbody)
      as (Ha & Hm & Hc & recs1 & ->).
    destruct r1 as [[]|].
    + destruct (for_each _ xs fin h1) as [[h2 e2] r2] eqn:Hrest.
      injection Hrun as <- <- <-.
      destruct (IH _ _ _ _ Hrest) as (Ha2 & Hm2 & Hc2 & recs2 & ->).
      rewrite length_app. split_and!; [congruence|congruence|lia|].
      exists (recs1 ++ recs2). by rewrite fmap_app.
    + injection Hrun as <- <- <-. split_and!; [done..|]. by exists recs1.
Qed.

(** Whatever the end of [TicketComments.sync] for a ticket: the counter of
    the comments has grown by exactly the number of comments yielded, the
    counters of the other sub-streams are as before, and nothing but
    comments has been yielded. *)
Theorem TicketComments_sync_counts_yields (cfg : gmap string pyval)
    (ticket_id : pyval) (h h' : heap) (evs : list event) (r : outcome unit) :
  TicketComments_sync (TicketComments cfg) ticket_id h = (h', evs, r) →
  audits_count h' = audits_count h ∧ metrics_count h' = metrics_count h
  ∧ comments_count h' = comments_count h + length evs
  ∧ ∃ records, evs = Yield (class_stream "ticket_comments") <$> records.
Proof. unfold TicketComments_sync, for_in. apply TicketComments_loop_counts. Qed.

(** ** The metric points of [Tickets.sync] *)

Lemma count_yields_app (id : string) (evs1 evs2 : list event) :
  count_yields id (evs1 ++ evs2) = count_yields id evs1 + count_yields id evs2.
Proof. unfold count_yields. by rewrite filter_app, length_app. Qed.

Lemma metric_points_app (evs1 evs2 : list event) :
  metric_points (evs1 ++ evs2) = metric_points evs1 ++ metric_points evs2.
Proof. unfold metric_points. apply omap_app. Qed.

Lemma count_yields_records (id : string) (entry : catalog_entry)
    (records : list pyval) :
  count_yields id (Yield (Some entry) <$> records)
  = if bool_decide (tap_stream_id entry = id) then length records else 0.
Proof.
  unfold count_yields. induction records as [|x xs IH].
  - simpl. by case_bool_decide.
  - rewrite fmap_cons.
    destruct (bool_decide (tap_stream_id entry = id)) eqn:Hid.
    + rewrite filter_cons_True by (simpl; by rewrite Hid).
      rewrite !length_cons. by rewrite IH.
    + rewrite filter_cons_False by (simpl; rewrite Hid; by intros []). done.
Qed.

Lemma count_yields_metric_point (id endpoint : string) (v : nat)
    (evs : list event) :
  count_yields id (MetricPoint endpoint v :: evs) = count_yields id evs.
Proof. unfold count_yields. by rewrite filter_cons_False by (by intros []). Qed.

Lemma metric_points_records (s : option catalog_entry) (records : list pyval) :
  metric_points (Yield s <$> records) = [].
Proof. unfold metric_points. by induction records. Qed.

Lemma accounted_refl (h : heap) : accounted h h [].
Proof. unfold accounted, count_yields. simpl. by rewrite !Nat.add_0_r. Qed.

Lemma accounted_app (h1 h2 h3 : heap) (evs1 evs2 : list event) :
  accounted h1 h2 evs1 → accounted h2 h3 evs2 → accounted h1 h3 (evs1 ++ evs2).
Proof.
  intros (Ha1 & Hm1 & Hc1 & Hp1) (Ha2 & Hm2 & Hc2 & Hp2). unfold accounted.
  rewrite !count_yields_app, metric_points_app, Hp1, Hp2.
  split_and!; [lia..|done].
Qed.

Lemma accounted_warning (h h' : heap) (evs : list event) (msg : string) :
  accounted h h' evs → accounted h h' (evs ++ [LogWarning msg]).
Proof.
  intros H. rewrite <- (app_nil_r evs) in H.
  unfold accounted in *. rewrite !count_yields_app, metric_points_app in *. done.
Qed.

Section Accounting.
Hypothesis class_stream_id :
  ∀ id entry, class_stream id = Some entry → tap_stream_id entry = id.

Lemma accounted_records (h h' : heap) (id : string) (records : list pyval) :
  (is_Some (class_stream id) ∨ records = []) →
  audits_count h'
  = audits_count h + (if bool_decide (id = "ticket_audits") then length records else 0) →
  metrics_count h'
  = metrics_count h + (if bool_decide (id = "ticket_metrics") then length records else 0) →
  comments_count h'
  = comments_count h + (if bool_decide (id = "ticket_comments") then length records else 0) →
  accounted h h' (Yield (class_stream id) <$> records).
Proof using class_stream_id.
  intros Hsel Ha Hm Hc. unfold accounted. rewrite metric_points_records.
  destruct Hsel as [[entry Hentry]| ->].
  - rewrite Hentry, !count_yields_records, (class_stream_id _ _ Hentry).
    done.
  - simpl in *. unfold count_yields. simpl.
    repeat case_bool_decide; simpl in *; split_and!; (done || lia).
Qed.

Lemma sync_sub_stream_accounted (sub_stream : Stream) (what : string)
    (ticket : pyval) (sync : pyval → gen heap unit) (h h' : heap)
    (evs : list event) :
  (∀ ticket_id h1 h2 evs1 r,
     is_selected sub_stream = true →
     sync ticket_id h1 = (h2, evs1, r) →
     r = Return tt ∨ r = Raise ZendeskNotFound →
     accounted h1 h2 evs1) →
  sync_sub_stream sub_stream what ticket sync h = (h', evs, Return tt) →
  accounted h h' evs.
Proof.
  intros Hsync. rewrite sync_sub_stream_run.
  destruct (is_selected sub_stream) eqn:Hsel.
  2: { intros [= <- <-]. apply accounted_refl. }
  destruct (py_getitem ticket #"id") as [ticket_id|]; [|done].
  destruct (sync ticket_id h) as [[h1 evs1] r1] eqn:Hrun.
  destruct r1 as [[]|e].
  - intros [= <- <-]. eapply Hsync; eauto.
  - destruct e; try done.
    intros [= <- <-]. apply accounted_warning. eapply Hsync; eauto.
Qed.

Lemma TicketAudits_sync_accounted (cfg : gmap string pyval) (ticket_id : pyval)
    (h h' : heap) (evs : list event) (r : outcome unit) :
  is_selected (TicketAudits cfg) = true →
  TicketAudits_sync (TicketAudits cfg) ticket_id h = (h', evs, r) →
  accounted h h' evs.
Proof using class_stream_id.
  intros Hsel. unfold TicketAudits_sync, for_in. rewrite TicketAudits_loop.
  intros [= <- <- _]. apply accounted_records; [|by destruct h..].
  left. unfold is_selected in Hsel. simpl in Hsel.
  by destruct (class_stream "ticket_audits").
Qed.

Lemma TicketMetrics_sync_accounted (cfg : gmap string pyval) (ticket_id : pyval)
    (h h' : heap) (evs : list event) (r : outcome unit) :
  is_selected (TicketMetrics cfg) = true →
  TicketMetrics_sync (TicketMetrics cfg) ticket_id h = (h', evs, r) →
  r = Return tt ∨ r = Raise ZendeskNotFound →
  accounted h h' evs.
Proof using class_stream_id.
  intros Hsel Hrun Hr.
  destruct (TicketMetrics_loop _ _ _ _ _ _ _ Hrun)
    as (records & -> & [[-> _]|[_ [->| ->]]]).
  - apply accounted_records; [|by destruct h..].
    left. unfold is_selected in Hsel. simpl in Hsel.
    by destruct (class_stream "ticket_metrics").
  - by destruct Hr.
  - by destruct Hr.
Qed.

Lemma TicketComments_sync_accounted (cfg : gmap string pyval) (ticket_id : pyval)
    (h h' : heap) (evs : list event) (r : outcome unit) :
  is_selected (TicketComments cfg) = true →
  TicketComments_sync (TicketComments cfg) ticket_id h = (h', evs, r) →
  accounted h h' evs.
Proof using class_stream_id.
  intros Hsel Hrun.
  destruct (TicketComments_loop_counts _ _ _ _ _ _ _ _ Hrun)
    as (Ha & Hm & Hc & records & ->).
  rewrite length_fmap in Hc.
  apply accounted_records; simpl; [|lia..].
  left. unfold is_selected in Hsel. simpl in Hsel.
  by destruct (class_stream "ticket_comments").
Qed.

Lemma accounted_ticket (h : heap) (f : bookmarks → bookmarks) (ticket : pyval) :
  accounted h (set_state f h) [Yield (class_stream "tickets") ticket].
Proof using class_stream_id.
  unfold accounted, count_yields, metric_points.
  destruct (class_stream "tickets") as [entry|] eqn:Hentry.
  - rewrite !filter_cons_False, !filter_nil;
      [destruct h; simpl; by rewrite !Nat.add_0_r|..];
      simpl; rewrite (class_stream_id _ _ Hentry); by intros [].
  - rewrite !filter_cons_False, !filter_nil by (by intros []).
    destruct h; simpl; by rewrite !Nat.add_0_r.
Qed.

Lemma Tickets_body_accounted (cfg : gmap string pyval) (ticket : pyval)
    (h h' : heap) (evs : list event) :
  Tickets_body (Tickets cfg) (TicketAudits cfg) (TicketMetrics cfg)
               (TicketComments cfg) ticket h = (h', evs, Return tt) →
  accounted h h' evs.
Proof using class_stream_id.
  rewrite Tickets_body_run.
  destruct (py_get ticket #"generated_timestamp") as [gts|]; [|done].
  destruct (match gts with PInt ts => strftime_utc ts | _ => Raise TypeError end)
    as [generated|]; [|done].
  destruct (update_bookmark (Tickets cfg) (state h) (PStr generated))
    as [state1|]; [|done].
  destruct (py_pop ticket #"fields") as [popped|]; [|done].
  cbv zeta. rewrite !run_bind.
  destruct (sync_sub_stream (TicketAudits cfg) "audits" popped.2 _ _)
    as [[ha ea] [[]|]] eqn:Ha; [|by intros [=]].
  cbv beta iota. rewrite run_bind.
  destruct (sync_sub_stream (TicketMetrics cfg) "metrics" popped.2
              (TicketMetrics_sync (TicketMetrics cfg)) ha)
    as [[hm em] [[]|]] eqn:Hm; [|by intros [=]].
  cbv beta iota.
  destruct (sync_sub_stream (TicketComments cfg) "comments" popped.2
              (TicketComments_sync (TicketComments cfg)) hm)
    as [[hc ec] rc] eqn:Hc.
  intros [= <- <- ->].
  apply (accounted_app _ (set_state (λ _, state1) h) _ [_]);
    [apply accounted_ticket|].
  eapply accounted_app; [|eapply accounted_app].
  - eapply sync_sub_stream_accounted; [|exact Ha].
    intros ????? Hsel Hrun _. by eapply TicketAudits_sync_accounted.
  - eapply sync_sub_stream_accounted; [|exact Hm].
    intros ????? Hsel Hrun Hr. by eapply TicketMetrics_sync_accounted.
  - eapply sync_sub_stream_accounted; [|exact Hc].
    intros ????? Hsel Hrun _. by eapply TicketComments_sync_accounted.
Qed.

Lemma Tickets_loop_accounted (cfg : gmap string pyval) (tickets : list pyval)
    (fin : status) :
  ∀ (h h' : heap) (evs : list event),
    for_each (Tickets_body (Tickets cfg) (TicketAudits cfg) (TicketMetrics cfg)
                           (TicketComments cfg)) tickets fin h
      = (h', evs, Return tt) →
    accounted h h' evs.
Proof using class_stream_id.
  induction tickets as [|x xs IH]; intros h h' evs Hrun.
  - simpl in Hrun. destruct fin; [|done].
    injection Hrun as <- <-. apply accounted_refl.
  - rewrite for_each_cons in Hrun.
    destruct (Tickets_body _ _ _ _ x h) as [[h1 e1] [[]|]] eqn:Hbody; [|done].
    destruct (for_each _ xs fin h1) as [[h2 e2] r2] eqn:Hrest.
    injection Hrun as <- <- ->.
    eapply accounted_app; [by eapply Tickets_body_accounted | by eapply IH].
Qed.

Lemma emit_sub_stream_metrics_run (sub_stream : Stream) (count : heap → nat)
    (reset : heap → heap) (h : heap) :
  emit_sub_stream_metrics sub_stream count reset h =
    match stream sub_stream with
    | Some entry => (reset h, [MetricPoint (tap_stream_id entry) (count h)], Return tt)
    | None => (h, [], Return tt)
    end.
Proof. unfold emit_sub_stream_metrics. by destruct (stream sub_stream). Qed.

(** A run of [Tickets.sync] that completes logs, for each selected
    sub-stream and in the order audits, metrics, comments, one record-count
    metric point, whose value is the number of records the run has yielded
    for that sub-stream; it logs no other metric point.  The catalog entry
    of a stream carries the stream's id, as [populate_class_schemas] sets
    it. *)
Theorem Tickets_sync_metric_points_count_yields (cfg : gmap string pyval)
    (st st' : bookmarks) (evs : list event) :
  Tickets_sync (Tickets cfg) st = (st', evs, Return tt) →
  metric_points evs
  = omap (λ id, if class_stream id is Some _
                then Some (id, count_yields id evs) else None)
         ["ticket_audits"; "ticket_metrics"; "ticket_comments"].
Proof using class_stream_id.
  unfold Tickets_sync.
  destruct (Tickets_run (Tickets cfg) (Heap st 0 0 0 None PNone))
    as [[h evs0] r0] eqn:Hrun.
  intros [= <- <- ->]. revert Hrun.
  unfold Tickets_run. rewrite run_bind. unfold on_state, reading.
  change (state (Heap st 0 0 0 None PNone)) with st.
  destruct (get_bookmark (Tickets cfg) st) as [bookmark|]; [|by intros [=]].
  cbv beta iota zeta.
  change (config (Tickets cfg)) with cfg.
  change (set_state (λ _, st) (Heap st 0 0 0 None PNone))
    with (Heap st 0 0 0 None PNone).
  set (h0 := Heap st 0 0 0 None PNone).
  rewrite run_bind.
  assert (∃ intro, (if is_selected (TicketAudits cfg)
                    then emit (LogInfo "Syncing ticket_audits per ticket...")
                    else mret tt) h0 = (h0, intro, Return tt)
                   ∧ accounted h0 h0 intro) as (intro & -> & Hintro).
  { destruct (is_selected (TicketAudits cfg)).
    - eexists. split; [done|]. split_and!; done.
    - eexists. split; [done|]. apply accounted_refl. }
  cbv beta iota. rewrite run_bind. unfold for_in.
  destruct (for_each _ _ _ h0) as [[h1 e1] [[]|]] eqn:Hloop; [|by intros [=]].
  apply Tickets_loop_accounted in Hloop.
  destruct Hintro as (Hai & Hmi & Hci & Hpi), Hloop as (Ha & Hm & Hc & Hp).
  cbv beta iota.
  rewrite !run_bind, !emit_sub_stream_metrics_run. simpl stream.
  destruct (class_stream "ticket_audits") as [ea|] eqn:Hea; cbv beta iota;
    rewrite ?run_bind, ?emit_sub_stream_metrics_run; simpl stream;
    (destruct (class_stream "ticket_metrics") as [em|] eqn:Hem; cbv beta iota;
     rewrite ?run_bind, ?emit_sub_stream_metrics_run; simpl stream;
     (destruct (class_stream "ticket_comments") as [ec|] eqn:Hec; cbv beta iota;
      intros [= <- <-]; cbn [omap list_omap]; rewrite ?Hea, ?Hem, ?Hec)).
  all: rewrite ?(class_stream_id _ _ Hea), ?(class_stream_id _ _ Hem),
         ?(class_stream_id _ _ Hec).
  all: rewrite ?metric_points_app, ?count_yields_app, ?Hpi, ?Hp,
         ?count_yields_metric_point.
  all: destruct h1 as [s1 na nm nc ss sb]; subst h0;
         simpl in Ha, Hm, Hc, Hai, Hmi, Hci; simpl.
  all: rewrite ?count_yields_metric_point.
  all: change (count_yields "ticket_audits" []) with 0 in *;
       change (count_yields "ticket_metrics" []) with 0 in *;
       change (count_yields "ticket_comments" []) with 0 in *.
  all: repeat f_equal; lia.
Qed.
End Accounting.

(** ** The bookmarks through [Tickets.sync] *)

Lemma update_bookmark_monotone (self : Stream) (state state' : bookmarks)
    (value : pyval) (current : Z) :
  get_bookmark self state = Return current →
  update_bookmark self state value = Return state' →
  ∃ current', get_bookmark self state' = Return current' ∧ (current ≤ current')%Z.
Proof.
  intros Hc. unfold update_bookmark. rewrite Hc. simpl.
  destruct (truthy value).
  - destruct (strptime_with_tz value) as [t|] eqn:Ht; simpl; [|done].
    destruct (Z.ltb_spec current t) as [Hlt|Hge]; intros [= <-].
    + exists t. split; [|lia]. unfold get_bookmark.
      by rewrite get_bookmark_write.
    + exists current. split; [done|lia].
  - intros [= <-]. exists current. split; [done|lia].
Qed.

Lemma capture_frame (cfg : gmap string pyval) (ticket_id : pyval)
    (h h1 : heap) (evs : list event) (r : outcome unit) :
  capture_starting_state (TicketComments cfg) ticket_id h = (h1, evs, r) →
  ∀ n k, n ≠ "ticket_comments" →
    singer.get_bookmark (state h1) n k = singer.get_bookmark (state h) n k.
Proof.
  destruct (starting_state h) as [snapshot|] eqn:Hs.
  - rewrite (capture_captured _ _ _ _ Hs). by intros [= <- _ _].
  - rewrite (capture_first _ _ _ Hs). cbv zeta.
    destruct (seed_guard _) as [[]|].
    + destruct (state_getitem _ _ _); intros [= <- _ _] n k Hn; simpl.
      * rewrite get_bookmark_setitem_ne by done.
        by apply ensure_bookmark_path_other.
      * by apply ensure_bookmark_path_other.
    + intros [= <- _ _] n k Hn; simpl. by apply ensure_bookmark_path_other.
    + intros [= <- _ _] n k Hn; simpl. by apply ensure_bookmark_path_other.
Qed.

Lemma TicketComments_body_frame (cfg : gmap string pyval)
    (ticket_id ticket_comment : pyval) (h h' : heap) (evs : list event)
    (r : outcome unit) :
  TicketComments_body (TicketComments cfg) ticket_id ticket_comment h
    = (h', evs, r) →
  ∀ n k, n ≠ "ticket_comments" →
    singer.get_bookmark (state h') n k = singer.get_bookmark (state h) n k.
Proof.
  rewrite TicketComments_body_run.
  destruct (py_setitem ticket_comment #"ticket_id" ticket_id) as [comment|];
    [|by intros [= <- _ _]].
  destruct (capture_starting_state (TicketComments cfg) ticket_id h)
    as [[h1 ev1] r1] eqn:Hcap.
  pose proof (capture_frame _ _ _ _ _ _ Hcap) as H1.
  destruct r1 as [[]|]; [|by intros [= <- _ _]].
  destruct (py_get comment #"created_at") as [created_at|];
    [|by intros [= <- _ _]].
  destruct (advance_comment_bookmark (TicketComments cfg) ticket_id created_at h1)
    as [[h2 ev2] r2] eqn:Hadv.
  destruct (advance_frame _ _ _ _ _ _ _ Hadv) as (_ & _ & _ & H2).
  assert (∀ n k, n ≠ "ticket_comments" →
            singer.get_bookmark (state h2) n k = singer.get_bookmark (state h) n k)
    as H12 by (intros n k Hn; by rewrite H2, H1).
  destruct r2 as [[]|]; [|by intros [= <- _ _]].
  destruct (ticket_bookmark (TicketComments cfg) ticket_id h2) as [threshold|];
    [|by intros [= <- _ _]].
  destruct (strptime_with_tz created_at) as [t|]; [|by intros [= <- _ _]].
  by destruct (threshold <? t)%Z; intros [= <- _ _].
Qed.

Lemma TicketComments_loop_frame (cfg : gmap string pyval) (ticket_id : pyval)
    (comments : list pyval) (fin : status) :
  ∀ (h h' : heap) (evs : list event) (r : outcome unit),
    for_each (TicketComments_body (TicketComments cfg) ticket_id) comments fin h
      = (h', evs, r) →
    ∀ n k, n ≠ "ticket_comments" →
      singer.get_bookmark (state h') n k = singer.get_bookmark (state h) n k.
Proof.
  induction comments as [|x xs IH]; intros h h' evs r Hrun n k Hn.
  - simpl in Hrun. by destruct fin; injection Hrun as <- _ _.
  - rewrite for_each_cons in Hrun.
    destruct (TicketComments_body (TicketComments cfg) ticket_id x h)
      as [[h1 e1] r1] eqn:Hbody.
    pose proof (TicketComments_body_frame _ _ _ _ _ _ _ Hbody n k Hn) as H1.
    destruct r1 as [[]|]; [|by injection Hrun as <- _ _].
    destruct (for_each _ xs fin h1) as [[h2 e2] r2] eqn:Hrest.
    injection Hrun as <- _ _. by rewrite (IH _ _ _ _ Hrest n k Hn).
Qed.

Lemma sync_sub_stream_frame (sub_stream : Stream) (what : string)
    (ticket : pyval) (sync : pyval → gen heap unit) (h h' : heap)
    (evs : list event) (r : outcome unit) (n k : string) :
  (∀ ticket_id h1 h2 evs1 r1,
     sync ticket_id h1 = (h2, evs1, r1) →
     singer.get_bookmark (state h2) n k = singer.get_bookmark (state h1) n k) →
  sync_sub_stream sub_stream what ticket sync h = (h', evs, r) →
  singer.get_bookmark (state h') n k = singer.get_bookmark (state h) n k.
Proof.
  intros Hsync. rewrite sync_sub_stream_run.
  destruct (is_selected sub_stream); [|by intros [= <- _ _]].
  destruct (py_getitem ticket #"id") as [ticket_id|]; [|by intros [= <- _ _]].
  destruct (sync ticket_id h) as [[h1 evs1] r1] eqn:Hrun.
  pose proof (Hsync _ _ _ _ _ Hrun) as H1.
  destruct r1 as [[]|[]]; by intros [= <- _ _].
Qed.

Lemma sub_streams_frame (cfg : gmap string pyval) (ticket : pyval)
    (h h' : heap) (evs : list event) (r : outcome unit) (n k : string) :
  n ≠ "ticket_comments" →
  (sync_sub_stream (TicketAudits cfg) "audits" ticket
     (TicketAudits_sync (TicketAudits cfg));;
   sync_sub_stream (TicketMetrics cfg) "metrics" ticket
     (TicketMetrics_sync (TicketMetrics cfg));;
   sync_sub_stream (TicketComments cfg) "comments" ticket
     (TicketComments_sync (TicketComments cfg))) h = (h', evs, r) →
  singer.get_bookmark (state h') n k = singer.get_bookmark (state h) n k.
Proof.
  intros Hn. rewrite run_bind.
  destruct (sync_sub_stream (TicketAudits cfg) "audits" ticket _ h)
    as [[ha ea] ra] eqn:Ha.
  assert (singer.get_bookmark (state ha) n k = singer.get_bookmark (state h) n k)
    as Hfa.
  { eapply sync_sub_stream_frame; [|exact Ha].
    intros ticket_id h1 h2 evs1 r1. unfold TicketAudits_sync, for_in.
    rewrite TicketAudits_loop. by intros [= <- _ _]. }
  destruct ra as [[]|]; [|by intros [= <- _ _]].
  rewrite run_bind.
  destruct (sync_sub_stream (TicketMetrics cfg) "metrics" ticket
              (TicketMetrics_sync (TicketMetrics cfg)) ha)
    as [[hm em] rm] eqn:Hm.
  assert (singer.get_bookmark (state hm) n k = singer.get_bookmark (state ha) n k)
    as Hfm.
  { eapply sync_sub_stream_frame; [|exact Hm].
    intros ticket_id h1 h2 evs1 r1 Hrun.
    destruct (TicketMetrics_loop _ _ _ _ _ _ _ Hrun)
      as (records & _ & [[-> _]|[-> _]]); by destruct h1. }
  destruct rm as [[]|]; [|intros [= <- _ _]; by rewrite Hfm].
  destruct (sync_sub_stream (TicketComments cfg) "comments" ticket
              (TicketComments_sync (TicketComments cfg)) hm)
    as [[hc ec] rc] eqn:Hc.
  assert (singer.get_bookmark (state hc) n k = singer.get_bookmark (state hm) n k)
    as Hfc.
  { eapply sync_sub_stream_frame; [|exact Hc].
    intros ticket_id h1 h2 evs1 r1 Hrun.
    by eapply TicketComments_loop_frame. }
  intros [= <- _ _]. by rewrite Hfc, Hfm.
Qed.

Lemma bookmarks_kept_refl (cfg : gmap string pyval) (st : bookmarks) :
  bookmarks_kept cfg st st.
Proof. split; [|done]. intros current Hc. exists current. split; [done|lia]. Qed.

Lemma bookmarks_kept_trans (cfg : gmap string pyval) (st1 st2 st3 : bookmarks) :
  bookmarks_kept cfg st1 st2 → bookmarks_kept cfg st2 st3 →
  bookmarks_kept cfg st1 st3.
Proof.
  intros [Hm1 Hf1] [Hm2 Hf2]. split.
  - intros c1 Hc1. destruct (Hm1 _ Hc1) as (c2 & Hc2 & Hle1).
    destruct (Hm2 _ Hc2) as (c3 & Hc3 & Hle2). exists c3. split; [done|lia].
  - intros n k Hn Hk. by rewrite Hf2, Hf1.
Qed.

Lemma bookmarks_kept_frame (cfg : gmap string pyval) (st st' : bookmarks) :
  (∀ n k, n ≠ "ticket_comments" →
     singer.get_bookmark st' n k = singer.get_bookmark st n k) →
  bookmarks_kept cfg st st'.
Proof.
  intros Hframe. split.
  - intros current Hc. exists current. split; [|lia].
    unfold get_bookmark in *. simpl in *. by rewrite Hframe.
  - intros n k Hn _. by apply Hframe.
Qed.

Lemma Tickets_body_kept (cfg : gmap string pyval) (ticket : pyval)
    (h h' : heap) (evs : list event) (r : outcome unit) :
  Tickets_body (Tickets cfg) (TicketAudits cfg) (TicketMetrics cfg)
               (TicketComments cfg) ticket h = (h', evs, r) →
  bookmarks_kept cfg (state h) (state h').
Proof.
  rewrite Tickets_body_run.
  destruct (py_get ticket #"generated_timestamp") as [gts|];
    [|intros [= <- _ _]; apply bookmarks_kept_refl].
  destruct (match gts with PInt ts => strftime_utc ts | _ => Raise TypeError end)
    as [generated|]; [|intros [= <- _ _]; apply bookmarks_kept_refl].
  destruct (update_bookmark (Tickets cfg) (state h) (PStr generated))
    as [state1|] eqn:Hup; [|intros [= <- _ _]; apply bookmarks_kept_refl].
  assert (bookmarks_kept cfg (state h) state1) as Hkept1.
  { split.
    - intros current Hc. by eapply update_bookmark_monotone.
    - intros n k _ Hk. by apply (update_bookmark_frame _ _ _ _ _ _ Hup). }
  destruct (py_pop ticket #"fields") as [popped|];
    [|intros [= <- _ _]; by destruct h].
  cbv zeta.
  destruct ((sync_sub_stream (TicketAudits cfg) "audits" popped.2
               (TicketAudits_sync (TicketAudits cfg));;
             sync_sub_stream (TicketMetrics cfg) "metrics" popped.2
               (TicketMetrics_sync (TicketMetrics cfg));;
             sync_sub_stream (TicketComments cfg) "comments" popped.2
               (TicketComments_sync (TicketComments cfg)))
              (set_state (λ _, state1) h)) as [[h2 evs2] r2] eqn:Hsubs.
  intros [= <- _ _].
  eapply bookmarks_kept_trans; [exact Hkept1|].
  apply bookmarks_kept_frame. intros n k Hn.
  rewrite (sub_streams_frame _ _ _ _ _ _ n k Hn Hsubs). by destruct h.
Qed.

Lemma Tickets_loop_kept (cfg : gmap string pyval) (tickets : list pyval)
    (fin : status) :
  ∀ (h h' : heap) (evs : list event) (r : outcome unit),
    for_each (Tickets_body (Tickets cfg) (TicketAudits cfg) (TicketMetrics cfg)
                           (TicketComments cfg)) tickets fin h = (h', evs, r) →
    bookmarks_kept cfg (state h) (state h').
Proof.
  induction tickets as [|x xs IH]; intros h h' evs r Hrun.
  - simpl in Hrun.
    destruct fin; injection Hrun as <- _ _; apply bookmarks_kept_refl.
  - rewrite for_each_cons in Hrun.
    destruct (Tickets_body _ _ _ _ x h) as [[h1 e1] r1] eqn:Hbody.
    apply Tickets_body_kept in Hbody.
    destruct r1 as [[]|]; [|by injection Hrun as <- _ _].
    destruct (for_each _ xs fin h1) as [[h2 e2] r2] eqn:Hrest.
    injection Hrun as <- _ _.
    eapply bookmarks_kept_trans; [exact Hbody | by eapply IH].
Qed.

(** Whatever the end of [Tickets.sync], with all that its sub-streams do
    to the state: the bookmark of the tickets is not earlier than before,
    and no other bookmark has changed but those of the ticket comments. *)
Theorem Tickets_sync_never_regresses (cfg : gmap string pyval)
    (st st' : bookmarks) (evs : list event) (r : outcome unit) (bookmark : Z) :
  get_bookmark (Tickets cfg) st = Return bookmark →
  Tickets_sync (Tickets cfg) st = (st', evs, r) →
  (∃ bookmark', get_bookmark (Tickets cfg) st' = Return bookmark'
                ∧ (bookmark ≤ bookmark')%Z)
  ∧ ∀ n k, n ≠ "ticket_comments" → (n, k) ≠ ("tickets", "generated_timestamp") →
      singer.get_bookmark st' n k = singer.get_bookmark st n k.
Proof.
  intros Hb. unfold Tickets_sync.
  destruct (Tickets_run (Tickets cfg) (Heap st 0 0 0 None PNone))
    as [[h evs0] r0] eqn:Hrun.
  intros [= <- _ _].
  assert (bookmarks_kept cfg st (state h)) as [Hmono Hframe];
    [|split; [by apply Hmono | exact Hframe]].
  revert Hrun. unfold Tickets_run. rewrite run_bind. unfold on_state, reading.
  change (state (Heap st 0 0 0 None PNone)) with st. rewrite Hb.
  cbv beta iota zeta.
  change (config (Tickets cfg)) with cfg.
  change (set_state (λ _, st) (Heap st 0 0 0 None PNone))
    with (Heap st 0 0 0 None PNone).
  set (h0 := Heap st 0 0 0 None PNone).
  rewrite run_bind.
  assert (∃ intro, (if is_selected (TicketAudits cfg)
                    then emit (LogInfo "Syncing ticket_audits per ticket...")
                    else mret tt) h0 = (h0, intro, Return tt)) as (intro & ->)
    by (destruct (is_selected (TicketAudits cfg)); by eexists).
  cbv beta iota. rewrite run_bind. unfold for_in.
  destruct (for_each _ _ _ h0) as [[h1 e1] r1] eqn:Hloop.
  apply Tickets_loop_kept in Hloop. change (state h0) with st in Hloop.
  destruct r1 as [[]|]; [|by intros [= <- _ _]].
  cbv beta iota.
  rewrite !run_bind, !emit_sub_stream_metrics_run. simpl stream.
  destruct (class_stream "ticket_audits"); cbv beta iota;
    rewrite ?run_bind, ?emit_sub_stream_metrics_run; simpl stream;
    (destruct (class_stream "ticket_metrics"); cbv beta iota;
     rewrite ?run_bind, ?emit_sub_stream_metrics_run; simpl stream;
     (destruct (class_stream "ticket_comments"); cbv beta iota;
      intros [= <- _ _]; by destruct h1)).
Qed.

End Streams.

(* ===================================================================== *)
(** * The selection check *)
(* ===================================================================== *)

Lemma dependency_errs_violations (selected_stream_ids : list string) :
  dependency_errs selected_stream_ids
  = (λ pair, msg_tmpl pair.1 pair.2) <$> violations selected_stream_ids.
Proof.
  unfold dependency_errs, violations. cbn.
  repeat case_bool_decide; simpl; repeat case_decide; simpl;
    try done; tauto.
Qed.

(** C6: [validate_dependencies] builds one message for every declared child
    that is selected without its parent, and raises them all in a single
    [DependencyException], or returns when there is none; [do_sync] calls
    it on the selection before anything else, so a violation ends the run
    with no event and with the state untouched, whatever the rest of the
    run would do; and with ['tickets'] not selected there are as many
    messages as selected children of ['tickets'], two when two of them are
    selected. *)
Theorem validate_dependencies_aggregates_violations
    (selected_stream_ids : list string) :
  let messages :=
    (λ pair, msg_tmpl pair.1 pair.2) <$> violations selected_stream_ids in
  dependency_errs selected_stream_ids = messages
  ∧ (violations selected_stream_ids = [] →
     validate_dependencies selected_stream_ids = Return tt)
  ∧ (violations selected_stream_ids ≠ [] →
     validate_dependencies selected_stream_ids
     = Raise (DependencyException (String.concat " " messages)))
  ∧ (∀ (drive : list string → gen bookmarks unit) (catalog : list catalog_entry)
       (state : bookmarks),
       get_selected_streams catalog = selected_stream_ids →
       violations selected_stream_ids ≠ [] →
       do_sync drive catalog state
       = (state, [], Raise (DependencyException (String.concat " " messages))))
  ∧ ("tickets" ∉ selected_stream_ids →
     length (dependency_errs selected_stream_ids)
     = length (filter (λ child, child ∈ selected_stream_ids)
                      ["ticket_audits"; "ticket_metrics"; "ticket_comments"]))
  ∧ ("tickets" ∈ selected_stream_ids → dependency_errs selected_stream_ids = []).
Proof.
  intros messages. subst messages.
  assert (violations selected_stream_ids ≠ [] →
          validate_dependencies selected_stream_ids
          = Raise (DependencyException
                     (String.concat " "
                        ((λ pair, msg_tmpl pair.1 pair.2)
                           <$> violations selected_stream_ids)))) as Hraise.
  { intros Hne. unfold validate_dependencies.
    rewrite dependency_errs_violations.
    by destruct (violations selected_stream_ids). }
  split_and!.
  - apply dependency_errs_violations.
  - intros Hnil. unfold validate_dependencies.
    by rewrite dependency_errs_violations, Hnil.
  - done.
  - intros drive catalog state Hsel Hne.
    unfold do_sync. rewrite run_bind, Hsel. unfold lift.
    by rewrite (Hraise Hne).
  - intros Hparent. unfold dependency_errs. cbn.
    rewrite (bool_decide_eq_false_2 _ Hparent). simpl.
    repeat (case_bool_decide; simpl); repeat case_decide; simpl;
      try done; tauto.
  - intros Hparent. unfold dependency_errs. cbn.
    rewrite (bool_decide_eq_true_2 _ Hparent). simpl.
    by rewrite !andb_false_r.
Qed.

(* ===================================================================== *)
(** * The fan-out under "not found" *)
(* ===================================================================== *)








Section FanOut.
Variable parse_instant : string → option Z.
Variable strftime_utc : Z → outcome string.
Variable class_stream : string → option catalog_entry.
Variable audits_pages metrics_pages comments_pages : pyval → iterable pyval.
Variable tickets_pages : Z → iterable pyval.









End FanOut.

(* ===================================================================== *)
(** * Listings page by page *)
(* ===================================================================== *)

Lemma objects_of_pages_app (read : pyval → outcome (list pyval))
    (before rest : list pyval) (fin : status) :
  objects_of_pages read (before ++ rest) fin
  = match objects_of_pages read before Done with
    | (objects, Done) =>
        ((objects ++ (objects_of_pages read rest fin).1),
         (objects_of_pages read rest fin).2)
    | (objects, Raised e) => (objects, Raised e)
    end.
Proof.
  induction before as [|page pages IH]; simpl.
  - by destruct (objects_of_pages read rest fin).
  - destruct (read page) as [items|]; [|done].
    rewrite IH.
    destruct (objects_of_pages read pages Done) as [objects [|e]]; [|done].
    by rewrite app_assoc.
Qed.

Lemma objects_of_pages_skip (read : pyval → outcome (list pyval))
    (before after : list pyval) (page : pyval) (fin : status) :
  read page = Return [] →
  objects_of_pages read (before ++ page :: after) fin
  = objects_of_pages read (before ++ after) fin.
Proof.
  intros Hpage. rewrite !objects_of_pages_app. simpl. rewrite Hpage.
  by destruct (objects_of_pages read after fin).
Qed.

(** A page without the item key.  [TicketAudits.get_objects] and
    [TicketComments.get_objects], which read the items with [page.get],
    go on as if the page were not in the listing;
    [CursorBasedStream.get_objects], which reads [page[self.item_key]],
    hands out the objects of the pages before it and ends there by
    [KeyError] (or earlier, where an earlier page ends the listing). *)
Theorem page_without_items_is_skipped_or_raises (self : Stream)
    (ticket_id : pyval) (before after : list pyval) (d : gmap pykey pyval)
    (fin : status) :
  d !! #(item_key self) = None →
  let pages := (before ++ PDict d :: after, fin) in
  let pages' := (before ++ after, fin) in
  TicketAudits_get_objects (λ _, pages) self ticket_id
  = TicketAudits_get_objects (λ _, pages') self ticket_id
  ∧ TicketComments_get_objects (λ _, pages) self ticket_id
    = TicketComments_get_objects (λ _, pages') self ticket_id
  ∧ CursorBasedStream_get_objects self pages
    = match CursorBasedStream_get_objects self (before, Done) with
      | (objects, Done) => (objects, Raised KeyError)
      | (objects, Raised e) => (objects, Raised e)
      end.
Proof.
  intros Hd pages pages'. split_and!.
  - unfold TicketAudits_get_objects. simpl.
    apply objects_of_pages_skip. simpl. by rewrite Hd.
  - unfold TicketComments_get_objects. simpl.
    apply objects_of_pages_skip. simpl. by rewrite Hd.
  - unfold CursorBasedStream_get_objects. simpl.
    rewrite objects_of_pages_app. simpl. rewrite Hd. simpl.
    destruct (objects_of_pages _ before Done) as [objects [|e]]; [|done].
    by rewrite app_nil_r.
Qed.

(** The error page of an incremental export: a page with an ["error"] and
    without the item key ends [CursorBasedExportStream.get_objects], after
    the objects of the pages before it, by an exception that carries the
    message of the error, or ["Error found in the account."] when the
    error has none; the pages after it are not read.  A page that has the
    item key is read as usual, whether it has an ["error"] or not. *)
Theorem CursorBasedExportStream_get_objects_error_page (self : Stream)
    (before after : list pyval) (d : gmap pykey pyval) (fin : status) :
  let listing page :=
    CursorBasedExportStream_get_objects self (before ++ page :: after, fin) in
  let stopped e :=
    match CursorBasedExportStream_get_objects self (before, Done) with
    | (objects, Done) => (objects, Raised e)
    | (objects, Raised e') => (objects, Raised e')
    end in
  (∀ error m,
     d !! #(item_key self) = None →
     d !! #"error" = Some (PDict error) →
     default (PStr "Error found in the account.") (error !! #"message") = PStr m →
     listing (PDict d) = stopped (OtherError ("Error: " +:+ m)))
  ∧ (d !! #(item_key self) = None → d !! #"error" = None →
     listing (PDict d) = stopped KeyError)
  ∧ (∀ items error,
       item_key self ≠ "error" →
       d !! #(item_key self) = Some (PList items) →
       listing (PDict (<[#"error" := error]> d)) = listing (PDict d)).
Proof.
  intros listing stopped. subst listing stopped.
  unfold CursorBasedExportStream_get_objects. simpl. split_and!.
  - intros error m Hitems Herror Hm.
    rewrite objects_of_pages_app. simpl. rewrite Herror, Hitems. simpl.
    rewrite Hm.
    destruct (objects_of_pages _ before Done) as [objects [|e]]; [|done].
    by rewrite app_nil_r.
  - intros Hitems Herror.
    rewrite objects_of_pages_app. simpl. rewrite Herror, Hitems. simpl.
    destruct (objects_of_pages _ before Done) as [objects [|e]]; [|done].
    by rewrite app_nil_r.
  - intros items error Hkey Hitems.
    assert (#"error" ≠ #(item_key self)) as Hne by congruence.
    rewrite !objects_of_pages_app. simpl.
    rewrite lookup_insert_eq, lookup_insert_ne, Hitems by done. simpl.
    by destruct (d !! #"error").
Qed.

(* ===================================================================== *)
(** * The schedule of [do_sync] *)
(* ===================================================================== *)

Lemma get_selected_streams_filter (catalog : list catalog_entry) :
  get_selected_streams catalog
  = tap_stream_id <$> filter (λ entry, selected entry = true) catalog.
Proof.
  unfold get_selected_streams, stream_is_selected.
  assert (∀ acc,
            fold_left (λ names entry,
                         if selected entry then names ++ [tap_stream_id entry]
                         else names) catalog acc
            = acc ++ (tap_stream_id <$> filter (λ entry, selected entry = true) catalog))
    as H; [|by rewrite H].
  induction catalog as [|entry rest IH]; intros acc; simpl.
  - by rewrite app_nil_r.
  - rewrite IH, filter_cons. destruct (selected entry) eqn:Hsel.
    + rewrite decide_True by done. by rewrite <- app_assoc.
    + by rewrite decide_False by done.
Qed.

Lemma populate_class_schemas_fold (selected_stream_names : list string)
    (catalog : list catalog_entry) :
  ∀ (acc : outcome (gmap string catalog_entry)) (classes : gmap string catalog_entry),
    fold_left
      (λ (acc : outcome (gmap string catalog_entry)) stream,
         classes ← acc;
         if bool_decide (tap_stream_id stream ∈ selected_stream_names) then
           if bool_decide (tap_stream_id stream ∈ STREAMS)
           then Return (<[tap_stream_id stream := stream]> classes)
           else Raise KeyError
         else Return classes)
      catalog acc = Return classes →
    ∃ start, acc = Return start
      ∧ ((∀ id entry, start !! id = Some entry → tap_stream_id entry = id) →
         ∀ id entry, classes !! id = Some entry → tap_stream_id entry = id)
      ∧ (∀ id, is_Some (start !! id) → is_Some (classes !! id))
      ∧ (∀ entry, entry ∈ catalog →
           tap_stream_id entry ∈ selected_stream_names →
           is_Some (classes !! tap_stream_id entry)).
Proof.
  induction catalog as [|stream rest IH]; intros acc classes Hfold; simpl in Hfold.
  - exists classes. split_and!; [done|done|done|]. by intros ? ?%elem_of_nil.
  - destruct (IH _ _ Hfold) as (mid & Hmid & Hids & Hkeep & Hall).
    destruct acc as [start|]; [|done]. simpl in Hmid.
    exists start. split; [done|].
    assert (is_Some (mid !! tap_stream_id stream)
            ∨ tap_stream_id stream ∉ selected_stream_names) as Hstream.
    { repeat case_bool_decide; simplify_eq; [left|by right].
      rewrite lookup_insert_eq. by eexists. }
    assert ((∀ id entry, start !! id = Some entry → tap_stream_id entry = id) →
            ∀ id entry, mid !! id = Some entry → tap_stream_id entry = id) as Hmid_ids.
    { intros Hstart id entry. repeat case_bool_decide; simplify_eq; [|by apply Hstart].
      destruct (decide (id = tap_stream_id stream)) as [->|Hne].
      - rewrite lookup_insert_eq. by intros [= <-].
      - rewrite lookup_insert_ne by done. by apply Hstart. }
    assert (∀ id, is_Some (start !! id) → is_Some (mid !! id)) as Hmid_keep.
    { intros id Hid. repeat case_bool_decide; simplify_eq; [|done].
      destruct (decide (id = tap_stream_id stream)) as [->|Hne].
      - rewrite lookup_insert_eq. by eexists.
      - by rewrite lookup_insert_ne. }
    split_and!.
    + intros Hstart. by apply Hids, Hmid_ids.
    + intros id Hid. by apply Hkeep, Hmid_keep.
    + intros entry [->|Hin]%elem_of_cons Hsel.
      * destruct Hstream as [Hs|Hs]; [by apply Hkeep | done].
      * by apply Hall.
Qed.

Lemma populate_class_schemas_spec (catalog : list catalog_entry)
    (selected_stream_names : list string) (classes : gmap string catalog_entry) :
  populate_class_schemas catalog selected_stream_names = Return classes →
  (∀ id entry, classes !! id = Some entry → tap_stream_id entry = id)
  ∧ (∀ entry, entry ∈ catalog →
       tap_stream_id entry ∈ selected_stream_names →
       is_Some (classes !! tap_stream_id entry)).
Proof.
  intros Hpop.
  destruct (populate_class_schemas_fold _ _ _ _ Hpop)
    as (start & [= <-] & Hids & _ & Hall).
  split; [|done]. apply Hids. intros id entry. by rewrite lookup_empty.
Qed.

Lemma write_sub_schemas_selected (classes : gmap string catalog_entry)
    (selected_stream_names sub_stream_names : list string) :
  (∀ id, id ∈ selected_stream_names →
         ∃ entry, classes !! id = Some entry ∧ tap_stream_id entry = id) →
  write_sub_schemas classes selected_stream_names sub_stream_names
  = (WriteSchema <$> filter (.∈ selected_stream_names) sub_stream_names, Return tt).
Proof.
  intros Hclasses. induction sub_stream_names as [|sub rest IH]; simpl; [done|].
  rewrite filter_cons. case_bool_decide as Hsel.
  - destruct (Hclasses _ Hsel) as (entry & -> & ->).
    rewrite IH. by rewrite decide_True.
  - by rewrite decide_False.
Qed.

Lemma schemas_written_app (steps1 steps2 : list step) :
  schemas_written (steps1 ++ steps2) = schemas_written steps1 ++ schemas_written steps2.
Proof. apply omap_app. Qed.

Lemma streams_synced_app (steps1 steps2 : list step) :
  streams_synced (steps1 ++ steps2) = streams_synced steps1 ++ streams_synced steps2.
Proof. apply omap_app. Qed.

Lemma states_written_app (steps1 steps2 : list step) :
  states_written (steps1 ++ steps2) = states_written steps1 ++ states_written steps2.
Proof. apply omap_app. Qed.

Lemma schemas_written_cons (s : step) (steps : list step) :
  schemas_written (s :: steps)
  = match s with
    | WriteSchema n => n :: schemas_written steps
    | _ => schemas_written steps
    end.
Proof. by destruct s. Qed.

Lemma streams_synced_cons (s : step) (steps : list step) :
  streams_synced (s :: steps)
  = match s with
    | SyncStream n => n :: streams_synced steps
    | _ => streams_synced steps
    end.
Proof. by destruct s. Qed.

Lemma states_written_cons (s : step) (steps : list step) :
  states_written (s :: steps)
  = match s with
    | WriteState st => st :: states_written steps
    | _ => states_written steps
    end.
Proof. by destruct s. Qed.

Ltac split_steps :=
  repeat (progress (rewrite ?schemas_written_app, ?streams_synced_app,
                      ?states_written_app, ?schemas_written_cons,
                      ?streams_synced_cons, ?states_written_cons;
                    cbv beta iota)).

Lemma written_sub_schemas (names : list string) :
  schemas_written (WriteSchema <$> names) = names
  ∧ streams_synced (WriteSchema <$> names) = []
  ∧ states_written (WriteSchema <$> names) = [].
Proof.
  unfold schemas_written, streams_synced, states_written.
  split_and!; induction names as [|n ns IH]; simpl;
    first [done | exact IH | f_equal; exact IH].
Qed.

Lemma do_sync_loop_schedule (sync_stream : string → bookmarks → bookmarks * outcome nat)
    (classes : gmap string catalog_entry) (selected_stream_names : list string)
    (streams : list catalog_entry) :
  (∀ id, id ∈ selected_stream_names →
         ∃ entry, classes !! id = Some entry ∧ tap_stream_id entry = id) →
  ∀ (state state' : bookmarks) (steps : list step),
    do_sync_loop sync_stream classes selected_stream_names streams state
      = (state', steps, Return tt) →
    let scheduled :=
      filter (λ entry, tap_stream_id entry ∈ selected_stream_names) streams in
    schemas_written steps
    = (entry ← scheduled;
       tap_stream_id entry
         :: filter (.∈ selected_stream_names) (children (tap_stream_id entry)))
    ∧ streams_synced steps
      = filter (.∉ get_sub_stream_names) (tap_stream_id <$> scheduled)
    ∧ states_written steps = [].
Proof.
  intros Hclasses.
  induction streams as [|stream rest IH]; intros state state' steps Hrun.
  - injection Hrun as <- <-. done.
  - cbn [do_sync_loop] in Hrun. intros scheduled. subst scheduled.
    rewrite filter_cons.
    case_bool_decide as Hsel; cbn [negb] in Hrun.
    + rewrite decide_True by done.
      assert (match SUB_STREAMS_get (tap_stream_id stream) with
              | Some (sub :: subs) =>
                  write_sub_schemas classes selected_stream_names (sub :: subs)
              | _ => ([], Return tt)
              end
              = (WriteSchema <$> filter (.∈ selected_stream_names)
                                   (children (tap_stream_id stream)), Return tt))
        as Hsubs.
      { unfold children.
        destruct (SUB_STREAMS_get (tap_stream_id stream)) as [[|sub subs]|];
          [done| |done].
        by apply write_sub_schemas_selected. }
      rewrite Hsubs in Hrun. clear Hsubs.
      pose proof (written_sub_schemas
                    (filter (.∈ selected_stream_names)
                            (children (tap_stream_id stream))))
        as (Hw1 & Hw2 & Hw3).
      rewrite fmap_cons, bind_cons, filter_cons.
      case_bool_decide as Hsub.
      * destruct (do_sync_loop _ _ _ rest state) as [[s1 steps1] r1] eqn:Hrest.
        injection Hrun as <- <- ->.
        destruct (IH _ _ _ Hrest) as (IH1 & IH2 & IH3).
        rewrite decide_False by (by intros []).
        split_steps. by rewrite Hw1, Hw2, Hw3, IH1, IH2, IH3.
      * destruct (sync_stream (tap_stream_id stream) state)
          as [state1 [counter_value|]]; [|done].
        destruct (do_sync_loop _ _ _ rest state1) as [[s1 steps1] r1] eqn:Hrest.
        injection Hrun as <- <- ->.
        destruct (IH _ _ _ Hrest) as (IH1 & IH2 & IH3).
        rewrite decide_True by done.
        split_steps. rewrite Hw1, Hw2, Hw3, IH1, IH2, IH3.
        change (schemas_written []) with (@nil string).
        change (states_written []) with (@nil bookmarks).
        change (streams_synced []) with (@nil string).
        by rewrite ?app_nil_r, ?app_nil_l.
    + rewrite decide_False by done.
      destruct (do_sync_loop _ _ _ rest state) as [[s1 steps1] r1] eqn:Hrest.
      injection Hrun as <- <- ->.
      destruct (IH _ _ _ Hrest) as (IH1 & IH2 & IH3).
      split_steps. by rewrite IH1, IH2, IH3.
Qed.

(** A run of [do_sync] that completes.  The streams gone through are the
    catalog entries whose id is among the selected ones, in the order of the
    catalog.  For each of them the schema is written, followed by the
    schemas of its selected children: the schema of a selected child is
    written after its parent's and once more at its own place in the
    catalog.  [sync_stream] is called for those that are no child of
    another stream, in the same order.  The state is written once, at the
    end, as the run has left it. *)
Theorem do_sync_steps_schedule
    (sync_stream : string → bookmarks → bookmarks * outcome nat)
    (catalog : list catalog_entry) (state state' : bookmarks) (steps : list step) :
  do_sync_steps sync_stream catalog state = (state', steps, Return tt) →
  let selected_stream_names :=
    tap_stream_id <$> filter (λ entry, selected entry = true) catalog in
  let scheduled :=
    filter (λ entry, tap_stream_id entry ∈ selected_stream_names) catalog in
  schemas_written steps
  = (entry ← scheduled;
     tap_stream_id entry
       :: filter (.∈ selected_stream_names) (children (tap_stream_id entry)))
  ∧ streams_synced steps
    = filter (.∉ get_sub_stream_names) (tap_stream_id <$> scheduled)
  ∧ states_written steps = [state']
  ∧ ∃ before, steps = before ++ [WriteState state'; Log "Finished sync";
                                  LogAggregateRates].
Proof.
  unfold do_sync_steps. rewrite get_selected_streams_filter.
  set (names := tap_stream_id <$> filter (λ entry, selected entry = true) catalog).
  destruct (validate_dependencies names) as [[]|]; [|done].
  destruct (populate_class_schemas catalog names) as [classes|] eqn:Hpop; [|done].
  destruct (populate_class_schemas_spec _ _ _ Hpop) as (Hids & Hall).
  destruct (do_sync_loop _ _ _ catalog state) as [[s1 steps1] [[]|]] eqn:Hloop;
    [|done].
  intros [= <- <-].
  assert (∀ id, id ∈ names →
                ∃ entry, classes !! id = Some entry ∧ tap_stream_id entry = id)
    as Hclasses.
  { intros id Hid.
    assert (∃ entry, entry ∈ catalog ∧ tap_stream_id entry = id)
      as (entry & Hin & <-).
    { unfold names in Hid. apply list_elem_of_fmap in Hid as (entry & -> & Hin).
      apply list_elem_of_filter in Hin as [_ Hin]. by exists entry. }
    destruct (Hall _ Hin Hid) as [entry' Hentry'].
    exists entry'. split; [done|]. by apply Hids. }
  destruct (do_sync_loop_schedule _ _ _ _ Hclasses _ _ _ Hloop) as (H1 & H2 & H3).
  cbv zeta. split_steps. rewrite H1, H2, H3.
  change (schemas_written []) with (@nil string).
  change (streams_synced []) with (@nil string).
  change (states_written []) with (@nil bookmarks).
  rewrite ?app_nil_r, ?app_nil_l.
  split_and!; [done..|]. by exists steps1.
Qed.

(* ===================================================================== *)
(** * Discovery of the custom fields *)
(* ===================================================================== *)

Lemma CUSTOM_TYPES_get_Some (zendesk_type json_type : string) :
  CUSTOM_TYPES_get zendesk_type = Some json_type →
  (zendesk_type, json_type) ∈ CUSTOM_TYPES.
Proof.
  unfold CUSTOM_TYPES_get.
  destruct (find _ CUSTOM_TYPES) as [[t j]|] eqn:Hfind; [|done].
  intros [= <-]. apply find_some in Hfind as [Hin Heq].
  apply String.eqb_eq in Heq. simpl in Heq. subst t.
  by apply list_elem_of_In.
Qed.

Lemma CUSTOM_TYPES_get_None (zendesk_type : string) :
  CUSTOM_TYPES_get zendesk_type = None ↔ zendesk_type ∉ CUSTOM_TYPES.*1.
Proof.
  unfold CUSTOM_TYPES_get.
  destruct (find (λ entry, String.eqb entry.1 zendesk_type) CUSTOM_TYPES)
    as [[t j]|] eqn:Hfind.
  - split; [done|]. intros Hnot. exfalso. apply Hnot.
    apply find_some in Hfind as [Hin Heq].
    apply String.eqb_eq in Heq. cbn [fst] in Heq. subst t.
    apply list_elem_of_fmap. exists (zendesk_type, j).
    split; [done | by apply list_elem_of_In].
  - split; [|done]. intros _ Hin.
    apply list_elem_of_fmap in Hin as ([t j] & Heq & Hin). cbn [fst] in Heq.
    subst t. apply list_elem_of_In in Hin.
    pose proof (find_none _ _ Hfind _ Hin) as Hne. cbn [fst] in Hne.
    by rewrite String.eqb_refl in Hne.
Qed.

(** The schema of a custom field, for every field.  A type that is not in
    [CUSTOM_TYPES] makes [process_custom_field] raise, with the title, the
    key and the type in the message; so does a dropdown whose options are
    [None], by [TypeError]; every other field gets a schema.  The schema is
    nullable, of the JSON type [CUSTOM_TYPES] gives, one of four; it has a
    ["format"], ["datetime"], exactly for a date, an ["enum"], the values
    of the options, exactly for a dropdown, and nothing else. *)
Theorem process_custom_field_schema (field : custom_field) :
  let zendesk_type := field_type field in
  let shaped (json_type : string) (format enum : option pyval) :=
    ∃ d, process_custom_field field = Return (PDict d)
         ∧ d !! #"type" = Some (PList [PStr json_type; PStr "null"])
         ∧ d !! #"format" = format
         ∧ d !! #"enum" = enum
         ∧ ∀ k, is_Some (d !! k) → k ∈ [KStr "type"; KStr "format"; KStr "enum"] in
  (CUSTOM_TYPES_get zendesk_type = None ↔ zendesk_type ∉ CUSTOM_TYPES.*1)
  ∧ match CUSTOM_TYPES_get zendesk_type with
    | None =>
        process_custom_field field
        = Raise (OtherError ("Discovered unsupported type for custom field "
                             +:+ field_title field +:+ " (key: "
                             +:+ field_key field +:+ "): " +:+ zendesk_type))
    | Some json_type =>
        (zendesk_type, json_type) ∈ CUSTOM_TYPES
        ∧ json_type ∈ ["string"; "integer"; "number"; "boolean"]
        ∧ if decide (zendesk_type = "dropdown") then
            match custom_field_options field with
            | None => process_custom_field field = Raise TypeError
            | Some values => shaped json_type None (Some (PList values))
            end
          else if decide (zendesk_type = "date") then
            shaped json_type (Some (PStr "datetime")) None
          else shaped json_type None None
    end.
Proof.
  intros zendesk_type shaped. subst zendesk_type shaped. cbv beta.
  split; [apply CUSTOM_TYPES_get_None|].
  unfold process_custom_field.
  destruct (CUSTOM_TYPES_get (field_type field)) as [json_type|] eqn:Hget;
    [|done].
  apply CUSTOM_TYPES_get_Some in Hget.
  assert (json_type ∈ ["string"; "integer"; "number"; "boolean"]) as Hjson.
  { assert (Forall (λ entry, entry.2 ∈ ["string"; "integer"; "number"; "boolean"])
                   CUSTOM_TYPES) as Hall
      by (apply (bool_decide_unpack _); by vm_compute).
    rewrite Forall_forall in Hall. apply (Hall _ Hget). }
  assert (∀ (k : pykey) (keys : list pykey) (d : gmap pykey pyval),
            (∀ k', is_Some (d !! k') → k' ∈ keys) → k ∈ keys →
            ∀ v k', is_Some (<[k := v]> d !! k') → k' ∈ keys) as Hkeys.
  { intros k keys d Hd Hk v k'. destruct (decide (k = k')) as [<-|Hne]; [done|].
    rewrite lookup_insert_ne by done. apply Hd. }
  assert (∀ k' : pykey,
            is_Some (({[ #"type" := PList [PStr json_type; PStr "null"] ]}
                        : gmap pykey pyval) !! k') →
            k' ∈ [KStr "type"; KStr "format"; KStr "enum"]) as Hbase.
  { intros k' [v Hv]. apply lookup_singleton_Some in Hv as [<- _]. by constructor. }
  split; [done|]. split; [done|].
  destruct (String.eqb_spec (field_type field) "date") as [Hdate|Hdate];
    destruct (String.eqb_spec (field_type field) "dropdown") as [Hdrop|Hdrop];
    try congruence.
  - rewrite decide_False, decide_True by done.
    exists (<[#"format" := PStr "datetime"]>
              {[ #"type" := PList [PStr json_type; PStr "null"] ]}).
    split_and!; [done|by simplify_map_eq..|].
    apply Hkeys; [done | repeat constructor].
  - rewrite decide_True by done.
    destruct (custom_field_options field) as [values|] eqn:Hopt; [|done].
    exists (<[#"enum" := PList values]>
              {[ #"type" := PList [PStr json_type; PStr "null"] ]}).
    split_and!; [done|by simplify_map_eq..|].
    apply Hkeys; [done | repeat constructor].
  - rewrite !decide_False by done.
    exists {[ #"type" := PList [PStr json_type; PStr "null"] ]}.
    split_and!; [done|by simplify_map_eq..|done].
Qed.

Lemma custom_properties_spec (fields : list custom_field) :
  ∀ (start properties : gmap pykey pyval),
    custom_properties fields start = Return properties →
    Forall (λ field, ∃ schema, process_custom_field field = Return schema) fields
    ∧ ∀ k : pykey,
        properties !! k
        = match last (filter (λ field, #(field_key field) = k) fields) with
          | Some field =>
              match process_custom_field field with
              | Return schema => Some schema
              | Raise _ => None
              end
          | None => start !! k
          end.
Proof.
  induction fields as [|field rest IH]; intros start properties Hrun;
    simpl in Hrun.
  - injection Hrun as <-. by split.
  - destruct (process_custom_field field) as [schema|] eqn:Hfield; [|done].
    simpl in Hrun. destruct (IH _ _ Hrun) as (Hall & Hlookup).
    split; [constructor; [by exists schema | done]|].
    intros k. rewrite Hlookup, filter_cons.
    destruct (decide (#(field_key field) = k)) as [<-|Hne].
    + rewrite last_cons.
      destruct (last (filter _ rest)); [done|].
      by rewrite Hfield, lookup_insert_eq.
    + destruct (last (filter _ rest)); [done|].
      by rewrite lookup_insert_ne.
Qed.

Lemma custom_properties_first_failure (before after : list custom_field)
    (field : custom_field) (e : exn) :
  ∀ start : gmap pykey pyval,
    Forall (λ field, ∃ schema, process_custom_field field = Return schema) before →
    process_custom_field field = Raise e →
    custom_properties (before ++ field :: after) start = Raise e.
Proof.
  induction before as [|f fs IH]; intros start Hall Hfield; simpl.
  - by rewrite Hfield.
  - apply Forall_cons in Hall as [[schema Hf] Hall]. rewrite Hf. simpl.
    by apply IH.
Qed.

Lemma set_get_custom_properties (schema schema' : pyval) (holder : string)
    (properties : gmap pykey pyval) :
  set_custom_properties schema holder properties = Return schema' →
  get_custom_properties schema' holder = Return (PDict properties).
Proof.
  unfold set_custom_properties, get_custom_properties.
  destruct schema as [| | | |d]; try done. simpl.
  destruct (d !! #"properties") as [[| | | |all]|]; try done. simpl.
  destruct (all !! #holder) as [[| | | |held]|]; try done. simpl.
  intros [= <-]. simpl. rewrite lookup_insert_eq. simpl.
  rewrite lookup_insert_eq. simpl. by rewrite lookup_insert_eq.
Qed.

(** [_add_custom_fields] when the API gives the fields.  It ends with a
    schema exactly when the given schema has the place of the custom
    properties and every field has a supported type; no warning is logged.
    The schema is the given one with its custom properties replaced: they
    are the keys of the fields, each with the schema of the last field of
    that key, and the properties the schema file had there are gone.  A
    field of an unsupported type ends it by the exception of the first
    such field. *)
Theorem add_custom_fields_replaces_custom_properties (stream holder : string)
    (fields : list custom_field) (schema : pyval) :
  (∀ schema' warnings,
     add_custom_fields stream holder (Fields fields) schema
       = Discovered schema' warnings →
     warnings = []
     ∧ Forall (λ field, ∃ s, process_custom_field field = Return s) fields
     ∧ ∃ properties,
         set_custom_properties schema holder properties = Return schema'
         ∧ get_custom_properties schema' holder = Return (PDict properties)
         ∧ ∀ k : pykey,
             properties !! k
             = field ← last (filter (λ field, #(field_key field) = k) fields);
               match process_custom_field field with
               | Return s => Some s
               | Raise _ => None
               end)
  ∧ (∀ before field after e,
       fields = before ++ field :: after →
       Forall (λ field, ∃ s, process_custom_field field = Return s) before →
       process_custom_field field = Raise e →
       is_Some (match get_custom_properties schema holder with
                | Return v => Some v
                | Raise _ => None
                end) →
       add_custom_fields stream holder (Fields fields) schema = Failed e).
Proof.
  split.
  - intros schema' warnings. unfold add_custom_fields.
    destruct (set_custom_properties schema holder ∅) as [cleared|]; [|done].
    destruct (custom_properties fields ∅) as [properties|] eqn:Hprops; [|done].
    destruct (set_custom_properties schema holder properties) as [result|] eqn:Hset;
      [|done].
    intros [= <- <-].
    destruct (custom_properties_spec _ _ _ Hprops) as (Hall & Hlookup).
    split_and!; [done|done|].
    exists properties. split_and!; [done | by eapply set_get_custom_properties |].
    intros k. rewrite Hlookup.
    destruct (last (filter _ fields)); [done|]. simpl. apply lookup_empty.
  - intros before field after e -> Hall Hfield Hplace.
    unfold add_custom_fields.
    rewrite (custom_properties_first_failure _ _ _ _ _ Hall Hfield).
    assert (∃ cleared, set_custom_properties schema holder ∅ = Return cleared)
      as [cleared ->]; [|done].
    unfold get_custom_properties in Hplace. unfold set_custom_properties.
    destruct schema as [| | | |d]; try by destruct Hplace. simpl in *.
    destruct (d !! #"properties") as [[| | | |all]|]; try by destruct Hplace.
    simpl in *.
    destruct (all !! #holder) as [[| | | |held]|]; try by destruct Hplace.
    simpl. by eexists.
Qed.

(** [_add_custom_fields] when the call of the API raises.  An
    [APIException] that says the credentials cannot read the custom fields,
    by its ["description"] or by the ["message"] of its ["error"], is
    swallowed: the schema comes back as it was given, and one warning names
    the stream.  Any other [APIException] with a JSON object is raised
    again, and another exception is not caught. *)
Theorem add_custom_fields_without_access (stream holder : string)
    (schema : pyval) (response : gmap pykey pyval) :
  let missing_scope :=
    is_str (default PNone (response !! #"description"))
           "You are missing the following required scopes: read" in
  let no_access :=
    match response !! #"error" with
    | Some (PDict error) =>
        is_str (default PNone (error !! #"message"))
               "You do not have access to this page. Please contact the account owner of this help desk for further help."
    | _ => false
    end in
  add_custom_fields stream holder (CallRaises (APIException (PDict response))) schema
  = (if missing_scope || no_access
     then Discovered schema [no_access_warning stream]
     else Reraised (PDict response))
  ∧ ∀ e, add_custom_fields stream holder (CallRaises (NotAPIException e)) schema
         = Failed e.
Proof.
  intros missing_scope no_access. subst missing_scope no_access.
  split; [|done]. unfold add_custom_fields, raise_or_log_zenpy_apiexception.
  simpl.
  destruct (is_str (default PNone (response !! #"description")) _); [done|].
  simpl. by destruct (response !! #"error") as [[| | | |error]|].
Qed.

(* ===================================================================== *)
(** * The credentials of [main] *)
(* ===================================================================== *)

(** The credentials [main] gives to the client.  With an [access_token] in
    the configuration they are the OAuth ones, whatever else is there, and
    the API token reader is not run; without it they are those of the API
    token, which needs both an [email] and an [api_token].  They carry the
    [subdomain] of the configuration.  With no usable keys [creds] is
    [None] and the call of the client raises [TypeError]: that is the only
    way to this exception, and the run does not get to the line that logs
    that no suitable keys were provided. *)
Theorem main_creds_precedence (config : gmap string pyval) :
  (∀ creds, (main_creds config).2 = Return creds →
     creds !! "subdomain" = config !! "subdomain"
     ∧ is_Some (config !! "subdomain")
     ∧ match config !! "access_token" with
       | Some access_token =>
           creds !! "oauth_token" = Some access_token
           ∧ creds !! "email" = None ∧ creds !! "token" = None
           ∧ (main_creds config).1 = [AuthInfo "Using OAuth authentication."]
       | None =>
           creds !! "oauth_token" = None
           ∧ is_Some (config !! "email")
           ∧ creds !! "email" = config !! "email"
           ∧ is_Some (config !! "api_token")
           ∧ creds !! "token" = config !! "api_token"
       end)
  ∧ ((main_creds config).2 = Raise TypeError
     ↔ config !! "access_token" = None
       ∧ (config !! "email" = None ∨ config !! "api_token" = None))
  ∧ ((main_creds config).2 = Raise KeyError
     ↔ config !! "subdomain" = None
       ∧ (is_Some (config !! "access_token")
          ∨ (is_Some (config !! "email") ∧ is_Some (config !! "api_token")))).
Proof.
  unfold main_creds, oauth_auth, api_token_auth.
  destruct (config !! "access_token") as [access_token|] eqn:Ha;
    destruct (config !! "email") as [email|] eqn:He;
    destruct (config !! "api_token") as [api_token|] eqn:Ht;
    destruct (config !! "subdomain") as [subdomain|] eqn:Hs; simpl.
  all: split_and!; [intros creds Hcreds; simplify_eq | |].
  all: try (split_and!; first [done | by eexists | by simplify_map_eq]).
  all: try (split; [intros H; discriminate H|]).
  all: try (by intros (H & _); discriminate H).
  all: try (by intros (_ & [H|H]); discriminate H).
  all: try (by intros (_ & [[? H]|[[? H] _]]); discriminate H).
  all: try (by intros (_ & [[? H]|[_ [? H]]]); discriminate H).
  all: split; intros _; [|done].
  all: split; [done|].
  all: first [ by left | by right | by left; eexists
             | by right; split; eexists ].
Qed.

(* ===================================================================== *)
(** * Examples *)
(* ===================================================================== *)

Example iso_parse_jan1 : Iso.parse Ex.jan1 = Some 1577836800%Z.
Proof. reflexivity. Qed.

Example iso_parse_jan2 : Iso.parse Ex.jan2 = Some 1577923200%Z.
Proof. reflexivity. Qed.

Example iso_parse_feb1 : Iso.parse Ex.feb1 = Some 1580515200%Z.
Proof. reflexivity. Qed.

Example iso_parse_empty : Iso.parse "" = None.
Proof. reflexivity. Qed.

Example iso_parse_unknown : Iso.parse "unknown" = None.
Proof. reflexivity. Qed.

(** C1, where the claim fails: a candidate that does not parse is not a
    no-op, the call raises. *)
Lemma update_bookmark_unparsable_raises :
  let self := Groups Ex.class_stream Ex.cfg in
  let state := Ex.state_of "groups" "updated_at" (PStr Ex.jan1) in
  Iso.parse "unknown" = None
  ∧ update_bookmark Iso.parse self state (PStr "unknown") = Raise ValueError
  ∧ update_bookmark Iso.parse self state (PStr "unknown") ≠ Return state.
Proof. split_and!; [reflexivity | reflexivity | discriminate]. Qed.

(** C1 at work: a later candidate is written, an earlier one is not. *)
Lemma update_bookmark_writes_iff_later_witness :
  let self := Groups Ex.class_stream Ex.cfg in
  let state := Ex.state_of "groups" "updated_at" (PStr Ex.jan1) in
  update_bookmark Iso.parse self state (PStr Ex.jan2)
  = Return (Ex.state_of "groups" "updated_at" (PStr Ex.jan2))
  ∧ update_bookmark Iso.parse self state (PStr Ex.dec31) = Return state
  ∧ update_bookmark Iso.parse self state PNone = Return state
  ∧ advances Iso.parse self state (PStr Ex.jan2)
  ∧ ¬ advances Iso.parse self state (PStr Ex.dec31)
  ∧ update_bookmark Iso.parse self state (PStr "unknown") = Raise ValueError
  ∧ update_bookmark Iso.parse self ∅ (PStr Ex.jan2) = Raise TypeError.
Proof.
  intros self state.
  destruct (update_bookmark_writes_iff_later Iso.parse self state (PStr Ex.jan2))
    as (H2 & _).
  destruct (update_bookmark_writes_iff_later Iso.parse self state (PStr Ex.dec31))
    as (H31 & _).
  destruct (update_bookmark_writes_iff_later Iso.parse self state (PStr "unknown"))
    as (_ & _ & Hcandidate & _).
  destruct (update_bookmark_writes_iff_later Iso.parse self ∅ (PStr Ex.jan2))
    as (_ & Hstored & _).
  assert (update_bookmark Iso.parse self state (PStr Ex.jan2)
          = Return (Ex.state_of "groups" "updated_at" (PStr Ex.jan2))) as E2
    by (vm_compute; reflexivity).
  assert (update_bookmark Iso.parse self state (PStr Ex.dec31) = Return state) as E31
    by (vm_compute; reflexivity).
  rewrite E2 in H2. rewrite E31 in H31.
  split_and!; [exact E2 | exact E31 | vm_compute; reflexivity | | | |].
  - destruct H2 as [[Hadv _]|[_ Hsame]]; [exact Hadv|].
    exfalso.
    apply (f_equal (λ m, singer.get_bookmark m "groups" "updated_at")) in Hsame.
    vm_compute in Hsame. discriminate Hsame.
  - destruct H31 as [[Hadv _]|[Hno _]]; [|exact Hno].
    destruct Hadv as (c & t & Hc & _ & Ht & Hlt).
    vm_compute in Hc, Ht. injection Hc as <-. injection Ht as <-. lia.
  - exact (Hcandidate 1577836800%Z ValueError eq_refl eq_refl eq_refl).
  - exact (Hstored TypeError eq_refl).
Defined.

(** C2 at work: three users, one without [updated_at], fed in two orders. *)
Lemma Users_sync_bookmark_is_latest_witness :
  let self := Users Ex.class_stream Ex.cfg in
  let state := Ex.state_of "users" "updated_at" (PStr Ex.jan1) in
  let records :=
    [Ex.record 1 "updated_at" Ex.jan2; Ex.record 2 "updated_at" Ex.dec31;
     PDict {[ #"id" := PInt 3; #"updated_at" := PNone ]}] in
  let pages := λ _ : Z, Ex.one_page "users" records in
  let pages' := λ _ : Z, Ex.one_page "users" (rev records) in
  let bad := Ex.record 4 "updated_at" "unknown" in
  let stopped := λ _ : Z,
    Ex.one_page "users" (records ++ [bad; Ex.record 5 "updated_at" Ex.feb1]) in
  get_bookmark Iso.parse self state = Return 1577836800%Z
  ∧ Forall (feedable Iso.parse "updated_at") records
  ∧ (∃ state1 evs1 state2 evs2 m,
       Users_sync Iso.parse self pages state = (state1, evs1, Return tt) ∧
       Users_sync Iso.parse self pages' state = (state2, evs2, Return tt) ∧
       get_bookmark Iso.parse self state1 = Return m ∧
       get_bookmark Iso.parse self state2 = Return m ∧
       (1577836800 ≤ m)%Z ∧
       (∀ t, t ∈ fed_instants Iso.parse "updated_at" records → (t ≤ m)%Z) ∧
       (m = 1577836800%Z ∨ m ∈ fed_instants Iso.parse "updated_at" records))
  ∧ ∃ state1,
      Users_sync Iso.parse self stopped state
      = (state1, Yield (stream self) <$> records, Raise ValueError) ∧
      get_bookmark Iso.parse self state1
      = Return (latest 1577836800 (fed_instants Iso.parse "updated_at" records)).
Proof.
  intros self state records pages pages' bad stopped.
  assert (get_bookmark Iso.parse self state = Return 1577836800%Z) as Hstart
    by reflexivity.
  assert (Forall (feedable Iso.parse "updated_at") records) as Hfeed.
  { constructor; [|constructor; [|constructor; [|constructor]]].
    - eexists. split; [reflexivity|]. right. eexists. reflexivity.
    - eexists. split; [reflexivity|]. right. eexists. reflexivity.
    - eexists. split; [reflexivity|]. left. reflexivity. }
  split_and!; [exact Hstart | exact Hfeed | |].
  - destruct (Users_sync_bookmark_is_latest Iso.parse Ex.class_stream Ex.cfg
                pages state 1577836800%Z records Done Hstart)
      as [Hall _]; [vm_compute; reflexivity|].
    apply (Hall eq_refl Hfeed pages' (rev records)).
    + vm_compute. reflexivity.
    + apply Permutation_rev.
  - destruct (Users_sync_bookmark_is_latest Iso.parse Ex.class_stream Ex.cfg
                stopped state 1577836800%Z
                (records ++ [bad; Ex.record 5 "updated_at" Ex.feb1]) Done Hstart)
      as [_ Hstop]; [vm_compute; reflexivity|].
    apply (Hstop records [Ex.record 5 "updated_at" Ex.feb1] bad ValueError
                 eq_refl Hfeed).
    right. exists (PStr "unknown"). split_and!; reflexivity.
Defined.

(** C2, where the claim fails: a value that does not parse ends the run,
    and the bookmark stays below the latest valid timestamp fed. *)
Lemma Users_sync_unparsable_stops_below_latest :
  let self := Users Ex.class_stream Ex.cfg in
  let state := Ex.state_of "users" "updated_at" (PStr Ex.jan1) in
  let records :=
    [Ex.record 1 "updated_at" "unknown"; Ex.record 2 "updated_at" Ex.jan2] in
  let pages := λ _ : Z, Ex.one_page "users" records in
  Users_sync Iso.parse self pages state = (state, [], Raise ValueError)
  ∧ get_bookmark Iso.parse self state = Return 1577836800%Z
  ∧ fed_instants Iso.parse "updated_at" records = [1577923200%Z]
  ∧ (1577836800 < 1577923200)%Z.
Proof. split_and!; [vm_compute; reflexivity | reflexivity | reflexivity | lia]. Qed.

(** C5, where the claim fails: the second run over the same records yields
    the record at the bookmark once more. *)
Lemma Groups_sync_second_run_yields_a_record :
  let self := Groups Ex.class_stream Ex.cfg in
  let state := Ex.state_of "groups" "updated_at" (PStr Ex.jan1) in
  let state1 := Ex.state_of "groups" "updated_at" (PStr Ex.jan2) in
  let g1 := Ex.record 1 "updated_at" Ex.jan2 in
  let g2 := Ex.record 2 "updated_at" Ex.dec31 in
  let pages := Ex.one_page "groups" [g1; g2] in
  Groups_sync Iso.parse self pages state
  = (state1, [Yield (stream self) g1], Return tt)
  ∧ Groups_sync Iso.parse self pages state1
    = (state1, [Yield (stream self) g1], Return tt)
  ∧ length (yields (Groups_sync Iso.parse self pages state1).1.2) = 1.
Proof. split_and!; vm_compute; reflexivity. Qed.

(** C5 at work on the same run. *)
Lemma Groups_sync_second_run_yields_boundary_witness :
  let self := Groups Ex.class_stream Ex.cfg in
  let state := Ex.state_of "groups" "updated_at" (PStr Ex.jan1) in
  let state1 := Ex.state_of "groups" "updated_at" (PStr Ex.jan2) in
  let g1 := Ex.record 1 "updated_at" Ex.jan2 in
  let g2 := Ex.record 2 "updated_at" Ex.dec31 in
  let pages := Ex.one_page "groups" [g1; g2] in
  Iso.parse "" = None
  ∧ Groups_sync Iso.parse self pages state
    = (state1, [Yield (stream self) g1], Return tt)
  ∧ ∃ bookmark1 records,
      get_bookmark Iso.parse self state1 = Return bookmark1 ∧
      CursorBasedStream_get_objects self pages = (records, Done) ∧
      Groups_sync Iso.parse self pages state1
      = (state1,
         Yield (stream self)
           <$> filter (at_instant Iso.parse "updated_at" bookmark1) records,
         Return tt).
Proof.
  intros self state state1 g1 g2 pages.
  assert (Groups_sync Iso.parse self pages state
          = (state1, [Yield (stream self) g1], Return tt)) as Hrun
    by (vm_compute; reflexivity).
  split_and!; [reflexivity | exact Hrun |].
  exact (Groups_sync_second_run_yields_boundary Iso.parse Ex.class_stream
           eq_refl Ex.cfg pages state state1 _ Hrun).
Defined.

(** The comments of ticket 5 in the examples: one created at the ticket
    bookmark of the state, one later. *)
Lemma boundary_included_by_groups_excluded_by_comments_witness :
  let groups := Groups Ex.class_stream Ex.cfg in
  let g1 := Ex.record 1 "updated_at" Ex.jan1 in
  let g2 := Ex.record 2 "updated_at" Ex.dec31 in
  let groups_run :=
    Groups_sync Iso.parse groups (Ex.one_page "groups" [g1; g2])
                (Ex.state_of "groups" "updated_at" (PStr Ex.jan1)) in
  let comments := TicketComments Ex.class_stream Ex.cfg in
  let c1 := Ex.record 11 "created_at" Ex.jan2 in
  let c2 := Ex.record 12 "created_at" Ex.feb1 in
  let comments_pages := λ _ : pyval, Ex.one_page "comments" [c1; c2] in
  let h := Heap (Ex.state_of "tickets" "generated_timestamp" (PStr Ex.jan2))
                0 0 0 None PNone in
  let comments_run :=
    TicketComments_sync Iso.parse comments_pages comments (PInt 5) h in
  groups_run.2 = Return tt
  ∧ comments_run.2 = Return tt
  ∧ Yield (stream groups) g1 ∈ (groups_run.1.2)
  ∧ (Yield (stream comments) (with_ticket_id (PInt 5) c1) ∉ (comments_run.1.2))
  ∧ Yield (stream comments) (with_ticket_id (PInt 5) c2) ∈ (comments_run.1.2).
Proof.
  intros groups g1 g2 groups_run comments c1 c2 comments_pages h comments_run.
  destruct (boundary_included_by_groups_excluded_by_comments
              Iso.parse Ex.class_stream comments_pages Ex.cfg) as [Hin Hout].
  split_and!.
  - vm_compute. reflexivity.
  - vm_compute. reflexivity.
  - apply (Hin (Ex.one_page "groups" [g1; g2])
               (Ex.state_of "groups" "updated_at" (PStr Ex.jan1))
               groups_run.1.1 groups_run.1.2 1577836800%Z g1).
    + vm_compute. reflexivity.
    + reflexivity.
    + apply elem_of_cons. by left.
    + reflexivity.
  - apply (Hout (PInt 5) h comments_run.1.1 comments_run.1.2 [c1; c2] Done
                (Ex.state_of "tickets" "generated_timestamp" (PStr Ex.jan2)
                 ∪ Ex.state_of "ticket_comments" "created_at"
                     (PDict {[ #"5" := PStr Ex.jan2 ]}))
                1577923200%Z c1).
    + exact I.
    + vm_compute. reflexivity.
    + vm_compute. reflexivity.
    + vm_compute. reflexivity.
    + vm_compute. reflexivity.
    + apply elem_of_cons. by left.
    + vm_compute. reflexivity.
  - assert (comments_run.1.2
            = [Yield (stream comments) (with_ticket_id (PInt 5) c2)]) as ->
      by (vm_compute; reflexivity).
    apply elem_of_cons. by left.
Defined.


(** C6 at work: two children of ['tickets'] without ['tickets']. *)
Lemma validate_dependencies_aggregates_violations_witness :
  let selected := ["ticket_audits"; "groups"; "ticket_comments"] in
  length (dependency_errs selected) = 2
  ∧ validate_dependencies selected
    = Raise (DependencyException
               ("Unable to extract ticket_audits data. "
                +:+ "To receive ticket_audits data, you also need to select tickets. "
                +:+ "Unable to extract ticket_comments data. "
                +:+ "To receive ticket_comments data, you also need to select tickets."))
  ∧ validate_dependencies ["groups"; "tickets"; "ticket_audits"] = Return tt.
Proof.
  intros selected.
  destruct (validate_dependencies_aggregates_violations selected)
    as (_ & _ & Hraise & _ & Hlen & _).
  destruct (validate_dependencies_aggregates_violations
              ["groups"; "tickets"; "ticket_audits"]) as (_ & Hok & _).
  split_and!.
  - rewrite Hlen; [reflexivity|]. vm_compute.
    intros H. repeat (apply elem_of_cons in H as [H|H]; [discriminate H|]).
    by apply elem_of_nil in H.
  - rewrite Hraise; [reflexivity|]. discriminate.
  - apply Hok. reflexivity.
Defined.

(** C9 at work: a state that has no ticket-comments bookmark at all. *)
Lemma seed_guard_total_after_ensure_witness :
  let state := Ex.state_of "tickets" "generated_timestamp" (PStr Ex.jan2) in
  (state !! "ticket_comments") ≫= (.!! "created_at") = None
  ∧ ∃ seed : bool,
      seed_guard
        (singer.get_bookmark
           (singer.ensure_bookmark_path state "ticket_comments" "created_at")
           "ticket_comments" "created_at")
      = Return seed
      ∧ seed = true.
Proof.
  intros state.
  assert ((state !! "ticket_comments") ≫= (.!! "created_at") = None) as Hnone
    by reflexivity.
  split; [exact Hnone|].
  destruct (seed_guard_total_after_ensure state (or_introl Hnone))
    as (seed & Hguard & Hiff).
  exists seed. split; [exact Hguard|].
  apply Hiff. intros (m & k & v & Hm & _). rewrite Hnone in Hm. discriminate Hm.
Defined.

(** C10, where the code fails: a membership that comes back without the
    key [updated_at] ends the run with [KeyError]; it is not yielded. *)
Theorem GroupMemberships_sync_missing_updated_at_raises :
  let self := GroupMemberships Ex.class_stream Ex.cfg in
  let state := Ex.state_of "group_memberships" "updated_at" (PStr Ex.jan1) in
  let membership := PDict {[ #"id" := PInt 7 ]} in
  GroupMemberships_sync Iso.parse self
    (Ex.one_page "group_memberships" [membership]) state
  = (state, [], Raise KeyError).
Proof. vm_compute. reflexivity. Qed.

(** The same membership with [updated_at] set to [None] is yielded. *)
Example GroupMemberships_sync_null_updated_at_yields :
  let self := GroupMemberships Ex.class_stream Ex.cfg in
  let state := Ex.state_of "group_memberships" "updated_at" (PStr Ex.jan1) in
  let membership := PDict {[ #"id" := PInt 7; #"updated_at" := PNone ]} in
  GroupMemberships_sync Iso.parse self
    (Ex.one_page "group_memberships" [membership]) state
  = (state,
     [LogInfo ("group_membership record with id: 7"
               +:+ " does not have an updated_at field so it will be syncd...");
      Yield (stream self) membership],
     Return tt).
Proof. vm_compute. reflexivity. Qed.

(** C8, where the claim fails: at the first comment of a run the empty
    per-ticket map is seeded, under the text of the ticket id, with the
    ticket bookmark; after the comments of the ticket that entry still holds
    the seed, which is the [created_at] of no comment. *)
Lemma per_ticket_seed_entry_is_no_created_at :
  let comments := TicketComments Ex.class_stream Ex.cfg in
  let c1 := Ex.record 11 "created_at" Ex.jan2 in
  let c2 := Ex.record 12 "created_at" Ex.feb1 in
  let comments_pages := λ _ : pyval, Ex.one_page "comments" [c1; c2] in
  let h := Heap (Ex.state_of "tickets" "generated_timestamp" (PStr Ex.jan15))
                0 0 0 None PNone in
  let run := TicketComments_sync Iso.parse comments_pages comments (PInt 5) h in
  run.2 = Return tt
  ∧ per_ticket_map (state run.1.1) !! #"5" = Some (PStr Ex.jan15)
  ∧ per_ticket_map (state run.1.1) !! KInt 5 = Some (PStr Ex.feb1)
  ∧ py_getitem c1 #"created_at" = Return (PStr Ex.jan2)
  ∧ py_getitem c2 #"created_at" = Return (PStr Ex.feb1)
  ∧ PStr Ex.jan15 ≠ PStr Ex.jan2
  ∧ PStr Ex.jan15 ≠ PStr Ex.feb1.
Proof.
  split_and!; try (vm_compute; reflexivity); discriminate.
Qed.

(** C8 at work on the same comments. *)
Lemma per_ticket_bookmarks_monotone_additive_latest_witness :
  let comments := TicketComments Ex.class_stream Ex.cfg in
  let c1 := Ex.record 11 "created_at" Ex.jan2 in
  let c2 := Ex.record 12 "created_at" Ex.feb1 in
  let comments_pages := λ _ : pyval, Ex.one_page "comments" [c1; c2] in
  let h := Heap (Ex.state_of "tickets" "generated_timestamp" (PStr Ex.jan15)
                 ∪ Ex.state_of "ticket_comments" "created_at"
                     (PDict {[ KInt 5 := PStr Ex.jan1; KInt 6 := PStr Ex.jan2 ]}))
                0 0 0 None PNone in
  let run := TicketComments_sync Iso.parse comments_pages comments (PInt 5) h in
  Iso.parse "" = None
  ∧ run.2 = Return tt
  ∧ (∃ v' tv', per_ticket_map (state run.1.1) !! KInt 6 = Some v'
               ∧ strptime_with_tz Iso.parse v' = Return tv'
               ∧ (1577923200 ≤ tv')%Z)
  ∧ ∃ k v' t',
      as_key (PInt 5) = Return k
      ∧ per_ticket_map (state run.1.1) !! k = Some v'
      ∧ strptime_with_tz Iso.parse v' = Return t'
      ∧ ∀ c, c ∈ [c1; c2] →
          ∃ created_at t,
            py_getitem (with_ticket_id (PInt 5) c) #"created_at" = Return created_at
            ∧ strptime_with_tz Iso.parse created_at = Return t ∧ (t ≤ t')%Z.
Proof.
  intros comments c1 c2 comments_pages h run.
  assert (run = (run.1.1, run.1.2, Return tt)) as Hrun
    by (vm_compute; reflexivity).
  destruct (per_ticket_bookmarks_monotone_additive_latest
              Iso.parse Ex.class_stream comments_pages eq_refl Ex.cfg (PInt 5)
              h run.1.1 run.1.2 [c1; c2] Done eq_refl Hrun)
    as (Hmono & _ & Hlatest).
  split; [reflexivity|]. split; [vm_compute; reflexivity|]. split.
  - destruct (Hmono (KInt 6) (PStr Ex.jan2) 1577923200%Z)
      as (v' & tv' & Hv' & Hp' & Hle & _);
      [vm_compute; reflexivity | reflexivity |].
    exists v', tv'. split; [exact Hv'|]. split; [exact Hp' | exact Hle].
  - destruct (Hlatest ltac:(discriminate))
      as (k & v' & t' & Hk & Hv' & Hp' & Hall & _).
    exists k, v', t'.
    split; [exact Hk|]. split; [exact Hv'|]. split; [exact Hp' | exact Hall].
Defined.


(** ** The further properties at work *)

(** A later and an earlier candidate for the bookmark of [groups]. *)
Lemma update_bookmark_monotone_frame_idempotent_witness :
  let self := Groups Ex.class_stream Ex.cfg in
  let state := Ex.state_of "groups" "updated_at" (PStr Ex.jan1) in
  let state' := Ex.state_of "groups" "updated_at" (PStr Ex.jan2) in
  update_bookmark Iso.parse self state (PStr Ex.jan2) = Return state'
  ∧ (∃ current current',
       get_bookmark Iso.parse self state = Return current ∧
       get_bookmark Iso.parse self state' = Return current' ∧
       (current ≤ current')%Z)
  ∧ (∀ n k, (n, k) ≠ (name self, replication_key self) →
       singer.get_bookmark state' n k = singer.get_bookmark state n k)
  ∧ update_bookmark Iso.parse self state' (PStr Ex.jan2) = Return state'.
Proof.
  intros self state state'.
  assert (update_bookmark Iso.parse self state (PStr Ex.jan2) = Return state')
    as Hup by (vm_compute; reflexivity).
  split; [exact Hup|].
  exact (update_bookmark_monotone_frame_idempotent
           Iso.parse self state state' (PStr Ex.jan2) Hup).
Defined.

(** A listing of [groups] that stops by "not found" after two groups, one
    of them before the bookmark. *)
Lemma Groups_sync_never_regresses_witness :
  let self := Groups Ex.class_stream Ex.cfg in
  let state := Ex.state_of "groups" "updated_at" (PStr Ex.jan1) in
  let g1 := Ex.record 1 "updated_at" Ex.jan2 in
  let g2 := Ex.record 2 "updated_at" Ex.dec31 in
  let pages := ([PDict {[ #"groups" := PList [g1; g2] ]}], Raised ZendeskNotFound) in
  let run := Groups_sync Iso.parse self pages state in
  run.2 = Raise ZendeskNotFound
  ∧ (∃ bookmark', get_bookmark Iso.parse self run.1.1 = Return bookmark'
                  ∧ (1577836800 ≤ bookmark')%Z)
  ∧ (∀ n k, (n, k) ≠ (name self, replication_key self) →
       singer.get_bookmark run.1.1 n k = singer.get_bookmark state n k)
  ∧ ∃ n, run.1.2
         = Yield (stream self)
           <$> filter (at_or_after Iso.parse "updated_at" 1577836800)
                      (take n (CursorBasedStream_get_objects self pages).1)
         ∧ (run.2 = Return tt →
            n = length (CursorBasedStream_get_objects self pages).1
            ∧ (CursorBasedStream_get_objects self pages).2 = Done).
Proof.
  intros self state g1 g2 pages run.
  assert (run = (run.1.1, run.1.2, run.2)) as Hrun by (by destruct run as [[? ?] ?]).
  split; [vm_compute; reflexivity|].
  exact (Groups_sync_never_regresses Iso.parse self pages state
           run.1.1 run.1.2 run.2 1577836800%Z eq_refl Hrun).
Defined.

(** An export of two users, the second without a timestamp that parses. *)
Lemma Users_sync_yields_every_record_witness :
  let self := Users Ex.class_stream Ex.cfg in
  let state := Ex.state_of "users" "updated_at" (PStr Ex.jan1) in
  let u1 := Ex.record 1 "updated_at" Ex.dec31 in
  let u2 := Ex.record 2 "updated_at" "unknown" in
  let pages := λ _ : Z, Ex.one_page "users" [u1; u2] in
  let run := Users_sync Iso.parse self pages state in
  let listing := CursorBasedExportStream_get_objects self (pages 1577836800%Z) in
  run.2 = Raise ValueError
  ∧ run.1.2 = [Yield (stream self) u1]
  ∧ ∃ n, run.1.2 = Yield (stream self) <$> take n listing.1
         ∧ (run.2 = Return tt → n = length listing.1 ∧ listing.2 = Done).
Proof.
  intros self state u1 u2 pages run listing.
  assert (run = (run.1.1, run.1.2, run.2)) as Hrun by (by destruct run as [[? ?] ?]).
  split; [vm_compute; reflexivity|]. split; [vm_compute; reflexivity|].
  exact (Users_sync_yields_every_record Iso.parse self pages state
           run.1.1 run.1.2 run.2 1577836800%Z eq_refl Hrun).
Defined.

(** Three memberships: one after the bookmark, one before it, one whose
    [updated_at] is [None]. *)
Lemma GroupMemberships_sync_completed_run_witness :
  let self := GroupMemberships Ex.class_stream Ex.cfg in
  let state := Ex.state_of "group_memberships" "updated_at" (PStr Ex.jan1) in
  let m1 := Ex.record 1 "updated_at" Ex.jan2 in
  let m2 := Ex.record 2 "updated_at" Ex.dec31 in
  let m3 := PDict {[ #"id" := PInt 3; #"updated_at" := PNone ]} in
  let pages := Ex.one_page "group_memberships" [m1; m2; m3] in
  let run := GroupMemberships_sync Iso.parse self pages state in
  run.2 = Return tt
  ∧ yields run.1.2 = [(stream self, m1); (stream self, m3)]
  ∧ ∃ bookmark records,
      get_bookmark Iso.parse self state = Return bookmark ∧
      CursorBasedStream_get_objects self pages = (records, Done) ∧
      yields run.1.2
      = pair (stream self) <$> filter (membership_kept Iso.parse bookmark) records ∧
      get_bookmark Iso.parse self run.1.1
      = Return (latest bookmark
                  (fed_instants Iso.parse "updated_at"
                     (filter (membership_kept Iso.parse bookmark) records))).
Proof.
  intros self state m1 m2 m3 pages run.
  assert (run = (run.1.1, run.1.2, Return tt)) as Hrun by (vm_compute; reflexivity).
  split; [vm_compute; reflexivity|]. split; [vm_compute; reflexivity|].
  exact (GroupMemberships_sync_completed_run Iso.parse self pages state
           run.1.1 run.1.2 Hrun).
Defined.

(** Three pages of metrics for a ticket, the second without the metric:
    two pages counted, one record yielded; and two pages, both with the
    metric, of a listing that ends by "not found". *)
Lemma TicketMetrics_sync_counts_pages_witness :
  let self := TicketMetrics Ex.class_stream Ex.cfg in
  let metric := PDict {[ #"id" := PInt 7 ]} in
  let page := PDict {[ #"ticket_metric" := metric ]} in
  let metrics_pages := λ _ : pyval, ([page; PDict ∅; page], Done) in
  let complete := λ _ : pyval, ([page; page], Raised ZendeskNotFound) in
  let h := Heap ∅ 0 0 0 None PNone in
  TicketMetrics_sync metrics_pages self (PInt 5) h
  = (set_metrics_count (λ c, c + 2) h, [Yield (stream self) metric],
     Raise KeyError)
  ∧ TicketMetrics_sync complete self (PInt 5) h
    = (set_metrics_count (λ c, c + 2) h,
       [Yield (stream self) metric; Yield (stream self) metric],
       Raise ZendeskNotFound).
Proof.
  intros self metric page metrics_pages complete h.
  destruct (TicketMetrics_sync_counts_pages metrics_pages self (PInt 5) h)
    as [_ Hstops].
  destruct (TicketMetrics_sync_counts_pages complete self (PInt 5) h)
    as [Hall _].
  split.
  - apply (Hstops [page] (PDict ∅) [page] [metric] KeyError eq_refl).
    + constructor; [reflexivity | constructor].
    + reflexivity.
  - apply (Hall [metric; metric]).
    constructor; [reflexivity|]. constructor; [reflexivity | constructor].
Defined.

(** The comments of ticket 5 again: one of the two is yielded and counted. *)
Lemma TicketComments_sync_counts_yields_witness :
  let comments := TicketComments Ex.class_stream Ex.cfg in
  let c1 := Ex.record 11 "created_at" Ex.jan2 in
  let c2 := Ex.record 12 "created_at" Ex.feb1 in
  let comments_pages := λ _ : pyval, Ex.one_page "comments" [c1; c2] in
  let h := Heap (Ex.state_of "tickets" "generated_timestamp" (PStr Ex.jan2))
                4 2 7 None PNone in
  let run := TicketComments_sync Iso.parse comments_pages comments (PInt 5) h in
  length run.1.2 = 1
  ∧ audits_count run.1.1 = audits_count h
  ∧ metrics_count run.1.1 = metrics_count h
  ∧ comments_count run.1.1 = comments_count h + length run.1.2
  ∧ ∃ records, run.1.2 = Yield (Ex.class_stream "ticket_comments") <$> records.
Proof.
  intros comments c1 c2 comments_pages h run.
  assert (run = (run.1.1, run.1.2, run.2)) as Hrun by (by destruct run as [[? ?] ?]).
  split; [vm_compute; reflexivity|].
  exact (TicketComments_sync_counts_yields Iso.parse Ex.class_stream comments_pages
           Ex.cfg (PInt 5) h run.1.1 run.1.2 run.2 Hrun).
Defined.

(** Two tickets, with a metric each, no audit, and the two comments of the
    examples each: the three metric points of the run. *)
Lemma Tickets_sync_metric_points_count_yields_witness :
  let self := Tickets Ex.class_stream Ex.cfg in
  let tickets := λ _ : Z,
    Ex.one_page "tickets" [Ex.ticket 5 1577923200; Ex.ticket 6 1580515200] in
  let metrics_pages := λ _ : pyval,
    ([PDict {[ #"ticket_metric" := PDict {[ #"id" := PInt 7 ]} ]}], Done) in
  let comments_pages := λ _ : pyval,
    Ex.one_page "comments" [Ex.record 11 "created_at" Ex.jan2;
                            Ex.record 12 "created_at" Ex.feb1] in
  let state := Ex.state_of "tickets" "generated_timestamp" (PStr Ex.jan1) in
  let run :=
    Tickets_sync Iso.parse Ex.strftime_utc Ex.class_stream Ex.no_pages
                 metrics_pages comments_pages tickets self state in
  run.2 = Return tt
  ∧ metric_points run.1.2
    = [("ticket_audits", 0); ("ticket_metrics", 2); ("ticket_comments", 2)]
  ∧ metric_points run.1.2
    = omap (λ id, if Ex.class_stream id is Some _
                  then Some (id, count_yields id run.1.2) else None)
           ["ticket_audits"; "ticket_metrics"; "ticket_comments"].
Proof.
  intros self tickets metrics_pages comments_pages state run.
  assert (run = (run.1.1, run.1.2, Return tt)) as Hrun by (vm_compute; reflexivity).
  split; [vm_compute; reflexivity|]. split; [vm_compute; reflexivity|].
  refine (Tickets_sync_metric_points_count_yields
            Iso.parse Ex.strftime_utc Ex.class_stream Ex.no_pages metrics_pages
            comments_pages tickets _ Ex.cfg state run.1.1 run.1.2 Hrun).
  intros id entry H. injection H as <-. reflexivity.
Defined.

(** A listing of three pages, the second without the items. *)
Lemma page_without_items_is_skipped_or_raises_witness :
  let self := TicketAudits Ex.class_stream Ex.cfg in
  let a1 := PDict {[ #"id" := PInt 1 ]} in
  let a2 := PDict {[ #"id" := PInt 2 ]} in
  let before := [PDict {[ #"audits" := PList [a1] ]}] in
  let after := [PDict {[ #"audits" := PList [a2] ]}] in
  let d : gmap pykey pyval := {[ #"count" := PInt 0 ]} in
  let pages := (before ++ PDict d :: after, Done) in
  let pages' := (before ++ after, Done) in
  TicketAudits_get_objects (λ _, pages) self (PInt 5) = ([a1; a2], Done)
  ∧ TicketAudits_get_objects (λ _, pages) self (PInt 5)
    = TicketAudits_get_objects (λ _, pages') self (PInt 5)
  ∧ TicketComments_get_objects (λ _, pages) self (PInt 5)
    = TicketComments_get_objects (λ _, pages') self (PInt 5)
  ∧ CursorBasedStream_get_objects self pages
    = match CursorBasedStream_get_objects self (before, Done) with
      | (objects, Done) => (objects, Raised KeyError)
      | (objects, Raised e) => (objects, Raised e)
      end.
Proof.
  intros self a1 a2 before after d pages pages'.
  split; [vm_compute; reflexivity|].
  exact (page_without_items_is_skipped_or_raises self (PInt 5) before after d Done
           eq_refl).
Defined.

(** A catalog with the tickets, one of their children, an unselected
    stream and the users: the schema of the comments is written twice,
    and the comments are not synced on their own. *)
Lemma do_sync_steps_schedule_witness :
  let sync_stream := λ (_ : string) (state : bookmarks), (state, Return 3) in
  let catalog := [CatalogEntry "tickets" true; CatalogEntry "groups" false;
                  CatalogEntry "ticket_comments" true; CatalogEntry "users" true] in
  let run := do_sync_steps sync_stream catalog ∅ in
  run.2 = Return tt
  ∧ schemas_written run.1.2
    = ["tickets"; "ticket_comments"; "ticket_comments"; "users"]
  ∧ streams_synced run.1.2 = ["tickets"; "users"]
  ∧ states_written run.1.2 = [run.1.1]
  ∧ ∃ before, run.1.2 = before ++ [WriteState run.1.1; Log "Finished sync";
                                    LogAggregateRates].
Proof.
  intros sync_stream catalog run.
  assert (run = (run.1.1, run.1.2, Return tt)) as Hrun by (vm_compute; reflexivity).
  destruct (do_sync_steps_schedule sync_stream catalog ∅ run.1.1 run.1.2 Hrun)
    as (H1 & H2 & H3 & H4).
  split; [vm_compute; reflexivity|].
  split; [etransitivity; [exact H1 | vm_compute; reflexivity]|].
  split; [etransitivity; [exact H2 | vm_compute; reflexivity]|].
  split; [exact H3 | exact H4].
Defined.

(** Two groups, one of them before the bookmark: the run completes. *)
Lemma Groups_sync_completed_run_witness :
  let self := Groups Ex.class_stream Ex.cfg in
  let state := Ex.state_of "groups" "updated_at" (PStr Ex.jan1) in
  let g1 := Ex.record 1 "updated_at" Ex.jan2 in
  let g2 := Ex.record 2 "updated_at" Ex.dec31 in
  let pages := Ex.one_page "groups" [g1; g2] in
  let run := Groups_sync Iso.parse self pages state in
  run.1.2 = [Yield (stream self) g1]
  ∧ ∃ bookmark records,
      get_bookmark Iso.parse self state = Return bookmark ∧
      CursorBasedStream_get_objects self pages = (records, Done) ∧
      run.1.2 = Yield (stream self)
                <$> filter (at_or_after Iso.parse "updated_at" bookmark) records ∧
      get_bookmark Iso.parse self run.1.1
      = Return (latest bookmark
                  (fed_instants Iso.parse "updated_at"
                     (filter (at_or_after Iso.parse "updated_at" bookmark) records))).
Proof.
  intros self state g1 g2 pages run.
  assert (run = (run.1.1, run.1.2, Return tt)) as Hrun by (vm_compute; reflexivity).
  split; [vm_compute; reflexivity|].
  destruct (Groups_sync_completed_run Iso.parse self pages state) as [_ Hdone].
  exact (Hdone run.1.1 run.1.2 Hrun).
Defined.

(** An export whose second page is an error page. *)
Lemma CursorBasedExportStream_get_objects_error_page_witness :
  let self := Users Ex.class_stream Ex.cfg in
  let u1 := Ex.record 1 "updated_at" Ex.jan2 in
  let u2 := Ex.record 2 "updated_at" Ex.feb1 in
  let before := [PDict {[ #"users" := PList [u1] ]}] in
  let after := [PDict {[ #"users" := PList [u2] ]}] in
  let error : gmap pykey pyval := {[ #"message" := PStr "Forbidden" ]} in
  let d : gmap pykey pyval := {[ #"error" := PDict error ]} in
  CursorBasedExportStream_get_objects self (before ++ PDict d :: after, Done)
  = ([u1], Raised (OtherError "Error: Forbidden")).
Proof.
  intros self u1 u2 before after error d.
  destruct (CursorBasedExportStream_get_objects_error_page self before after d Done)
    as (Herror & _ & _).
  etransitivity; [exact (Herror error "Forbidden" eq_refl eq_refl eq_refl)|].
  vm_compute. reflexivity.
Defined.

(** Three user fields, two of them under the same key, put into a schema
    that had a custom property of its own. *)
Lemma add_custom_fields_replaces_custom_properties_witness :
  let fields :=
    [CustomField "text" "Plan" "plan" None;
     CustomField "dropdown" "Tier" "tier" (Some [PStr "gold"; PStr "silver"]);
     CustomField "date" "Plan since" "plan" None] in
  let schema :=
    PDict {[ #"properties" :=
               PDict {[ #"user_fields" :=
                          PDict {[ #"properties" :=
                                     PDict {[ #"old" := PDict ∅ ]} ]} ]} ]} in
  match Users_add_custom_fields (Fields fields) schema with
  | Discovered schema' warnings =>
      warnings = []
      ∧ ∃ properties,
          get_custom_properties schema' "user_fields" = Return (PDict properties)
          ∧ properties !! #"old" = None
          ∧ properties !! #"plan"
            = Some (PDict {[ #"type" := PList [PStr "string"; PStr "null"];
                             #"format" := PStr "datetime" ]})
  | _ => False
  end.
Proof.
  intros fields schema.
  destruct (add_custom_fields_replaces_custom_properties
              "users" "user_fields" fields schema) as [Hdone _].
  unfold Users_add_custom_fields.
  destruct (add_custom_fields "users" "user_fields" (Fields fields) schema)
    as [schema' warnings|response|e] eqn:Hrun.
  - destruct (Hdone schema' warnings eq_refl)
      as (Hw & _ & properties & _ & Hget & Hlookup).
    split; [exact Hw|]. exists properties.
    split; [exact Hget|]. split.
    + rewrite Hlookup. vm_compute. reflexivity.
    + rewrite Hlookup. vm_compute. reflexivity.
  - vm_compute in Hrun. discriminate Hrun.
  - vm_compute in Hrun. discriminate Hrun.
Defined.

(** A configuration with the keys of both ways to authenticate. *)
Lemma main_creds_precedence_witness :
  let config : gmap string pyval :=
    {[ "subdomain" := PStr "acme"; "access_token" := PStr "t0k3n";
       "email" := PStr "a@acme.test"; "api_token" := PStr "s3cr3t" ]} in
  let creds : gmap string pyval :=
    {[ "subdomain" := PStr "acme"; "oauth_token" := PStr "t0k3n" ]} in
  (main_creds config).2 = Return creds
  ∧ creds !! "oauth_token" = Some (PStr "t0k3n")
  ∧ creds !! "email" = None ∧ creds !! "token" = None
  ∧ (main_creds config).1 = [AuthInfo "Using OAuth authentication."].
Proof.
  intros config creds.
  assert ((main_creds config).2 = Return creds) as Hcreds
    by (vm_compute; reflexivity).
  split; [exact Hcreds|].
  destruct (main_creds_precedence config) as (Hgiven & _ & _).
  destruct (Hgiven creds Hcreds) as (_ & _ & Hoauth).
  exact Hoauth.
Defined.

(** The two tickets of the examples again, with their comments. *)
Lemma Tickets_sync_never_regresses_witness :
  let self := Tickets Ex.class_stream Ex.cfg in
  let tickets := λ _ : Z,
    Ex.one_page "tickets" [Ex.ticket 5 1577923200; Ex.ticket 6 1580515200] in
  let comments_pages := λ _ : pyval,
    Ex.one_page "comments" [Ex.record 11 "created_at" Ex.jan2;
                            Ex.record 12 "created_at" Ex.feb1] in
  let state : bookmarks :=
    {[ "tickets" := {[ "generated_timestamp" := PStr Ex.jan1 ]};
       "groups" := {[ "updated_at" := PStr Ex.jan15 ]} ]} in
  let run :=
    Tickets_sync Iso.parse Ex.strftime_utc Ex.class_stream Ex.no_pages
                 Ex.no_pages comments_pages tickets self state in
  get_bookmark Iso.parse self run.1.1 = Return 1580515200%Z
  ∧ (∃ bookmark', get_bookmark Iso.parse self run.1.1 = Return bookmark'
                  ∧ (1577836800 ≤ bookmark')%Z)
  ∧ ∀ n k, n ≠ "ticket_comments" → (n, k) ≠ ("tickets", "generated_timestamp") →
      singer.get_bookmark run.1.1 n k = singer.get_bookmark state n k.
Proof.
  intros self tickets comments_pages state run.
  assert (run = (run.1.1, run.1.2, run.2)) as Hrun by (by destruct run as [[? ?] ?]).
  split; [vm_compute; reflexivity|].
  exact (Tickets_sync_never_regresses Iso.parse Ex.strftime_utc Ex.class_stream
           Ex.no_pages Ex.no_pages comments_pages tickets Ex.cfg state
           run.1.1 run.1.2 run.2 1577836800%Z eq_refl Hrun).
Defined.

(** A field of a type the table does not have, a dropdown without options
    and a dropdown with one. *)
Lemma process_custom_field_schema_witness :
  let unsupported := CustomField "tagger" "Tags" "tags" None in
  let bare := CustomField "dropdown" "Tier" "tier" None in
  let tier := CustomField "dropdown" "Tier" "tier" (Some [PStr "gold"]) in
  process_custom_field unsupported
  = Raise (OtherError
             "Discovered unsupported type for custom field Tags (key: tags): tagger")
  ∧ process_custom_field bare = Raise TypeError
  ∧ ∃ d, process_custom_field tier = Return (PDict d)
         ∧ d !! #"type" = Some (PList [PStr "string"; PStr "null"])
         ∧ d !! #"format" = None
         ∧ d !! #"enum" = Some (PList [PStr "gold"])
         ∧ ∀ k, is_Some (d !! k) → k ∈ [KStr "type"; KStr "format"; KStr "enum"].
Proof.
  intros unsupported bare tier.
  destruct (process_custom_field_schema unsupported) as [_ Hunsupported].
  destruct (process_custom_field_schema bare) as [_ Hbare].
  destruct (process_custom_field_schema tier) as [_ Htier].
  split; [exact Hunsupported|].
  split; [exact (proj2 (proj2 Hbare)) | exact (proj2 (proj2 Htier))].
Defined.
